(** * Python-Agents-Assistant: orchestrator, agent contract and adapters

    A shallow embedding of [orchestrator.py], the agents under [agents/],
    [llm/llm_connector.py], and the parts of [utils/ui.py] and [main.py]
    that feed them, with the properties of the dispatch layer.

    Conventions.
    - A Python [str] is a [string], a sequence of code points; whitespace
      is the class [str.strip] and [\s] use.
    - A Python [dict] with string keys is an insertion-ordered association
      list with unique keys ([dict_wf]).
    - A call that may raise returns an [outcome]; [try ... except Exception]
      is [try_except], which lets through what is not an [Exception].
    - Network and third-party libraries (httpx, docling, FAISS, langchain)
      are oracles carried by the objects that own them. *)

From Stdlib Require Import List Bool Arith NArith ZArith QArith Lia.
From Stdlib.Strings Require Byte.
Import ListNotations.
Close Scope Q_scope.
Open Scope list_scope.

Set Warnings "-register-all".

(** ** Python strings *)

(** A Python [str] is a sequence of Unicode code points; a character is
    its code point. *)
Definition char : Set := N.

Inductive string : Set :=
| EmptyString
| String (c : char) (s : string).

(** [s + t] *)
Fixpoint append (s t : string) : string :=
  match s with
  | EmptyString => t
  | String c s' => String c (append s' t)
  end.

Module Char.
Definition eqb (c d : char) : bool := N.eqb c d.
End Char.

Module String.
Fixpoint eqb (s t : string) : bool :=
  match s, t with
  | EmptyString, EmptyString => true
  | String c s', String d t' => Char.eqb c d && eqb s' t'
  | _, _ => false
  end.

(** [len(s)] *)
Fixpoint length (s : string) : nat :=
  match s with
  | EmptyString => 0
  | String _ s' => S (length s')
  end.

(** [s[:n]] *)
Fixpoint take (n : nat) (s : string) : string :=
  match n, s with
  | S n', String c s' => String c (take n' s')
  | _, _ => EmptyString
  end.

(** The characters of [s], one by one. *)
Fixpoint to_list (s : string) : list char :=
  match s with
  | EmptyString => []
  | String c s' => c :: to_list s'
  end.
End String.

(** Source literals are written in UTF-8; a literal stands for the code
    points it encodes. *)
Module Utf8.
Definition continuation (b : Byte.byte) : N := N.land (Byte.to_N b) 63.

Fixpoint decode (l : list Byte.byte) : string :=
  match l with
  | [] => EmptyString
  | b :: l1 =>
      let n := Byte.to_N b in
      if (n <? 192)%N then String n (decode l1)
      else
        match l1 with
        | [] => String n EmptyString
        | b1 :: l2 =>
            if (n <? 224)%N
            then String (N.land n 31 * 64 + continuation b1)%N (decode l2)
            else
              match l2 with
              | [] => String n (decode l1)
              | b2 :: l3 =>
                  if (n <? 240)%N
                  then String ((N.land n 15 * 64 + continuation b1) * 64
                               + continuation b2)%N (decode l3)
                  else
                    match l3 with
                    | [] => String n (decode l1)
                    | b3 :: l4 =>
                        String (((N.land n 7 * 64 + continuation b1) * 64
                                 + continuation b2) * 64 + continuation b3)%N
                               (decode l4)
                    end
              end
        end
  end.

Definition byte_of (n : N) : Byte.byte :=
  match Byte.of_N n with Some b => b | None => Byte.x3f end.

Definition encode_char (c : char) : list Byte.byte :=
  (if c <? 128 then [byte_of c]
   else if c <? 2048 then [byte_of (192 + c / 64); byte_of (128 + c mod 64)]
   else if c <? 65536 then
     [byte_of (224 + c / 4096); byte_of (128 + (c / 64) mod 64);
      byte_of (128 + c mod 64)]
   else
     [byte_of (240 + (c / 262144) mod 8); byte_of (128 + (c / 4096) mod 64);
      byte_of (128 + (c / 64) mod 64); byte_of (128 + c mod 64)])%N.

Fixpoint encode (s : string) : list Byte.byte :=
  match s with
  | EmptyString => []
  | String c s' => encode_char c ++ encode s'
  end.
End Utf8.

Declare Scope string_scope.
Delimit Scope string_scope with string.
Bind Scope string_scope with string.
String Notation string Utf8.decode Utf8.encode : string_scope.
Notation "s ++ t" := (append s t)
  (right associativity, at level 60) : string_scope.
Open Scope string_scope.

(** The decimal digits of a number, as [str(n)] writes them. *)
Fixpoint string_of_uint (d : Decimal.uint) : string :=
  match d with
  | Decimal.Nil => ""
  | Decimal.D0 d' => "0" ++ string_of_uint d'
  | Decimal.D1 d' => "1" ++ string_of_uint d'
  | Decimal.D2 d' => "2" ++ string_of_uint d'
  | Decimal.D3 d' => "3" ++ string_of_uint d'
  | Decimal.D4 d' => "4" ++ string_of_uint d'
  | Decimal.D5 d' => "5" ++ string_of_uint d'
  | Decimal.D6 d' => "6" ++ string_of_uint d'
  | Decimal.D7 d' => "7" ++ string_of_uint d'
  | Decimal.D8 d' => "8" ++ string_of_uint d'
  | Decimal.D9 d' => "9" ++ string_of_uint d'
  end.

(** ** Python values *)

Inductive value : Set :=
| VNone
| VBool (b : bool)
| VInt (z : Z)
| VFloat (q : Q)
| VStr (s : string)
| VList (l : list value)
| VDict (d : list (string * value))
| VCoroutine.

(** A coroutine object is what calling an [async def] without [await]
    yields; it has no [__bool__] or [__len__], so it is true. *)
Definition truthy (v : value) : bool :=
  match v with
  | VNone => false
  | VBool b => b
  | VInt z => negb (Z.eqb z 0)
  | VFloat q => negb (Z.eqb (Qnum q) 0)
  | VStr s => negb (String.eqb s "")
  | VList l => match l with [] => false | _ => true end
  | VDict d => match d with [] => false | _ => true end
  | VCoroutine => true
  end.

(** [v == s] for a string literal [s]. *)
Definition eq_str (v : value) (s : string) : bool :=
  match v with
  | VStr t => String.eqb t s
  | _ => false
  end.

(** ** Dictionaries *)

(** [dict V]: the entries in insertion order. *)
Abbreviation dict V := (list (string * V)%type) (only parsing).

Section Dict.
Context {V : Type}.

Definition keys (d : dict V) : list string := map fst d.

Definition dict_wf (d : dict V) : Prop := NoDup (keys d).

Fixpoint dict_get (k : string) (d : dict V) : option V :=
  match d with
  | [] => None
  | (k', v) :: d' => if String.eqb k k' then Some v else dict_get k d'
  end.

(** [k in d] *)
Definition dict_mem (k : string) (d : dict V) : bool :=
  match dict_get k d with Some _ => true | None => false end.

(** [d.get(k, default)] *)
Definition dict_get_default (k : string) (default : V) (d : dict V) : V :=
  match dict_get k d with Some v => v | None => default end.

(** [d[k] = v]: an existing key keeps its position, a new key goes last. *)
Fixpoint dict_set (k : string) (v : V) (d : dict V) : dict V :=
  match d with
  | [] => [(k, v)]
  | (k', v') :: d' =>
      if String.eqb k k' then (k', v) :: d' else (k', v') :: dict_set k v d'
  end.

(** [del d[k]] for a key that is present. *)
Fixpoint dict_del (k : string) (d : dict V) : dict V :=
  match d with
  | [] => []
  | (k', v') :: d' =>
      if String.eqb k k' then d' else (k', v') :: dict_del k d'
  end.

(** [{**d, **e}] *)
Definition dict_update (d e : dict V) : dict V :=
  fold_left (fun acc kv => dict_set (fst kv) (snd kv) acc) e d.
End Dict.

(** ** Exceptions and outcomes *)

(** An exception object: its class name, [str(e)], and whether its class
    derives from [Exception].  [asyncio.CancelledError], [KeyboardInterrupt]
    and [SystemExit] derive from [BaseException] only. *)
Record exc : Set :=
  mkException { exc_class : string; exc_str : string; is_exception : bool }.

Abbreviation mkExc c s := (mkException c s true).
Abbreviation mkBaseExc c s := (mkException c s false).

Inductive outcome (A : Type) : Type :=
| Ret (a : A)
| Raise (e : exc).
Arguments Ret {A} a.
Arguments Raise {A} e.

(** Computations over a mutable state [S] that may raise.  State changes
    made before a [raise] stay, as in Python. *)
Definition M (S A : Type) : Type := S -> outcome A * S.

Definition ret {S A} (a : A) : M S A := fun s => (Ret a, s).
Definition raise {S A} (e : exc) : M S A := fun s => (Raise e, s).
Definition bind {S A B} (m : M S A) (f : A -> M S B) : M S B :=
  fun s => match m s with
           | (Ret a, s') => f a s'
           | (Raise e, s') => (Raise e, s')
           end.
Definition lift {S A} (o : outcome A) : M S A := fun s => (o, s).
(** [try: body / except Exception as e: handler]: an exception whose class
    does not derive from [Exception] is not caught. *)
Definition try_except {S A} (body : M S A) (handler : exc -> M S A) : M S A :=
  fun s => match body s with
           | (Ret a, s') => (Ret a, s')
           | (Raise e, s') =>
               if is_exception e then handler e s' else (Raise e, s')
           end.

Declare Scope py_scope.
Delimit Scope py_scope with py.
Notation "x <- m ;; k" := (bind m (fun x => k))
  (at level 61, m at next level, right associativity) : py_scope.
Notation "m ;;; k" := (bind m (fun _ => k))
  (at level 61, right associativity) : py_scope.

(** ** llm/llm_connector.py *)

(** Keyword arguments of [generate]. *)
Record gen_args : Set := mkGenArgs {
  system_message : value;
  temperature : value;
  max_tokens : value;
  kwargs : dict value
}.

(** The interface [LLMConnector].  [conn_check_status] is the result of the
    call expression [connector.check_status()], not awaited. *)
Record LLMConnector : Set := mkConnector {
  conn_generate : value -> gen_args -> outcome value;
  conn_check_status : outcome value
}.

(** An httpx response, as far as [generate] looks at it. *)
Record http_response : Set := mkResponse {
  raise_for_status : option exc;
  json : outcome value
}.

(** The HTTP client: [await client.post(url, json=payload)]. *)
Definition http_client : Set := string -> dict value -> outcome http_response.

Definition type_error (msg : string) : exc := mkExc "TypeError" msg.
Definition attribute_error (msg : string) : exc := mkExc "AttributeError" msg.
Definition key_error (msg : string) : exc := mkExc "KeyError" msg.

(** [t.startswith(s)] *)
Fixpoint starts_with (s t : string) : bool :=
  match s with
  | EmptyString => true
  | String c s' =>
      match t with
      | String d t' => Char.eqb c d && starts_with s' t'
      | EmptyString => false
      end
  end.

(** [s in t] for two strings. *)
Fixpoint str_contains (s t : string) : bool :=
  starts_with s t ||
  match t with
  | EmptyString => false
  | String _ t' => str_contains s t'
  end.

(** ["response" in result] *)
Definition response_in (result : value) : outcome bool :=
  match result with
  | VDict d => Ret (dict_mem "response" d)
  | VList l => Ret (existsb (fun v => eq_str v "response") l)
  | VStr s => Ret (str_contains "response" s)
  | _ => Raise (type_error "argument of type is not iterable")
  end.

(** [result["response"]], reached only when ["response" in result]. *)
Definition response_of (result : value) : outcome value :=
  match result with
  | VDict d =>
      match dict_get "response" d with
      | Some v => Ret v
      | None => Raise (key_error "'response'")
      end
  | VList _ => Raise (type_error "list indices must be integers or slices, not str")
  | VStr _ => Raise (type_error "string indices must be integers, not 'str'")
  | _ => Raise (type_error "object is not subscriptable")
  end.

Module OllamaConnector.

Record t : Set := mk {
  model_name : string;
  base_url : string;
  client : http_client
}.

(** The [options] entry of the payload, created when absent. *)
Definition payload_options (payload : dict value) : dict value :=
  match dict_get "options" payload with
  | Some (VDict o) => o
  | _ => []
  end.

Definition add_kwarg (payload : dict value) (kv : string * value) : dict value :=
  let (key, v) := kv in
  if existsb (String.eqb key) ["model"; "prompt"; "system"] then payload
  else dict_set "options" (VDict (dict_set key v (payload_options payload))) payload.

Definition build_payload (self : t) (prompt : value) (a : gen_args) : dict value :=
  let payload :=
    [("model", VStr (model_name self));
     ("prompt", prompt);
     ("options", VDict [("temperature", temperature a);
                        ("num_predict", max_tokens a)])] in
  let payload :=
    if truthy (system_message a)
    then dict_set "system" (system_message a) payload
    else payload in
  fold_left add_kwarg (kwargs a) payload.

(** [len(prompt)], evaluated for the debug log line. *)
Definition has_len (v : value) : bool :=
  match v with
  | VStr _ | VList _ | VDict _ => true
  | _ => false
  end.

(** The network call: [post], [raise_for_status], [json]. *)
Definition network_call (self : t) (payload : dict value) : outcome value :=
  match client self (base_url self ++ "/api/generate") payload with
  | Raise e => Raise e
  | Ret response =>
      match raise_for_status response with
      | Some e => Raise e
      | None => json response
      end
  end.

(** The body of the [try] block of [generate]. *)
Definition generate_body (self : t) (prompt : value) (a : gen_args) : outcome value :=
  if negb (has_len prompt) then Raise (type_error "object has no len()") else
  let payload := build_payload self prompt a in
  match network_call self payload with
  | Raise e => Raise e
  | Ret result =>
      match response_in result with
      | Raise e => Raise e
      | Ret true => response_of result
      | Ret false => Ret (VStr "")
      end
  end.

(** [except Exception as e: logger.error(...); raise] *)
Definition generate (self : t) (prompt : value) (a : gen_args) : outcome value :=
  match generate_body self prompt a with
  | Ret v => Ret v
  | Raise e => Raise e
  end.

(** [check_status] is declared [async def]: the call expression returns a
    coroutine object, whatever the server would answer. *)
Definition check_status (self : t) : outcome value := Ret VCoroutine.

Definition connector (self : t) : LLMConnector :=
  mkConnector (generate self) (check_status self).

End OllamaConnector.

(** ** agents/base_agent.py *)

(** The contract [BaseAgent].  [agent_state] holds the attributes a subclass
    mutates; [process_impl] is the subclass's [process]. *)
Record Agent : Type := mkAgent {
  agent_state : Type;
  state : agent_state;
  name : string;
  description : string;
  llm_connector : option LLMConnector;
  process_impl : dict value -> M agent_state value
}.

Definition with_state (a : Agent) (st : agent_state a) : Agent :=
  mkAgent (agent_state a) st (name a) (description a) (llm_connector a)
          (process_impl a).

Module BaseAgent.

(** [return self.llm_connector.check_status()] *)
Definition check_status (self : Agent) : outcome value :=
  match llm_connector self with
  | None =>
      Raise (attribute_error "'NoneType' object has no attribute 'check_status'")
  | Some c => conn_check_status c
  end.

Definition get_info (self : Agent) : dict value :=
  [("name", VStr (name self)); ("description", VStr (description self))].

(** [await self.process(data)]: the result and the agent after the call. *)
Definition process (self : Agent) (data : dict value) : outcome value * Agent :=
  let (r, st) := process_impl self data (state self) in
  (r, with_state self st).

End BaseAgent.

(** ** orchestrator.py *)

Record Orchestrator : Type := mkOrchestrator { agents : dict Agent }.

(** Calls made on registered agents, recorded as they happen. *)
Inductive call : Set :=
| CallCheckStatus (agent_id : string)
| CallProcess (agent_id : string) (data : dict value).

Record world : Type := mkWorld { orch : Orchestrator; calls : list call }.

Module Orch.

Definition init : Orchestrator := mkOrchestrator [].

Definition register_agent (self : Orchestrator) (agent_id : string)
           (agent : Agent) : Orchestrator :=
  mkOrchestrator (dict_set agent_id agent (agents self)).

Definition unregister_agent (self : Orchestrator) (agent_id : string)
  : Orchestrator :=
  if dict_mem agent_id (agents self)
  then mkOrchestrator (dict_del agent_id (agents self))
  else self.

Definition descriptor (entry : string * Agent) : dict value :=
  let (agent_id, agent) := entry in
  dict_update [("id", VStr agent_id)] (BaseAgent.get_info agent).

Definition get_registered_agents (self : Orchestrator) : list (dict value) :=
  map descriptor (agents self).

(** [self.agents[agent_id]] *)
Definition lookup (agent_id : string) : M world Agent :=
  fun w => match dict_get agent_id (agents (orch w)) with
           | Some a => (Ret a, w)
           | None => (Raise (key_error ("'" ++ agent_id ++ "'")), w)
           end.

(** [agent.check_status()] *)
Definition agent_check_status (agent_id : string) (agent : Agent)
  : M world value :=
  fun w => (BaseAgent.check_status agent,
            mkWorld (orch w) (calls w ++ [CallCheckStatus agent_id])).

(** [await agent.process(data)]; the agent object is mutated in place, so
    the registry entry sees its new state.  The registry is taken to hold
    one agent object for each id. *)
Definition agent_process (agent_id : string) (agent : Agent)
           (data : dict value) : M world value :=
  fun w => let (r, agent') := BaseAgent.process agent data in
           (r, mkWorld (mkOrchestrator (dict_set agent_id agent' (agents (orch w))))
                       (calls w ++ [CallProcess agent_id data])).

Definition envelope (success : bool) (message : string) (result : value)
  : dict value :=
  [("success", VBool success); ("message", VStr message); ("result", result)].

Definition process_task (agent_id : string) (data : dict value)
  : M world (dict value) :=
  fun w =>
    if negb (dict_mem agent_id (agents (orch w))) then
      ret (envelope false ("Agent non trouvé: " ++ agent_id) VNone) w
    else
      try_except
        (agent <- lookup agent_id ;;
         status <- agent_check_status agent_id agent ;;
         if negb (truthy status) then
           ret (envelope false ("Agent " ++ agent_id ++ " non disponible") VNone)
         else
           result <- agent_process agent_id agent data ;;
           ret (envelope true ("Tâche traitée par " ++ agent_id) result))%py
        (fun e =>
           ret (envelope false ("Erreur lors du traitement: " ++ exc_str e) VNone))
        w.

End Orch.

(** ** Strings: whitespace, [strip], and the backtracking matcher of [re] *)

(** The characters [str.strip] removes and the class [\s] matches in a
    [str] pattern: TAB, LF, VT, FF, CR, the separators FS, GS, RS, US,
    space, NEL, the no-break space, and the Unicode spaces and line and
    paragraph separators. *)
Definition is_space (c : char) : bool :=
  (((9 <=? c) && (c <=? 13)) || ((28 <=? c) && (c <=? 32))
   || (c =? 133) || (c =? 160) || (c =? 5760)
   || ((8192 <=? c) && (c <=? 8202)) || (c =? 8232) || (c =? 8233)
   || (c =? 8239) || (c =? 8287) || (c =? 12288))%N.

Definition is_empty (s : string) : bool :=
  match s with EmptyString => true | String _ _ => false end.

Fixpoint lstrip (s : string) : string :=
  match s with
  | EmptyString => EmptyString
  | String c s' => if is_space c then lstrip s' else s
  end.

Fixpoint rstrip (s : string) : string :=
  match s with
  | EmptyString => EmptyString
  | String c s' =>
      let r := rstrip s' in
      if is_space c && is_empty r then EmptyString else String c r
  end.

(** [s.strip()] *)
Definition strip (s : string) : string := rstrip (lstrip s).

Section Regex.
(** Continuation-passing backtracking: a matcher gets the input left and
    the continuation for the rest of the pattern, and tries its
    alternatives in the priority order of Python's [re]. *)
Context {R : Type}.

(** A literal. *)
Fixpoint re_lit (lit : string) (k : string -> option R) (s : string)
  : option R :=
  match lit with
  | EmptyString => k s
  | String c lit' =>
      match s with
      | String d s' => if Char.eqb c d then re_lit lit' k s' else None
      | EmptyString => None
      end
  end.

(** [p*], greedy: one more character first, then the continuation. *)
Fixpoint re_star (p : char -> bool) (k : string -> option R) (s : string)
  : option R :=
  match s with
  | String c s' =>
      if p c then
        match re_star p k s' with
        | Some r => Some r
        | None => k s
        end
      else k s
  | EmptyString => k s
  end.

(** [(p*?)], lazy and captured: the continuation first, with the text
    captured so far, then one more character. *)
Fixpoint re_lazy_group (p : char -> bool) (k : string -> string -> option R)
         (g s : string) : option R :=
  match k g s with
  | Some r => Some r
  | None =>
      match s with
      | String c s' =>
          if p c then re_lazy_group p k (g ++ String c EmptyString) s' else None
      | EmptyString => None
      end
  end.
End Regex.

(** The dot under [re.DOTALL]. *)
Definition dot_all (c : char) : bool := true.

(** ** agents/code_assistant.py: response parsing *)

(** A match object: the text before the match, group 1, the text after. *)
Record re_match : Set := mkMatch {
  before : string;
  group1 : string;
  after : string
}.

Definition fence : string := "```".
Definition fence_python : string := "```python".

(** One attempt of [```python\s*(.*?)\s*```] at the start of [s]: group 1
    and the input left after the match. *)
Definition code_pattern_match (s : string) : option (string * string) :=
  re_lit fence_python
    (re_star is_space
       (re_lazy_group dot_all
          (fun g => re_star is_space (re_lit fence (fun rest => Some (g, rest))))
          EmptyString))
    s.

(** [code_pattern.search]: the leftmost position where an attempt succeeds. *)
Fixpoint code_pattern_search_from (pre s : string) : option re_match :=
  match code_pattern_match s with
  | Some (g, rest) => Some (mkMatch pre g rest)
  | None =>
      match s with
      | String c s' => code_pattern_search_from (pre ++ String c EmptyString) s'
      | EmptyString => None
      end
  end.

Definition code_pattern_search (response : string) : option re_match :=
  code_pattern_search_from EmptyString response.

Definition parse_llm_response (response : string) : string * string :=
  match code_pattern_search response with
  | Some code_match =>
      let improved_code := strip (group1 code_match) in
      let explanation := strip (after code_match) in
      let explanation :=
        if is_empty explanation then strip (before code_match) else explanation in
      (improved_code, explanation)
  | None => (response, EmptyString)
  end.

Definition nl : string := String 10%N EmptyString.

(** [x] fenced as a Python code block, the way the prompts write one. *)
Definition fenced (x : string) : string :=
  fence_python ++ nl ++ x ++ nl ++ fence.

(** ** agents/code_assistant.py: the agent *)

Module CodeAssistant.
Section WithFormatting.
(** [f"{v}"] for a value that is not a string, and the prompt text built
    by [_build_code_prompt]; no property below depends on either text. *)
Variable format_other : value -> string.
Variable build_code_prompt : value -> value -> value -> value -> outcome string.

Definition format_value (v : value) : string :=
  match v with VStr s => s | _ => format_other v end.

(** [await self.llm_connector.generate(prompt, ...)] *)
Definition call_generate (c : option LLMConnector) (prompt : value)
           (a : gen_args) : outcome value :=
  match c with
  | None => Raise (attribute_error "'NoneType' object has no attribute 'generate'")
  | Some c => conn_generate c prompt a
  end.

(** [self._parse_llm_response(result)]; [search] wants a string. *)
Definition parse_result (result : value) : outcome (string * string) :=
  match result with
  | VStr response => Ret (parse_llm_response response)
  | _ => Raise (type_error "expected string or bytes-like object")
  end.

Definition code_args : gen_args :=
  mkGenArgs
    (VStr "Tu es un expert en Python qui excelle dans l'amélioration et l'optimisation de code.")
    (VFloat (2 # 10)) (VInt 2048) [].

Definition process (connector : option LLMConnector) (data : dict value)
  : M unit value :=
  try_except
    (let code := dict_get_default "code" (VStr "") data in
     let task_type := dict_get_default "task_type" (VStr "correction") data in
     let requirements := dict_get_default "requirements" (VList []) data in
     let context := dict_get_default "context" (VStr "") data in
     if negb (truthy code) then
       ret (VDict [("improved_code", VStr "");
                   ("explanation", VStr "Aucun code fourni à améliorer.");
                   ("success", VBool false);
                   ("message", VStr "Erreur: code manquant")])
     else
       prompt <- lift (build_code_prompt code task_type requirements context) ;;
       result <- lift (call_generate connector (VStr prompt) code_args) ;;
       parsed <- lift (parse_result result) ;;
       ret (VDict [("improved_code", VStr (fst parsed));
                   ("explanation", VStr (snd parsed));
                   ("success", VBool true);
                   ("message",
                    VStr ("Code " ++ format_value task_type
                          ++ " effectué avec succès"))]))%py
    (fun e =>
       ret (VDict [("improved_code", VStr "");
                   ("explanation", VStr "");
                   ("success", VBool false);
                   ("message",
                    VStr ("Erreur lors de l'amélioration du code: " ++ exc_str e))])).

(** [CodeAssistant(llm_connector)] *)
Definition new (connector : option LLMConnector) : Agent :=
  mkAgent unit tt "CodeAssistant"
          "Agent spécialisé dans l'amélioration et le débogage de code Python"
          connector (process connector).
End WithFormatting.
End CodeAssistant.

(** ** agents/rag_agent.py *)

Module RAGAgent.

Record Document : Set := mkDocument {
  page_content : string;
  metadata : dict value
}.

(** A FAISS index, seen through the documents it holds. *)
Record VectorStore : Set := mkVectorStore { indexed : list Document }.

(** What docling's conversion gives: the list [get_images_from_document]
    builds from it, or nothing when reading a picture fails. *)
Record ConversionResult : Set := mkConversion {
  pictures : option (list (dict value))
}.

(** The answer of [qa_chain.invoke]: a mapping that may hold [result] and
    [source_documents]. *)
Record qa_result : Set := mkQaResult {
  qa_answer : option value;
  qa_source_documents : option (list Document)
}.

(** Which model the chain is built on: [self.llm] or the connector. *)
Inductive llm_choice : Set :=
| ChatGroq
| Connector (c : option LLMConnector).

(** docling, FAISS and langchain. *)
Record Backend : Set := mkBackend {
  doc_process_document : value -> outcome (ConversionResult * list string);
  faiss_from_documents : list Document -> outcome VectorStore;
  faiss_save_local : VectorStore -> value -> option exc;
  faiss_load_local : value -> outcome VectorStore;
  qa_invoke : llm_choice -> VectorStore -> value -> outcome qa_result
}.

Record State : Set := mkState { vectorstore : option VectorStore }.

Section WithBackend.
Variable format_other : value -> string.
Variable backend : Backend.
(** [self.llm_connector] and [self.groq_api_key] as [__init__] leaves them. *)
Variable connector : option LLMConnector.
Variable groq_api_key : value.

Definition format_value (v : value) : string :=
  match v with VStr s => s | _ => format_other v end.

Definition string_of_nat (n : nat) : string :=
  string_of_uint (Nat.to_uint n).

(** [self.llm]: a Groq chat model when a key is set and no connector is. *)
Definition llm : option llm_choice :=
  if truthy groq_api_key && negb (match connector with Some _ => true | None => false end)
  then Some ChatGroq else None.

Definition llm_to_use : llm_choice :=
  match llm with Some l => l | None => Connector connector end.

Definition get_images_from_document (result : ConversionResult)
  : list (dict value) :=
  match pictures result with
  | Some images => images
  | None => []
  end.

Fixpoint enumerate_chunks (i : nat) (chunks : list string) : list Document :=
  match chunks with
  | [] => []
  | chunk :: rest =>
      mkDocument chunk [("source", VStr ("chunk_" ++ string_of_nat i))]
      :: enumerate_chunks (S i) rest
  end.

Definition set_vectorstore (vs : VectorStore) : M State unit :=
  fun _ => (Ret tt, mkState (Some vs)).

Definition get_vectorstore : M State (option VectorStore) :=
  fun st => (Ret (vectorstore st), st).

Definition process_document (file_path : value) : M State value :=
  try_except
    (converted <- lift (doc_process_document backend file_path) ;;
     let documents := enumerate_chunks 0 (snd converted) in
     vs <- lift (faiss_from_documents backend documents) ;;
     set_vectorstore vs ;;;
     let images := get_images_from_document (fst converted) in
     ret (VDict [("success", VBool true);
                 ("message",
                  VStr ("Document processed successfully: "
                        ++ string_of_nat (List.length documents)
                        ++ " chunks created"));
                 ("document_info",
                  VDict [("chunks", VInt (Z.of_nat (List.length documents)));
                         ("images", VInt (Z.of_nat (List.length images)))])]))%py
    (fun e =>
       ret (VDict [("success", VBool false);
                   ("message", VStr ("Error processing document: " ++ exc_str e));
                   ("document_info", VNone)])).

Definition save_index (index_path : value) : M State value :=
  try_except
    (vs <- get_vectorstore ;;
     match vs with
     | None =>
         ret (VDict [("success", VBool false);
                     ("message", VStr "No index to save. Process a document first.")])
     | Some vs =>
         match faiss_save_local backend vs index_path with
         | Some e => raise e
         | None =>
             ret (VDict [("success", VBool true);
                         ("message",
                          VStr ("Index saved successfully to "
                                ++ format_value index_path))])
         end
     end)%py
    (fun e =>
       ret (VDict [("success", VBool false);
                   ("message", VStr ("Error saving index: " ++ exc_str e))])).

Definition load_index (index_path : value) : M State value :=
  try_except
    (vs <- lift (faiss_load_local backend index_path) ;;
     set_vectorstore vs ;;;
     ret (VDict [("success", VBool true);
                 ("message",
                  VStr ("Index loaded successfully from "
                        ++ format_value index_path))]))%py
    (fun e =>
       ret (VDict [("success", VBool false);
                   ("message", VStr ("Error loading index: " ++ exc_str e))])).

(** One entry of [source_chunks]. *)
Definition source_chunk (doc : Document) : value :=
  VDict [("source", dict_get_default "source" (VStr "unknown") (metadata doc));
         ("content",
          VStr (if (200 <? String.length (page_content doc))%nat
                then String.take 200 (page_content doc) ++ "..."
                else page_content doc))].

(** [data[key]] *)
Definition subscript (data : dict value) (key : string) : outcome value :=
  match dict_get key data with
  | Some v => Ret v
  | None => Raise (key_error ("'" ++ key ++ "'"))
  end.

Definition process (data : dict value) : M State value :=
  try_except
    (let operation := dict_get_default "operation" (VStr "query") data in
     if eq_str operation "process" && dict_mem "file_path" data then
       file_path <- lift (subscript data "file_path") ;;
       process_document file_path
     else if eq_str operation "save" && dict_mem "index_path" data then
       index_path <- lift (subscript data "index_path") ;;
       save_index index_path
     else if eq_str operation "load" && dict_mem "index_path" data then
       index_path <- lift (subscript data "index_path") ;;
       load_index index_path
     else
       let query := dict_get_default "query" VNone data in
       if negb (truthy query) then
         ret (VDict [("success", VBool false);
                     ("message", VStr "No query provided");
                     ("answer", VNone)])
       else
         vs <- get_vectorstore ;;
         match vs with
         | None =>
             ret (VDict [("success", VBool false);
                         ("message",
                          VStr "No document has been processed. Process a document first.");
                         ("answer", VNone)])
         | Some vs =>
             result <- lift (qa_invoke backend llm_to_use vs query) ;;
             let source_chunks :=
               match qa_source_documents result with
               | Some docs => map source_chunk docs
               | None => []
               end in
             match qa_answer result with
             | None => raise (key_error "'result'")
             | Some answer =>
                 ret (VDict [("success", VBool true);
                             ("message", VStr "Query processed successfully");
                             ("answer", answer);
                             ("sources", VList source_chunks)])
             end
         end)%py
    (fun e =>
       ret (VDict [("success", VBool false);
                   ("message", VStr ("Error processing query: " ++ exc_str e));
                   ("answer", VNone)])).

(** [RAGAgent(llm_connector, groq_api_key)]: no index yet. *)
Definition new : Agent :=
  mkAgent State (mkState None) "RAGAgent"
          "Agent for document Q&A using Retrieval-Augmented Generation"
          connector process.
End WithBackend.
End RAGAgent.

(** ** Vocabulary of the properties *)

(** The descriptors whose [id] field is [agent_id]. *)
Definition descriptors_of (agent_id : string) (l : list (dict value))
  : list (dict value) :=
  filter (fun d => match dict_get "id" d with
                   | Some v => eq_str v agent_id
                   | None => false
                   end) l.

(** The agent fails with [e] when dispatched: its status check raises, or
    the check passes and [process] raises. *)
Definition agent_raises (a : Agent) (data : dict value) (e : exc) : Prop :=
  BaseAgent.check_status a = Raise e
  \/ (exists status,
        BaseAgent.check_status a = Ret status /\ truthy status = true
        /\ fst (BaseAgent.process a data) = Raise e).

(** The end of the pattern, [\s*```], after group 1 captured [g]. *)
Definition closing (g : string) : string -> option (string * string) :=
  re_star is_space (re_lit fence (fun rest => Some (g, rest))).

(** The text of a block ends with a newline and the closing fence. *)
Definition block_end : string := nl ++ fence.

(** [x] holds a code fence somewhere. *)
Definition has_fence (x : string) : bool := str_contains fence x.

(** An answer of an agent: a mapping with a boolean [success] and a
    [message]. *)
Definition agent_answer (v : value) : Prop :=
  exists d b message,
    v = VDict d /\ dict_get "success" d = Some (VBool b)
    /\ dict_get "message" d = Some (VStr message).

(** The outcome of a call that keeps its failures: an answer, or an
    exception that is not an [Exception]. *)
Definition contained (r : outcome value) : Prop :=
  match r with
  | Ret v => agent_answer v
  | Raise e => is_exception e = false
  end.

(** A request of the document agent that names an operation but lacks the
    field the operation needs. *)
Definition lacks_operand (data : dict value) : Prop :=
  let operation := dict_get_default "operation" (VStr "query") data in
  (eq_str operation "process" = true /\ dict_mem "file_path" data = false)
  \/ ((eq_str operation "save" = true \/ eq_str operation "load" = true)
      /\ dict_mem "index_path" data = false).

(** ** Sample objects *)

Module Sample.

Definition format_other (v : value) : string := "<object>".

Definition build_code_prompt (code task_type requirements context : value)
  : outcome string := Ret "prompt".

(** A server answering every request with status 200 and body [body]. *)
Definition replying (body : value) : http_client :=
  fun _ _ => Ret (mkResponse None (Ret body)).

(** A server that cannot be reached. *)
Definition unreachable : http_client :=
  fun _ _ => Raise (mkExc "ConnectError" "All connection attempts failed").

(** A server answering with an error status. *)
Definition erroring : http_client :=
  fun _ _ => Ret (mkResponse (Some (mkExc "HTTPStatusError" "Server error '500'"))
                             (Ret (VDict []))).

(** A server answering 200 with a body that is not JSON. *)
Definition garbled : http_client :=
  fun _ _ => Ret (mkResponse None (Raise (mkExc "JSONDecodeError" "Expecting value"))).

(** The exception a cancelled task gets where it waits. *)
Definition cancelled : exc := mkBaseExc "CancelledError" "".

(** A request during which the task is cancelled. *)
Definition cancelling : http_client := fun _ _ => Raise cancelled.

Definition ollama_at (client : http_client) : OllamaConnector.t :=
  OllamaConnector.mk "mistral" "http://localhost:11434" client.

Definition default_args : gen_args :=
  mkGenArgs VNone (VFloat (7 # 10)) (VInt 2000) [].

Definition ollama (client : http_client) : LLMConnector :=
  OllamaConnector.connector
    (OllamaConnector.mk "mistral" "http://localhost:11434" client).

(** A connector with a synchronous [check_status], as [LLMConnector]
    declares it, reporting [status]. *)
Definition sync_connector (status : bool) : LLMConnector :=
  mkConnector (fun _ _ => Ret (VStr "pass")) (Ret (VBool status)).

Definition code_agent (c : LLMConnector) : Agent :=
  CodeAssistant.new format_other build_code_prompt (Some c).

Definition no_backend : RAGAgent.Backend :=
  let e := mkExc "RuntimeError" "backend not installed" in
  RAGAgent.mkBackend (fun _ => Raise e) (fun _ => Raise e) (fun _ _ => Some e)
                     (fun _ => Raise e) (fun _ _ _ => Raise e).

Definition rag_agent (c : option LLMConnector) : Agent :=
  RAGAgent.new format_other no_backend c (VStr "").

Definition queries_x : dict value := [("query", VStr "X")].

Definition improve_x : dict value := [("code", VStr "x = 1")].

Definition empty_code : dict value :=
  [("code", VStr ""); ("task_type", VStr "correction")].

Definition agent_up : Agent := code_agent (sync_connector true).
Definition agent_down : Agent := code_agent (sync_connector false).

(** A registry holding one agent, under ["code"]. *)
Definition registry_code : Orchestrator :=
  Orch.register_agent Orch.init "code" agent_up.

(** The registry of [main.py] restricted to two agents. *)
Definition orchestrator (code_conn : LLMConnector) (rag_conn : option LLMConnector)
  : Orchestrator :=
  Orch.register_agent
    (Orch.register_agent Orch.init "code" (code_agent code_conn))
    "rag" (rag_agent rag_conn).

End Sample.

(** * The rest of the code *)

(** ** agents/code_assistant.py: debug reports *)

Definition parse_debug_response (response : string) : string * string :=
  match code_pattern_search response with
  | Some code_match =>
      let fixed_code := strip (group1 code_match) in
      let debug_report := strip (before code_match) in
      let debug_report :=
        if is_empty debug_report then strip (after code_match) else debug_report in
      (debug_report, fixed_code)
  | None => (response, EmptyString)
  end.

Module CodeAssistantDebug.
Section WithPrompt.
(** The prompt text built by [_build_debug_prompt]. *)
Variable build_debug_prompt : value -> value -> outcome string.

(** [self._parse_debug_response(result)] *)
Definition parse_result (result : value) : outcome (string * string) :=
  match result with
  | VStr response => Ret (parse_debug_response response)
  | _ => Raise (type_error "expected string or bytes-like object")
  end.

Definition debug_args : gen_args :=
  mkGenArgs
    (VStr "Tu es un expert en débogage Python capable d'identifier et de résoudre rapidement les problèmes complexes.")
    (VFloat (3 # 10)) (VInt 2048) [].

Definition generate_debug_report (connector : option LLMConnector)
           (code error_message : value) : M unit value :=
  try_except
    (if negb (truthy code) then
       ret (VDict [("debug_report", VStr "");
                   ("fixed_code", VStr "");
                   ("success", VBool false);
                   ("message", VStr "Aucun code fourni à déboguer")])
     else
       prompt <- lift (build_debug_prompt code error_message) ;;
       result <- lift (CodeAssistant.call_generate connector (VStr prompt) debug_args) ;;
       parsed <- lift (parse_result result) ;;
       ret (VDict [("debug_report", VStr (fst parsed));
                   ("fixed_code", VStr (snd parsed));
                   ("success", VBool true);
                   ("message", VStr "Rapport de debug généré avec succès")]))%py
    (fun e =>
       ret (VDict [("debug_report", VStr "");
                   ("fixed_code", VStr "");
                   ("success", VBool false);
                   ("message",
                    VStr ("Erreur lors de la génération du rapport de debug: "
                          ++ exc_str e))])).
End WithPrompt.
End CodeAssistantDebug.

(** ** agents/debug_assistant.py *)

Module DebugAssistant.
Section WithPrompt.
(** The prompt text built by [_build_debug_prompt]. *)
Variable build_debug_prompt : value -> value -> value -> outcome string.

Definition debug_args : gen_args :=
  mkGenArgs
    (VStr "Tu es un expert en débogage de code Python avec une expérience approfondie dans l'analyse et la résolution de problèmes complexes.")
    (VFloat (2 # 10)) (VInt 2048) [].

Definition process (connector : option LLMConnector) (data : dict value)
  : M unit value :=
  try_except
    (let code := dict_get_default "code" (VStr "") data in
     let error_message := dict_get_default "error_message" (VStr "") data in
     let context := dict_get_default "context" (VStr "") data in
     if negb (truthy code) then
       ret (VDict [("debug_report", VStr "");
                   ("success", VBool false);
                   ("message", VStr "Aucun code fourni à analyser.")])
     else
       prompt <- lift (build_debug_prompt code error_message context) ;;
       result <- lift (CodeAssistant.call_generate connector (VStr prompt) debug_args) ;;
       ret (VDict [("debug_report", result);
                   ("success", VBool true);
                   ("message", VStr "Rapport de debug généré avec succès")]))%py
    (fun e =>
       ret (VDict [("debug_report", VStr "");
                   ("success", VBool false);
                   ("message",
                    VStr ("Erreur lors de la génération du rapport de debug: "
                          ++ exc_str e))])).

(** [DebugAssistant(llm_connector)] *)
Definition new (connector : option LLMConnector) : Agent :=
  mkAgent unit tt "DebugAssistant"
          "Agent spécialisé dans l'analyse et le débogage de code Python"
          connector (process connector).
End WithPrompt.
End DebugAssistant.

(** ** agents/readme_generator.py *)

Module ReadmeGenerator.
Section WithFormatting.
(** [f"{v}"] for a value that is not a string, and the prompt text built by
    [_build_readme_prompt]. *)
Variable format_other : value -> string.
Variable build_readme_prompt :
  value -> value -> value -> value -> value -> outcome string.

Definition format_value (v : value) : string :=
  match v with VStr s => s | _ => format_other v end.

Definition default_sections : value :=
  VList [VStr "Introduction"; VStr "Installation"; VStr "Utilisation";
         VStr "Fonctionnalités"; VStr "Technologies";
         VStr "Structure du projet"; VStr "Contribution"; VStr "Licence"].

Definition readme_args : gen_args :=
  mkGenArgs
    (VStr "Tu es un expert en documentation technique qui excelle dans la création de README professionnels.")
    (VFloat (7 # 10)) (VInt 3000) [].

Definition process (connector : option LLMConnector) (data : dict value)
  : M unit value :=
  try_except
    (let project_name := dict_get_default "project_name" (VStr "") data in
     let project_description :=
       dict_get_default "project_description" (VStr "") data in
     let code_snippets := dict_get_default "code_snippets" (VList []) data in
     let technologies := dict_get_default "technologies" (VList []) data in
     let include_sections :=
       dict_get_default "include_sections" default_sections data in
     prompt <- lift (build_readme_prompt project_name project_description
                       code_snippets technologies include_sections) ;;
     result <- lift (CodeAssistant.call_generate connector (VStr prompt) readme_args) ;;
     ret (VDict [("content", result);
                 ("success", VBool true);
                 ("message",
                  VStr ("README généré avec succès pour le projet "
                        ++ format_value project_name))]))%py
    (fun e =>
       ret (VDict [("content", VStr "");
                   ("success", VBool false);
                   ("message",
                    VStr ("Erreur lors de la génération du README: " ++ exc_str e))])).

(** [ReadmeGenerator(llm_connector)] *)
Definition new (connector : option LLMConnector) : Agent :=
  mkAgent unit tt "ReadmeGenerator"
          "Agent spécialisé dans la génération de README pour les projets"
          connector (process connector).
End WithFormatting.
End ReadmeGenerator.

(** ** llm/llm_connector.py: the awaited status check *)

Module OllamaStatus.

(** [model["name"]] *)
Definition model_name_of (model : value) : outcome value :=
  match model with
  | VDict d => RAGAgent.subscript d "name"
  | VList _ => Raise (type_error "list indices must be integers or slices, not str")
  | VStr _ => Raise (type_error "string indices must be integers, not 'str'")
  | _ => Raise (type_error "object is not subscriptable")
  end.

Fixpoint names_of (models : list value) : outcome (list value) :=
  match models with
  | [] => Ret []
  | model :: rest =>
      match model_name_of model with
      | Raise e => Raise e
      | Ret n =>
          match names_of rest with
          | Raise e => Raise e
          | Ret ns => Ret (n :: ns)
          end
      end
  end.

(** What iterating over [models] yields: the items of a list, the keys of a
    mapping, the characters of a string. *)
Definition iterate (models : value) : outcome (list value) :=
  match models with
  | VList l => Ret l
  | VDict d => Ret (map (fun kv => VStr (fst kv)) d)
  | VStr s => Ret (map (fun c => VStr (String c EmptyString)) (String.to_list s))
  | _ => Raise (type_error "object is not iterable")
  end.

(** [response.json().get("models", [])] *)
Definition models_of (body : value) : outcome value :=
  match body with
  | VDict d => Ret (dict_get_default "models" (VList []) d)
  | _ => Raise (attribute_error "object has no attribute 'get'")
  end.

(** The body of the [try] block, with [get] the client's GET. *)
Definition check_status_body (self : OllamaConnector.t)
           (get : string -> outcome http_response) : outcome bool :=
  match get (OllamaConnector.base_url self ++ "/api/tags") with
  | Raise e => Raise e
  | Ret response =>
      match raise_for_status response with
      | Some e => Raise e
      | None =>
          match json response with
          | Raise e => Raise e
          | Ret body =>
              match models_of body with
              | Raise e => Raise e
              | Ret models =>
                  match iterate models with
                  | Raise e => Raise e
                  | Ret items =>
                      match names_of items with
                      | Raise e => Raise e
                      | Ret available_models =>
                          Ret (existsb
                                 (fun v => eq_str v (OllamaConnector.model_name self))
                                 available_models)
                      end
                  end
              end
          end
      end
  end.

(** [await connector.check_status()]: an [Exception] gives [False]. *)
Definition check_status (self : OllamaConnector.t)
           (get : string -> outcome http_response) : outcome bool :=
  match check_status_body self get with
  | Ret b => Ret b
  | Raise e => if is_exception e then Ret false else Raise e
  end.

End OllamaStatus.

(** ** utils/ui.py: the request data *)

Module UI.

(** [s.split(sep)] for a separator that is not empty; [skip] counts the
    characters of a separator found that are still to pass. *)
Fixpoint split_from (sep : string) (skip : nat) (acc s : string) : list string :=
  match s with
  | EmptyString => [acc]
  | String c s' =>
      match skip with
      | S n => split_from sep n acc s'
      | O =>
          if starts_with sep s
          then acc :: split_from sep (String.length sep - 1) EmptyString s'
          else split_from sep 0 (acc ++ String c EmptyString) s'
      end
  end.

Definition split (sep s : string) : list string := split_from sep 0 EmptyString s.

(** [[t.strip() for t in s.split(sep) if t.strip()]] *)
Definition stripped_items (sep s : string) : list string :=
  map strip (filter (fun t => negb (is_empty (strip t))) (split sep s)).

Definition str_list (l : list string) : value := VList (map VStr l).

(** The [data] of [generate_readme]. *)
Definition generate_readme_data
           (project_name project_description technologies code_snippets sections
            : string) : dict value :=
  let tech_list := stripped_items "," technologies in
  let code_list := stripped_items fence code_snippets in
  let section_list := stripped_items "," sections in
  [("project_name", VStr project_name);
   ("project_description", VStr project_description);
   ("technologies", str_list tech_list);
   ("code_snippets", str_list code_list);
   ("include_sections", str_list section_list)].

(** The [data] of [improve_code]. *)
Definition improve_code_data (code task_type requirements context : string)
  : dict value :=
  let req_list := stripped_items nl requirements in
  [("code", VStr code);
   ("task_type", VStr task_type);
   ("requirements", str_list req_list);
   ("context", VStr context)].

(** What [query_document] makes of a reply with status 200 and JSON
    [result]; [format_other] is [f"{v}"] for a value that is not a string. *)
Definition query_document_result (format_other : value -> string)
           (result : value) : outcome value :=
  let subscript (key : string) : outcome value :=
    match result with
    | VDict d => RAGAgent.subscript d key
    | VList _ => Raise (type_error "list indices must be integers or slices, not str")
    | VStr _ => Raise (type_error "string indices must be integers, not 'str'")
    | _ => Raise (type_error "object is not subscriptable")
    end in
  match subscript "success" with
  | Raise e => Raise e
  | Ret success =>
      if truthy success then subscript "answer"
      else
        match subscript "message" with
        | Raise e => Raise e
        | Ret message =>
            Ret (VStr ("Error: "
                       ++ match message with
                          | VStr m => m
                          | _ => format_other message
                          end))
        end
  end.

End UI.

(** ** main.py: the endpoints of the code assistant and of the document agent *)

Module Api.
Section WithStr.
(** [str(HTTPException(status_code, detail))], FastAPI's. *)
Variable http_exception_str : nat -> value -> string.

(** [HTTPException(status_code=..., detail=...)] *)
Definition http_exception (status_code : nat) (detail : value) : exc :=
  mkExc "HTTPException" (http_exception_str status_code detail).

(** [CodeRequest(...).dict()] *)
Definition code_request (code task_type : string) (requirements : list string)
           (context : string) : dict value :=
  [("code", VStr code); ("task_type", VStr task_type);
   ("requirements", UI.str_list requirements); ("context", VStr context)].

(** [RAGRequest(...).dict()] *)
Definition rag_request (query : string) (index_path operation : value)
  : dict value :=
  [("query", VStr query); ("index_path", index_path); ("operation", operation)].

(** [POST /code/improve] *)
Definition improve_code (request : dict value) : M world value :=
  try_except
    (result <- Orch.process_task "code" request ;;
     success <- lift (RAGAgent.subscript result "success") ;;
     if negb (truthy success) then
       message <- lift (RAGAgent.subscript result "message") ;;
       raise (http_exception 500 message)
     else lift (RAGAgent.subscript result "result"))%py
    (fun e => raise (http_exception 500 (VStr (exc_str e)))).

(** [POST /rag/query] *)
Definition rag_query (request : dict value) : M world value :=
  try_except
    (result <- Orch.process_task "rag" request ;;
     success <- lift (RAGAgent.subscript result "success") ;;
     if negb (truthy success) then
       message <- lift (RAGAgent.subscript result "message") ;;
       raise (http_exception 500 message)
     else ret (VDict result))%py
    (fun e => raise (http_exception 500 (VStr (exc_str e)))).


End WithStr.
End Api.

(** ** Vocabulary of the further properties *)

(** The registries a program can build: from the empty one by registering,
    unregistering and dispatching. *)
Inductive reachable : Orchestrator -> Prop :=
| reach_init : reachable Orch.init
| reach_register o agent_id a :
    reachable o -> reachable (Orch.register_agent o agent_id a)
| reach_unregister o agent_id :
    reachable o -> reachable (Orch.unregister_agent o agent_id)
| reach_process o log agent_id data :
    reachable o ->
    reachable (orch (snd (Orch.process_task agent_id data (mkWorld o log)))).

(** An agent whose [process] raises no [Exception], in whatever state it
    is: it gives an answer, or lets through what is not an [Exception]. *)
Definition self_contained (a : Agent) : Prop :=
  forall data st, contained (fst (process_impl a data st)).

(** The keyword arguments of [generate] that the payload loop skips. *)
Definition reserved_kwarg (key : string) : bool :=
  existsb (String.eqb key) ["model"; "prompt"; "system"].

(** The options a request carries: the two defaults, then every keyword
    argument that is not skipped, in order. *)
Definition options_of (a : gen_args) : dict value :=
  fold_left
    (fun o kv => if reserved_kwarg (fst kv) then o else dict_set (fst kv) (snd kv) o)
    (kwargs a)
    [("temperature", temperature a); ("num_predict", max_tokens a)].

(** An entry of the list of models that names a model. *)
Definition names_model (entry name : value) : Prop :=
  exists d, entry = VDict d /\ dict_get "name" d = Some name.

(** The requests that can replace the index: "process" with a file path
    and "load" with an index path. *)
Definition replaces_index (data : dict value) : bool :=
  let operation := dict_get_default "operation" (VStr "query") data in
  (eq_str operation "process" && dict_mem "file_path" data)
  || (eq_str operation "load" && dict_mem "index_path" data).

(** The index [vs] is what the request makes the backend give: built from
    the chunks of the file it names, or loaded from the path it names. *)
Definition index_from (backend : RAGAgent.Backend) (data : dict value)
           (vs : RAGAgent.VectorStore) : Prop :=
  (exists file_path converted chunks,
      dict_get "file_path" data = Some file_path
      /\ RAGAgent.doc_process_document backend file_path = Ret (converted, chunks)
      /\ RAGAgent.faiss_from_documents backend (RAGAgent.enumerate_chunks 0 chunks)
         = Ret vs)
  \/ (exists index_path,
        dict_get "index_path" data = Some index_path
        /\ RAGAgent.faiss_load_local backend index_path = Ret vs).

(** The index after a call: as before, or the new one of the request
    together with an answer that reports success. *)
Definition index_step (backend : RAGAgent.Backend) (data : dict value)
           (st : RAGAgent.State) (r : outcome value * RAGAgent.State) : Prop :=
  snd r = st
  \/ exists vs d,
      snd r = RAGAgent.mkState (Some vs) /\ index_from backend data vs
      /\ fst r = Ret (VDict d) /\ dict_get "success" d = Some (VBool true).

(** [sep.join(l)] *)
Fixpoint join (sep : string) (l : list string) : string :=
  match l with
  | [] => EmptyString
  | x :: rest =>
      match rest with
      | [] => x
      | _ :: _ => x ++ sep ++ join sep rest
      end
  end.

(** An item as the forms of the UI send it: not empty, no whitespace at
    either end, no separator inside. *)
Definition clean_item (sep t : string) : Prop :=
  t <> "" /\ strip t = t /\ str_contains sep t = false.

(** While [split] reads a piece [acc], no separator starts inside it,
    whatever the rest [s] of the input is. *)
Definition no_sep_inside (sep acc s : string) : Prop :=
  forall u v, acc = u ++ v -> v <> "" -> starts_with sep (v ++ s) = false.

(** The [id] field of each descriptor. *)
Definition descriptor_ids (l : list (dict value)) : list (option value) :=
  map (dict_get "id") l.

(** All characters of [s] are whitespace. *)
Definition all_space (s : string) : bool :=
  forallb is_space (String.to_list s).

(** ** Further sample objects *)

Module SampleMore.

Definition build_debug_prompt (code error_message : value) : outcome string :=
  Ret "prompt".

(** A connector whose [generate] answers [reply] and whose status is true. *)
Definition answering (reply : outcome value) : LLMConnector :=
  mkConnector (fun _ _ => reply) (Ret (VBool true)).

Definition tags_reply (body : value) : string -> outcome http_response :=
  fun _ => Ret (mkResponse None (Ret body)).

Definition http_exception_str (status_code : nat) (detail : value) : string :=
  match detail with VStr s => s | _ => "" end.

(** The GET of a server that cannot be reached. *)
Definition tags_unreachable : string -> outcome http_response :=
  fun _ => Raise (mkExc "ConnectError" "All connection attempts failed").

(** An agent that holds an index of one chunk, and a request to save it. *)
Definition indexed_state : RAGAgent.State :=
  RAGAgent.mkState
    (Some (RAGAgent.mkVectorStore [RAGAgent.mkDocument "a" []])).

Definition saves_index : dict value :=
  [("operation", VStr "save"); ("index_path", VStr "idx")].

Definition tags_listing : value :=
  VDict [("models", VList [VDict [("name", VStr "llama3")];
                           VDict [("name", VStr "mistral"); ("size", VInt 4)]])].

End SampleMore.

(** * Properties *)

(** ** Strings *)

Lemma char_eqb_spec (c d : char) : reflect (c = d) (Char.eqb c d).
Proof. apply N.eqb_spec. Qed.

Lemma char_eqb_refl (c : char) : Char.eqb c c = true.
Proof. apply N.eqb_refl. Qed.

Lemma string_eqb_refl (s : string) : String.eqb s s = true.
Proof.
  induction s as [|c s IH]; [reflexivity|].
  cbn [String.eqb]. now rewrite char_eqb_refl, IH.
Qed.

Lemma string_eqb_eq (s t : string) : String.eqb s t = true <-> s = t.
Proof.
  split; [|intros ->; apply string_eqb_refl].
  revert t. induction s as [|c s IH]; intros [|d t]; cbn [String.eqb];
    try discriminate; [reflexivity|].
  destruct (char_eqb_spec c d) as [->|]; [|discriminate].
  intros H. now rewrite (IH t H).
Qed.

Lemma string_eqb_spec (s t : string) : reflect (s = t) (String.eqb s t).
Proof.
  destruct (String.eqb s t) eqn:E; constructor.
  - now apply string_eqb_eq.
  - intros H. apply string_eqb_eq in H. congruence.
Qed.

Lemma string_eqb_sym (s t : string) : String.eqb s t = String.eqb t s.
Proof.
  destruct (string_eqb_spec s t) as [->|Hne]; [now rewrite string_eqb_refl|].
  destruct (string_eqb_spec t s) as [->|]; [contradiction|reflexivity].
Qed.

(** ** Dictionaries *)

Section DictFacts.
Context {V : Type}.
Implicit Types (d : dict V) (k : string) (v : V).

Lemma dict_mem_true k d :
  dict_mem k d = true <-> exists v, dict_get k d = Some v.
Proof.
  unfold dict_mem. destruct (dict_get k d) as [v|].
  - split; [eauto | reflexivity].
  - split; [discriminate | intros [v H]; discriminate].
Qed.

Lemma dict_mem_false k d : dict_mem k d = false <-> dict_get k d = None.
Proof.
  unfold dict_mem. destruct (dict_get k d); split; congruence.
Qed.

Lemma dict_get_in_keys k d : dict_get k d <> None <-> In k (keys d).
Proof.
  induction d as [|[k' v'] d IH]; simpl.
  - split; [congruence | tauto].
  - destruct (string_eqb_spec k k') as [->|Hne].
    + split; [auto | congruence].
    + rewrite IH. split; [auto | intros [H|H]; congruence || auto].
Qed.

Lemma dict_get_set_same k v d : dict_get k (dict_set k v d) = Some v.
Proof.
  induction d as [|[k' v'] d IH]; simpl.
  - now rewrite string_eqb_refl.
  - destruct (string_eqb_spec k k') as [->|Hne]; simpl.
    + now rewrite string_eqb_refl.
    + destruct (string_eqb_spec k k'); [contradiction | exact IH].
Qed.

Lemma dict_get_set_other k k' v d :
  k <> k' -> dict_get k (dict_set k' v d) = dict_get k d.
Proof.
  intros Hne. induction d as [|[k0 v0] d IH]; simpl.
  - destruct (string_eqb_spec k k'); [contradiction | reflexivity].
  - destruct (string_eqb_spec k' k0) as [->|Hne0]; simpl.
    + destruct (string_eqb_spec k k0); [contradiction | reflexivity].
    + now rewrite IH.
Qed.

(** Writing back the value a key already has changes nothing. *)
Lemma dict_set_get k v d : dict_get k d = Some v -> dict_set k v d = d.
Proof.
  induction d as [|[k' v'] d IH]; simpl; [discriminate|].
  destruct (string_eqb_spec k k') as [->|Hne].
  - now intros [= ->].
  - intros H. now rewrite IH.
Qed.

(** A key that was absent goes last, and deleting it gives the dictionary
    back, order included. *)
Lemma dict_del_set_fresh k v d :
  dict_get k d = None -> dict_del k (dict_set k v d) = d.
Proof.
  induction d as [|[k' v'] d IH]; simpl.
  - now rewrite string_eqb_refl.
  - destruct (string_eqb_spec k k') as [->|Hne]; [discriminate|].
    intros H. simpl.
    destruct (string_eqb_spec k k'); [contradiction|]. now rewrite IH.
Qed.

Lemma keys_dict_set_present k v d :
  dict_get k d <> None -> keys (dict_set k v d) = keys d.
Proof.
  induction d as [|[k' v'] d IH]; simpl; [congruence|].
  destruct (string_eqb_spec k k') as [->|Hne]; simpl; [reflexivity|].
  intros H. f_equal. now apply IH.
Qed.

Lemma keys_dict_set_fresh k v d :
  dict_get k d = None -> keys (dict_set k v d) = (keys d ++ [k])%list.
Proof.
  induction d as [|[k' v'] d IH]; simpl; [reflexivity|].
  destruct (string_eqb_spec k k') as [->|Hne]; [discriminate|].
  intros H. simpl. f_equal. now apply IH.
Qed.

Lemma dict_set_wf k v d : dict_wf d -> dict_wf (dict_set k v d).
Proof.
  unfold dict_wf. intros Hwf.
  destruct (dict_get k d) as [v0|] eqn:Hget.
  - rewrite keys_dict_set_present; [assumption | congruence].
  - rewrite keys_dict_set_fresh by assumption.
    apply NoDup_app; [assumption | repeat constructor; intros [] | ].
    intros x Hx [<-|[]]. apply dict_get_in_keys in Hx. congruence.
Qed.

Lemma keys_dict_del_incl k d x : In x (keys (dict_del k d)) -> In x (keys d).
Proof.
  induction d as [|[k' v'] d IH]; simpl; [tauto|].
  destruct (String.eqb k k'); simpl; [auto | intros [H|H]; auto].
Qed.

Lemma dict_del_wf k d : dict_wf d -> dict_wf (dict_del k d).
Proof.
  unfold dict_wf. induction d as [|[k' v'] d IH]; simpl; [auto|].
  intros Hwf. inversion Hwf as [|? ? Hnotin Hnd]; subst.
  destruct (String.eqb k k'); simpl; [assumption|].
  constructor; [|auto]. intros Hin. apply Hnotin.
  now apply keys_dict_del_incl in Hin.
Qed.
End DictFacts.

(** ** Orchestrator: registry *)

Lemma init_wf : dict_wf (agents Orch.init).
Proof. constructor. Qed.

Lemma register_agent_wf (o : Orchestrator) (agent_id : string) (a : Agent) :
  dict_wf (agents o) -> dict_wf (agents (Orch.register_agent o agent_id a)).
Proof. apply dict_set_wf. Qed.

Lemma unregister_agent_wf (o : Orchestrator) (agent_id : string) :
  dict_wf (agents o) -> dict_wf (agents (Orch.unregister_agent o agent_id)).
Proof.
  intros Hwf. unfold Orch.unregister_agent.
  destruct (dict_mem agent_id (agents o)); [now apply dict_del_wf | assumption].
Qed.

(** C3, as stated, fails: registering under an id that is already taken
    overwrites the entry, and unregistering then removes it; the agent that
    was registered before is gone. *)
Lemma register_unregister_overwrites :
  Orch.unregister_agent
    (Orch.register_agent Sample.registry_code "code" Sample.agent_down) "code"
  = Orch.init
  /\ Orch.unregister_agent
       (Orch.register_agent Sample.registry_code "code" Sample.agent_down) "code"
     <> Sample.registry_code.
Proof.
  split; [reflexivity | discriminate].
Qed.

(** C3, amended: for an id that is not registered, registering an agent
    under it and then unregistering that id gives back exactly the registry
    there was, order of entries included. *)
Theorem register_unregister_fresh (o : Orchestrator) (agent_id : string) (a : Agent) :
  dict_mem agent_id (agents o) = false ->
  Orch.unregister_agent (Orch.register_agent o agent_id a) agent_id = o.
Proof.
  intros Hfresh. apply dict_mem_false in Hfresh.
  unfold Orch.unregister_agent, Orch.register_agent; simpl.
  unfold dict_mem. rewrite dict_get_set_same.
  rewrite dict_del_set_fresh by assumption. now destruct o.
Qed.

Lemma register_unregister_fresh_witness :
  Orch.unregister_agent
    (Orch.register_agent Sample.registry_code "rag" (Sample.rag_agent None)) "rag"
  = Sample.registry_code.
Proof.
  apply (register_unregister_fresh Sample.registry_code "rag" (Sample.rag_agent None)).
  reflexivity.
Defined.

(** ** Orchestrator: the descriptors of the registered agents *)

(** The descriptor of an entry: its id, then the two fields of [get_info]. *)
Lemma descriptor_fields (agent_id : string) (a : Agent) :
  Orch.descriptor (agent_id, a)
  = [("id", VStr agent_id); ("name", VStr (name a));
     ("description", VStr (description a))].
Proof. reflexivity. Qed.

Lemma descriptors_of_absent (agent_id : string) (d : dict Agent) :
  dict_get agent_id d = None ->
  descriptors_of agent_id (map Orch.descriptor d) = [].
Proof.
  induction d as [|[k a] d IH]; simpl; [reflexivity|].
  rewrite (string_eqb_sym k agent_id).
  destruct (string_eqb_spec agent_id k) as [->|Hne]; [discriminate | exact IH].
Qed.

Lemma descriptors_of_present (agent_id : string) (a : Agent) (d : dict Agent) :
  dict_wf d -> dict_get agent_id d = Some a ->
  descriptors_of agent_id (map Orch.descriptor d)
  = [Orch.descriptor (agent_id, a)].
Proof.
  induction d as [|[k a'] d IH]; simpl; [discriminate|].
  intros Hwf Hget. inversion Hwf as [|? ? Hnotin Hnd]; subst.
  rewrite (string_eqb_sym k agent_id).
  destruct (string_eqb_spec agent_id k) as [->|Hne].
  - injection Hget as ->. f_equal.
    apply descriptors_of_absent.
    destruct (dict_get k d) eqn:E; [|reflexivity].
    exfalso. apply Hnotin, dict_get_in_keys. congruence.
  - now apply IH.
Qed.

(** C9: in every registry state, [get_registered_agents] has as many
    descriptors as there are registered ids; for each registered id exactly
    one descriptor carries it, and that descriptor is the id followed by the
    agent's [get_info()], that is its name and description; no descriptor
    carries an id that is not registered. *)
Theorem get_registered_agents_exact (o : Orchestrator) :
  dict_wf (agents o) ->
  List.length (Orch.get_registered_agents o) = List.length (keys (agents o))
  /\ (forall agent_id a,
        dict_get agent_id (agents o) = Some a ->
        descriptors_of agent_id (Orch.get_registered_agents o)
        = [(("id", VStr agent_id) :: BaseAgent.get_info a)%list]
        /\ BaseAgent.get_info a
           = [("name", VStr (name a)); ("description", VStr (description a))])
  /\ (forall agent_id,
        dict_get agent_id (agents o) = None ->
        descriptors_of agent_id (Orch.get_registered_agents o) = []).
Proof.
  intros Hwf. unfold Orch.get_registered_agents, keys.
  split; [now rewrite !length_map|]. split.
  - intros agent_id a Hget. split; [|reflexivity].
    now rewrite (descriptors_of_present agent_id a).
  - intros agent_id Hget. now apply descriptors_of_absent.
Qed.

Lemma get_registered_agents_exact_witness :
  descriptors_of "rag"
    (Orch.get_registered_agents
       (Sample.orchestrator (Sample.sync_connector true) None))
  = [[("id", VStr "rag"); ("name", VStr "RAGAgent");
      ("description",
       VStr "Agent for document Q&A using Retrieval-Augmented Generation")]].
Proof.
  destruct (get_registered_agents_exact
              (Sample.orchestrator (Sample.sync_connector true) None))
    as (_ & Hone & _).
  - repeat constructor; simpl; intuition discriminate.
  - destruct (Hone "rag" (Sample.rag_agent None) eq_refl) as [H _]. exact H.
Defined.

(** ** Orchestrator: dispatch *)

(** C4: for an id that is not registered, whatever [data] is, [process_task]
    returns the envelope with [success] false, the message
    "Agent non trouvé: <id>" and [result] None; nothing is called and the
    registry is left as it was. *)
Theorem process_task_unknown_agent (w : world) (agent_id : string)
        (data : dict value) :
  dict_mem agent_id (agents (orch w)) = false ->
  Orch.process_task agent_id data w
  = (Ret [("success", VBool false);
          ("message", VStr ("Agent non trouvé: " ++ agent_id));
          ("result", VNone)], w).
Proof.
  intros Habsent. unfold Orch.process_task. now rewrite Habsent.
Qed.

Lemma process_task_unknown_agent_witness :
  Orch.process_task "readme" Sample.queries_x (mkWorld Sample.registry_code [])
  = (Ret [("success", VBool false);
          ("message", VStr "Agent non trouvé: readme");
          ("result", VNone)], mkWorld Sample.registry_code []).
Proof.
  apply (process_task_unknown_agent (mkWorld Sample.registry_code []) "readme").
  reflexivity.
Defined.

(** The gate of [process_task], for an adapter whose [check_status] is the
    plain method [LLMConnector] declares: when it returns a false value,
    [process_task] returns the envelope with [success] false and the
    message "Agent <id> non disponible"; the only call made on the agent is
    the status check, and the registry is left as it was. *)
Lemma process_task_unavailable (w : world) (agent_id : string)
        (data : dict value) (a : Agent) (c : LLMConnector) (status : value) :
  dict_get agent_id (agents (orch w)) = Some a ->
  llm_connector a = Some c ->
  conn_check_status c = Ret status ->
  truthy status = false ->
  Orch.process_task agent_id data w
  = (Ret [("success", VBool false);
          ("message", VStr ("Agent " ++ agent_id ++ " non disponible"));
          ("result", VNone)],
     mkWorld (orch w) (calls w ++ [CallCheckStatus agent_id])).
Proof.
  intros Hget Hconn Hstatus Hfalse.
  unfold Orch.process_task, dict_mem. rewrite Hget. simpl.
  unfold try_except, bind, Orch.lookup, Orch.agent_check_status.
  rewrite Hget. unfold BaseAgent.check_status. rewrite Hconn, Hstatus. simpl.
  now rewrite Hfalse.
Qed.

Lemma process_task_unavailable_witness :
  Orch.process_task "code" Sample.empty_code
    (mkWorld (Orch.register_agent Orch.init "code" Sample.agent_down) [])
  = (Ret [("success", VBool false);
          ("message", VStr "Agent code non disponible");
          ("result", VNone)],
     mkWorld (Orch.register_agent Orch.init "code" Sample.agent_down)
             [CallCheckStatus "code"]).
Proof.
  apply (process_task_unavailable
           (mkWorld (Orch.register_agent Orch.init "code" Sample.agent_down) [])
           "code" Sample.empty_code Sample.agent_down
           (Sample.sync_connector false) (VBool false));
    reflexivity.
Defined.

(** ** The agents keep their failures *)

Ltac answered :=
  cbn [fst contained]; unfold agent_answer; do 3 eexists; repeat split.

Ltac caught e :=
  let E := fresh "Hcaught" in
  destruct (is_exception e) eqn:E; [answered | cbn [fst contained]; exact E].

(** [CodeAssistant.process] raises no [Exception]: what the prompt builder,
    the adapter or the parser raise comes back as an answer, unless it is
    not an [Exception]. *)
Lemma code_assistant_contained
      (format_other : value -> string)
      (build_code_prompt : value -> value -> value -> value -> outcome string)
      (connector : option LLMConnector) (data : dict value) (st : unit) :
  contained
    (fst (CodeAssistant.process format_other build_code_prompt connector data st)).
Proof.
  unfold CodeAssistant.process, try_except, bind, lift, ret.
  destruct (truthy (dict_get_default "code" (VStr "") data)); cbn [negb];
    [|answered].
  destruct (build_code_prompt _ _ _ _) as [prompt|e]; [|caught e].
  destruct (CodeAssistant.call_generate connector (VStr prompt) _) as [result|e];
    [|caught e].
  destruct (CodeAssistant.parse_result result) as [parsed|e]; [answered|caught e].
Qed.

(** A failure of the adapter's [generate] that is an [Exception] is
    reported by the code assistant as [success] false with the adapter's
    message. *)
Lemma code_assistant_reports_adapter_failure
      (format_other : value -> string)
      (build_code_prompt : value -> value -> value -> value -> outcome string)
      (c : LLMConnector) (data : dict value) (prompt : string) (e : exc) :
  truthy (dict_get_default "code" (VStr "") data) = true ->
  build_code_prompt (dict_get_default "code" (VStr "") data)
                    (dict_get_default "task_type" (VStr "correction") data)
                    (dict_get_default "requirements" (VList []) data)
                    (dict_get_default "context" (VStr "") data)
  = Ret prompt ->
  conn_generate c (VStr prompt) CodeAssistant.code_args = Raise e ->
  is_exception e = true ->
  CodeAssistant.process format_other build_code_prompt (Some c) data tt
  = (Ret (VDict [("improved_code", VStr "");
                 ("explanation", VStr "");
                 ("success", VBool false);
                 ("message",
                  VStr ("Erreur lors de l'amélioration du code: " ++ exc_str e))]),
     tt).
Proof.
  intros Hcode Hprompt Hgen Hexc.
  unfold CodeAssistant.process, try_except, bind, lift, ret.
  rewrite Hcode. cbn [negb]. rewrite Hprompt.
  unfold CodeAssistant.call_generate. now rewrite Hgen, Hexc.
Qed.

Section RagContainment.
Variable format_other : value -> string.
Variable backend : RAGAgent.Backend.
Variable connector : option LLMConnector.
Variable groq_api_key : value.

Lemma process_document_contained (file_path : value) (st : RAGAgent.State) :
  contained (fst (RAGAgent.process_document backend file_path st)).
Proof.
  unfold RAGAgent.process_document, RAGAgent.set_vectorstore, try_except,
    bind, lift, ret.
  destruct (RAGAgent.doc_process_document backend file_path) as [converted|e];
    [|caught e].
  destruct (RAGAgent.faiss_from_documents backend _) as [vs|e];
    [answered|caught e].
Qed.

Lemma save_index_contained (index_path : value) (st : RAGAgent.State) :
  contained (fst (RAGAgent.save_index format_other backend index_path st)).
Proof.
  unfold RAGAgent.save_index, RAGAgent.get_vectorstore, try_except, bind,
    ret, raise.
  destruct (RAGAgent.vectorstore st) as [vs|]; [|answered].
  destruct (RAGAgent.faiss_save_local backend vs index_path) as [e|];
    [caught e|answered].
Qed.

Lemma load_index_contained (index_path : value) (st : RAGAgent.State) :
  contained (fst (RAGAgent.load_index format_other backend index_path st)).
Proof.
  unfold RAGAgent.load_index, RAGAgent.set_vectorstore, try_except, bind,
    lift, ret.
  destruct (RAGAgent.faiss_load_local backend index_path) as [vs|e];
    [answered|caught e].
Qed.

(** [RAGAgent.process] raises no [Exception] either. *)
Lemma rag_agent_contained (data : dict value) (st : RAGAgent.State) :
  contained
    (fst (RAGAgent.process format_other backend connector groq_api_key data st)).
Proof.
  unfold RAGAgent.process.
  destruct (eq_str _ "process" && dict_mem "file_path" data).
  { unfold RAGAgent.subscript, try_except, bind, lift.
    destruct (dict_get "file_path" data) as [file_path|]; [|answered].
    pose proof (process_document_contained file_path st) as H.
    destruct (RAGAgent.process_document backend file_path st) as [[v|e] st'];
      cbn [fst contained] in *; [exact H|now rewrite H]. }
  destruct (eq_str _ "save" && dict_mem "index_path" data).
  { unfold RAGAgent.subscript, try_except, bind, lift.
    destruct (dict_get "index_path" data) as [index_path|]; [|answered].
    pose proof (save_index_contained index_path st) as H.
    destruct (RAGAgent.save_index format_other backend index_path st)
      as [[v|e] st']; cbn [fst contained] in *; [exact H|now rewrite H]. }
  destruct (eq_str _ "load" && dict_mem "index_path" data).
  { unfold RAGAgent.subscript, try_except, bind, lift.
    destruct (dict_get "index_path" data) as [index_path|]; [|answered].
    pose proof (load_index_contained index_path st) as H.
    destruct (RAGAgent.load_index format_other backend index_path st)
      as [[v|e] st']; cbn [fst contained] in *; [exact H|now rewrite H]. }
  unfold RAGAgent.get_vectorstore, try_except, bind, lift, ret, raise.
  destruct (truthy (dict_get_default "query" VNone data)); cbn [negb];
    [|answered].
  destruct (RAGAgent.vectorstore st) as [vs|]; [|answered].
  destruct (RAGAgent.qa_invoke backend _ vs _) as [result|e]; [|caught e].
  destruct (RAGAgent.qa_answer result); answered.
Qed.
End RagContainment.

(** C5, as stated, fails: [except Exception] does not catch what is not an
    [Exception].  A task cancelled while the code assistant waits for the
    server gets [asyncio.CancelledError], which leaves [generate],
    [process] and [process_task]. *)
Lemma process_task_cancelled :
  fst (Orch.process_task "code" Sample.improve_x
         (mkWorld (Sample.orchestrator (Sample.ollama Sample.cancelling) None) []))
  = Raise Sample.cancelled.
Proof. reflexivity. Qed.

(** C5, amended: for every id and request, [process_task] either returns
    an envelope [{success, message, result}], or raises an exception that
    is not an [Exception] and that the registered agent raised, in its
    status check or in [process].  A failed envelope has [result] None; and
    when the agent raises an [Exception] [e], the envelope is the failure
    envelope whose message is "Erreur lors du traitement: " followed by
    [str(e)]. *)
Theorem process_task_total (w : world) (agent_id : string) (data : dict value) :
  (exists success message result w',
      Orch.process_task agent_id data w
      = (Ret [("success", VBool success); ("message", VStr message);
              ("result", result)], w')
      /\ (success = false -> result = VNone)
      /\ (forall a e,
            dict_get agent_id (agents (orch w)) = Some a ->
            agent_raises a data e ->
            is_exception e = true
            /\ success = false
            /\ message = "Erreur lors du traitement: " ++ exc_str e))
  \/ (exists a e w',
        dict_get agent_id (agents (orch w)) = Some a
        /\ agent_raises a data e
        /\ is_exception e = false
        /\ Orch.process_task agent_id data w = (Raise e, w')).
Proof.
  unfold Orch.process_task, dict_mem.
  destruct (dict_get agent_id (agents (orch w))) as [a|] eqn:Hget; cbn [negb].
  2:{ left. do 4 eexists. split; [reflexivity|]. split; [reflexivity|].
      discriminate. }
  unfold try_except, bind, Orch.lookup, Orch.agent_check_status,
    Orch.agent_process, ret.
  rewrite Hget.
  destruct (BaseAgent.check_status a) as [status|e] eqn:Hstatus.
  - destruct (truthy status) eqn:Htruthy; cbn [negb].
    + destruct (BaseAgent.process a data) as [[r|e] a'] eqn:Hproc.
      * left. do 4 eexists. split; [reflexivity|]. split; [discriminate|].
        intros a0 e [= <-] [Hraise|(st & Hst & _ & Hraise)].
        -- congruence.
        -- rewrite Hproc in Hraise. discriminate.
      * destruct (is_exception e) eqn:Hexc.
        -- left. do 4 eexists. split; [reflexivity|]. split; [reflexivity|].
           intros a0 e0 [= <-] [Hraise|(st & Hst & _ & Hraise)];
             [congruence|].
           rewrite Hproc in Hraise. cbn [fst] in Hraise.
           injection Hraise as <-. now rewrite Hexc.
        -- right. exists a, e. eexists. split; [reflexivity|].
           split; [|split; [exact Hexc|reflexivity]].
           right. exists status. rewrite Hproc. now repeat split.
    + left. do 4 eexists. split; [reflexivity|]. split; [reflexivity|].
      intros a0 e [= <-] [Hraise|(st & Hst & Htrue & _)]; congruence.
  - destruct (is_exception e) eqn:Hexc.
    + left. do 4 eexists. split; [reflexivity|]. split; [reflexivity|].
      intros a0 e0 [= <-] [Hraise|(st & Hst & _)]; [|congruence].
      rewrite Hstatus in Hraise. injection Hraise as <-. now rewrite Hexc.
    + right. exists a, e. eexists. split; [reflexivity|].
      split; [now left|]. split; [exact Hexc|reflexivity].
Qed.

(** The agent of [main.py] that has no connector: its status check raises
    AttributeError, which comes back as a failure envelope. *)
Lemma process_task_total_witness :
  exists w',
    Orch.process_task "rag" Sample.queries_x
      (mkWorld (Sample.orchestrator (Sample.sync_connector true) None) [])
    = (Ret [("success", VBool false);
            ("message",
             VStr "Erreur lors du traitement: 'NoneType' object has no attribute 'check_status'");
            ("result", VNone)], w').
Proof.
  destruct (process_task_total
              (mkWorld (Sample.orchestrator (Sample.sync_connector true) None) [])
              "rag" Sample.queries_x)
    as [(success & message & result & w' & Hrun & Hres & Hexc)
       |(a & e & w' & _ & _ & _ & Hrun)].
  - destruct (Hexc (Sample.rag_agent None)
                   (attribute_error "'NoneType' object has no attribute 'check_status'")
                   eq_refl (or_introl eq_refl)) as (_ & Hs & Hm).
    exists w'. rewrite Hrun, Hm, (Hres Hs), Hs. reflexivity.
  - discriminate Hrun.
Defined.

(** With the Ollama connector the status check of an agent cannot fail:
    [check_status] is a coroutine function that [BaseAgent.check_status]
    calls without awaiting. *)
Lemma ollama_status_always_true (self : OllamaConnector.t) :
  exists status,
    conn_check_status (OllamaConnector.connector self) = Ret status
    /\ truthy status = true.
Proof. exists VCoroutine. split; reflexivity. Qed.

(** C1 does not hold of the adapter the repository has.  With an agent
    bound to an [OllamaConnector], whatever the awaited [check_status()]
    would answer, and so also when it is False (server down, model not
    installed), [process_task] calls [process] after the status check and
    does not answer "Agent <id> non disponible": the check is made
    without [await], and the coroutine object it yields is true. *)
Theorem process_task_ollama_unavailable
        (w : world) (agent_id : string) (data : dict value) (a : Agent)
        (self : OllamaConnector.t) :
  dict_get agent_id (agents (orch w)) = Some a ->
  llm_connector a = Some (OllamaConnector.connector self) ->
  calls (snd (Orch.process_task agent_id data w))
  = (calls w ++ [CallCheckStatus agent_id; CallProcess agent_id data])%list
  /\ fst (Orch.process_task agent_id data w)
     <> Ret [("success", VBool false);
             ("message", VStr ("Agent " ++ agent_id ++ " non disponible"));
             ("result", VNone)].
Proof.
  intros Hget Hconn.
  unfold Orch.process_task, dict_mem. rewrite Hget. cbn [negb].
  unfold try_except, bind, Orch.lookup, Orch.agent_check_status,
    Orch.agent_process, ret.
  rewrite Hget. unfold BaseAgent.check_status. rewrite Hconn.
  cbn [OllamaConnector.connector conn_check_status OllamaConnector.check_status
       truthy negb].
  destruct (BaseAgent.process a data) as [[r|e] a'].
  - cbn [fst snd calls]. rewrite <- app_assoc. split; [reflexivity|].
    discriminate.
  - destruct (is_exception e); cbn [fst snd calls]; rewrite <- app_assoc;
      (split; [reflexivity|]); discriminate.
Qed.

(** The server is down: awaited, the check says False; called as
    [process_task] calls it, it lets the request through to the code
    assistant, whose failure comes back inside an envelope with [success]
    true. *)
Lemma process_task_ollama_unavailable_witness :
  OllamaStatus.check_status (Sample.ollama_at Sample.unreachable)
    SampleMore.tags_unreachable = Ret false
  /\ fst (Orch.process_task "code" Sample.improve_x
            (mkWorld (Sample.orchestrator (Sample.ollama Sample.unreachable)
                                          None) []))
     = Ret [("success", VBool true);
            ("message", VStr "Tâche traitée par code");
            ("result",
             VDict [("improved_code", VStr "");
                    ("explanation", VStr "");
                    ("success", VBool false);
                    ("message",
                     VStr "Erreur lors de l'amélioration du code: All connection attempts failed")])]
  /\ calls (snd (Orch.process_task "code" Sample.improve_x
                   (mkWorld (Sample.orchestrator (Sample.ollama Sample.unreachable)
                                                 None) [])))
     = [CallCheckStatus "code"; CallProcess "code" Sample.improve_x]
  /\ fst (Orch.process_task "code" Sample.improve_x
            (mkWorld (Sample.orchestrator (Sample.ollama Sample.unreachable)
                                          None) []))
     <> Ret [("success", VBool false);
             ("message", VStr "Agent code non disponible");
             ("result", VNone)].
Proof.
  split; [reflexivity|]. split; [reflexivity|].
  apply (process_task_ollama_unavailable
           (mkWorld (Sample.orchestrator (Sample.ollama Sample.unreachable) None) [])
           "code" Sample.improve_x
           (Sample.code_agent (Sample.ollama Sample.unreachable))
           (Sample.ollama_at Sample.unreachable));
    reflexivity.
Defined.

(** C6: with the code assistant registered under "code" and the status
    check of its adapter passing, [process_task("code", {code: "",
    task_type: "correction"})] returns the outer envelope with [success]
    true, whose [result] is the agent's own answer with [success] false and
    the message "Erreur: code manquant": the agent, not the orchestrator,
    rejects the empty code.  The agent was called for its status and for
    [process], and the registry is as before. *)
Theorem process_task_empty_code
        (format_other : value -> string)
        (build_code_prompt : value -> value -> value -> value -> outcome string)
        (o : Orchestrator) (log : list call) (c : LLMConnector) (status : value) :
  dict_get "code" (agents o)
  = Some (CodeAssistant.new format_other build_code_prompt (Some c)) ->
  conn_check_status c = Ret status ->
  truthy status = true ->
  Orch.process_task "code"
    [("code", VStr ""); ("task_type", VStr "correction")] (mkWorld o log)
  = (Ret [("success", VBool true);
          ("message", VStr "Tâche traitée par code");
          ("result",
           VDict [("improved_code", VStr "");
                  ("explanation", VStr "Aucun code fourni à améliorer.");
                  ("success", VBool false);
                  ("message", VStr "Erreur: code manquant")])],
     mkWorld o (log ++ [CallCheckStatus "code";
                        CallProcess "code"
                          [("code", VStr ""); ("task_type", VStr "correction")]])).
Proof.
  intros Hget Hstatus Htrue.
  unfold Orch.process_task, dict_mem. simpl. rewrite Hget. simpl.
  unfold try_except, bind, Orch.lookup, Orch.agent_check_status,
    Orch.agent_process.
  simpl. rewrite Hget. unfold BaseAgent.check_status. simpl.
  rewrite Hstatus. simpl. rewrite Htrue. simpl.
  rewrite <- app_assoc. simpl.
  f_equal. f_equal.
  change (with_state (CodeAssistant.new format_other build_code_prompt (Some c)) tt)
    with (CodeAssistant.new format_other build_code_prompt (Some c)).
  rewrite (dict_set_get _ _ _ Hget). now destruct o.
Qed.

(** With the Ollama connector the status check always passes: the call
    yields a coroutine object, which is true. *)
Lemma process_task_empty_code_witness :
  Orch.process_task "code" Sample.empty_code
    (mkWorld (Sample.orchestrator (Sample.ollama (Sample.replying (VDict []))) None) [])
  = (Ret [("success", VBool true);
          ("message", VStr "Tâche traitée par code");
          ("result",
           VDict [("improved_code", VStr "");
                  ("explanation", VStr "Aucun code fourni à améliorer.");
                  ("success", VBool false);
                  ("message", VStr "Erreur: code manquant")])],
     mkWorld (Sample.orchestrator (Sample.ollama (Sample.replying (VDict []))) None)
             [CallCheckStatus "code"; CallProcess "code" Sample.empty_code]).
Proof.
  apply (process_task_empty_code Sample.format_other Sample.build_code_prompt
           (Sample.orchestrator (Sample.ollama (Sample.replying (VDict []))) None)
           [] (Sample.ollama (Sample.replying (VDict []))) VCoroutine);
    reflexivity.
Defined.

(** ** The Ollama adapter *)

(** C2, as stated, fails: a reply with status 200 whose JSON body has no
    "response" entry is malformed, and [generate] returns the empty string
    for it. *)
Lemma generate_empty_on_malformed :
  OllamaConnector.generate
    (Sample.ollama_at (Sample.replying (VDict [("error", VStr "model not found")])))
    (VStr "Bonjour") Sample.default_args
  = Ret (VStr "").
Proof. reflexivity. Qed.

(** C2, amended: for every prompt, [generate] raises the exception of the
    network call when the request cannot be sent, when the reply has an
    error status, and when its body is not JSON; when the body is a JSON
    object without a "response" entry, [generate] logs it and returns the
    empty string. *)
Theorem generate_failure_cases (self : OllamaConnector.t) (prompt : string)
        (a : gen_args) :
  let post := OllamaConnector.client self
                (OllamaConnector.base_url self ++ "/api/generate")
                (OllamaConnector.build_payload self (VStr prompt) a) in
  (forall e, post = Raise e ->
             OllamaConnector.generate self (VStr prompt) a = Raise e)
  /\ (forall response e,
        post = Ret response -> raise_for_status response = Some e ->
        OllamaConnector.generate self (VStr prompt) a = Raise e)
  /\ (forall response e,
        post = Ret response -> raise_for_status response = None ->
        json response = Raise e ->
        OllamaConnector.generate self (VStr prompt) a = Raise e)
  /\ (forall response d,
        post = Ret response -> raise_for_status response = None ->
        json response = Ret (VDict d) -> dict_get "response" d = None ->
        OllamaConnector.generate self (VStr prompt) a = Ret (VStr "")).
Proof.
  intro post. subst post.
  unfold OllamaConnector.generate, OllamaConnector.generate_body,
    OllamaConnector.network_call; simpl.
  repeat split.
  - intros e ->. reflexivity.
  - intros response e -> ->. reflexivity.
  - intros response e -> -> ->. reflexivity.
  - intros response d -> -> -> Hnone. simpl. unfold dict_mem.
    now rewrite Hnone.
Qed.

Lemma generate_failure_cases_witness :
  OllamaConnector.generate (Sample.ollama_at Sample.unreachable)
    (VStr "Bonjour") Sample.default_args
  = Raise (mkExc "ConnectError" "All connection attempts failed")
  /\ OllamaConnector.generate (Sample.ollama_at Sample.erroring)
       (VStr "Bonjour") Sample.default_args
     = Raise (mkExc "HTTPStatusError" "Server error '500'")
  /\ OllamaConnector.generate (Sample.ollama_at Sample.garbled)
       (VStr "Bonjour") Sample.default_args
     = Raise (mkExc "JSONDecodeError" "Expecting value")
  /\ OllamaConnector.generate (Sample.ollama_at (Sample.replying (VDict [])))
       (VStr "Bonjour") Sample.default_args
     = Ret (VStr "").
Proof.
  split; [|split; [|split]].
  - apply (generate_failure_cases (Sample.ollama_at Sample.unreachable)
             "Bonjour" Sample.default_args).
    reflexivity.
  - apply (proj1 (proj2 (generate_failure_cases
                           (Sample.ollama_at Sample.erroring)
                           "Bonjour" Sample.default_args))
             (mkResponse (Some (mkExc "HTTPStatusError" "Server error '500'"))
                         (Ret (VDict []))));
      reflexivity.
  - apply (proj1 (proj2 (proj2 (generate_failure_cases
                                  (Sample.ollama_at Sample.garbled)
                                  "Bonjour" Sample.default_args)))
             (mkResponse None (Raise (mkExc "JSONDecodeError" "Expecting value"))));
      reflexivity.
  - apply (proj2 (proj2 (proj2 (generate_failure_cases
                                  (Sample.ollama_at (Sample.replying (VDict [])))
                                  "Bonjour" Sample.default_args)))
             (mkResponse None (Ret (VDict []))) []);
      reflexivity.
Defined.

(** ** The document agent *)

Section RagFacts.
Variable format_other : value -> string.
Variable backend : RAGAgent.Backend.
Variable connector : option LLMConnector.
Variable groq_api_key : value.

Let process := RAGAgent.process format_other backend connector groq_api_key.

Lemma rag_no_query (query : value) (st : RAGAgent.State) :
  truthy query = false ->
  process [("query", query)] st
  = (Ret (VDict [("success", VBool false);
                 ("message", VStr "No query provided");
                 ("answer", VNone)]), st).
Proof.
  intros Hq. unfold process, RAGAgent.process, try_except, bind.
  cbn -[truthy]. now rewrite Hq.
Qed.

Lemma rag_no_index (query : value) (st : RAGAgent.State) :
  truthy query = true -> RAGAgent.vectorstore st = None ->
  process [("query", query)] st
  = (Ret (VDict [("success", VBool false);
                 ("message",
                  VStr "No document has been processed. Process a document first.");
                 ("answer", VNone)]), st).
Proof.
  intros Hq Hvs.
  unfold process, RAGAgent.process, try_except, bind, RAGAgent.get_vectorstore.
  cbn -[truthy]. rewrite Hq. cbn. now rewrite Hvs.
Qed.

Lemma rag_falls_through (data : dict value) (st : RAGAgent.State) :
  lacks_operand data ->
  process data st
  = process [("query", dict_get_default "query" VNone data)] st.
Proof.
  unfold lacks_operand. intros Hlack.
  unfold process, RAGAgent.process, try_except, bind.
  cbn -[truthy dict_get_default dict_mem eq_str] in *.
  change (dict_get_default "operation" (VStr "query")
            [("query", dict_get_default "query" VNone data)])
    with (VStr "query").
  change (dict_get_default "query" VNone
            [("query", dict_get_default "query" VNone data)])
    with (dict_get_default "query" VNone data).
  destruct Hlack as [[Hop Hmem]|[Hop Hmem]]; rewrite Hmem.
  - destruct (dict_get_default "operation" (VStr "query") data);
      try discriminate.
    simpl in Hop. apply string_eqb_eq in Hop. subst s. reflexivity.
  - rewrite !andb_false_r.
    destruct (dict_get_default "operation" (VStr "query") data);
      try (destruct Hop; discriminate).
    simpl in Hop.
    destruct Hop as [Hop|Hop]; apply string_eqb_eq in Hop; subst s; reflexivity.
Qed.
End RagFacts.

(** C10: a request of the document agent whose operation is "process" but
    which has no "file_path" key, or whose operation is "save" or "load"
    but which has no "index_path" key, is handled exactly as the query made
    of its "query" field alone.  Without a query the answer is
    "No query provided"; with a query and no index it is
    "No document has been processed. ..."; neither names the missing field,
    and the index is left as it was. *)
Theorem rag_missing_operand_is_query
        (format_other : value -> string) (backend : RAGAgent.Backend)
        (connector : option LLMConnector) (groq_api_key : value)
        (data : dict value) (st : RAGAgent.State) :
  lacks_operand data ->
  RAGAgent.process format_other backend connector groq_api_key data st
  = RAGAgent.process format_other backend connector groq_api_key
      [("query", dict_get_default "query" VNone data)] st
  /\ (truthy (dict_get_default "query" VNone data) = false ->
      RAGAgent.process format_other backend connector groq_api_key data st
      = (Ret (VDict [("success", VBool false);
                     ("message", VStr "No query provided");
                     ("answer", VNone)]), st))
  /\ (truthy (dict_get_default "query" VNone data) = true ->
      RAGAgent.vectorstore st = None ->
      RAGAgent.process format_other backend connector groq_api_key data st
      = (Ret (VDict [("success", VBool false);
                     ("message",
                      VStr "No document has been processed. Process a document first.");
                     ("answer", VNone)]), st)).
Proof.
  intros Hlack.
  pose proof (rag_falls_through format_other backend connector groq_api_key
                data st Hlack) as Hq.
  split; [exact Hq|]. split.
  - intros Hno. rewrite Hq. now apply rag_no_query.
  - intros Hyes Hvs. rewrite Hq. now apply rag_no_index.
Qed.

Lemma rag_missing_operand_is_query_witness :
  RAGAgent.process Sample.format_other Sample.no_backend None (VStr "")
    [("operation", VStr "process")] (RAGAgent.mkState None)
  = (Ret (VDict [("success", VBool false);
                 ("message", VStr "No query provided");
                 ("answer", VNone)]), RAGAgent.mkState None)
  /\ RAGAgent.process Sample.format_other Sample.no_backend None (VStr "")
       [("operation", VStr "save"); ("query", VStr "X")] (RAGAgent.mkState None)
     = (Ret (VDict [("success", VBool false);
                    ("message",
                     VStr "No document has been processed. Process a document first.");
                    ("answer", VNone)]), RAGAgent.mkState None).
Proof.
  split.
  - apply (rag_missing_operand_is_query Sample.format_other Sample.no_backend
             None (VStr "") [("operation", VStr "process")] (RAGAgent.mkState None)).
    + left. split; reflexivity.
    + reflexivity.
  - apply (rag_missing_operand_is_query Sample.format_other Sample.no_backend
             None (VStr "") [("operation", VStr "save"); ("query", VStr "X")]
             (RAGAgent.mkState None)).
    + right. split; [left|]; reflexivity.
    + reflexivity.
    + reflexivity.
Defined.

(** C7, as stated, fails: the request reaches the agent only through the
    status check.  With the agent bound to no connector, as [main.py] binds
    it when no Groq key is set, or to an adapter that reports false, the
    envelope has [result] None: there is no inner result. *)
Lemma process_task_rag_not_dispatched :
  Orch.process_task "rag" Sample.queries_x
    (mkWorld (Sample.orchestrator (Sample.sync_connector true) None) [])
  = (Ret [("success", VBool false);
          ("message",
           VStr "Erreur lors du traitement: 'NoneType' object has no attribute 'check_status'");
          ("result", VNone)],
     mkWorld (Sample.orchestrator (Sample.sync_connector true) None)
             [CallCheckStatus "rag"])
  /\ Orch.process_task "rag" Sample.queries_x
       (mkWorld (Sample.orchestrator (Sample.sync_connector true)
                   (Some (Sample.sync_connector false))) [])
     = (Ret [("success", VBool false);
             ("message", VStr "Agent rag non disponible");
             ("result", VNone)],
        mkWorld (Sample.orchestrator (Sample.sync_connector true)
                   (Some (Sample.sync_connector false)))
                [CallCheckStatus "rag"]).
Proof. split; reflexivity. Qed.

(** C7, amended: with the document agent registered under "rag", no
    document processed, and the status check of its adapter passing,
    [process_task("rag", {query: X})] returns the outer envelope with
    [success] true whose [result] is the agent's answer with [success]
    false and [answer] None; for a non-empty [X] its message is the
    no-document message.  Nothing is raised and the registry is as
    before. *)
Theorem process_task_rag_no_index
        (format_other : value -> string) (backend : RAGAgent.Backend)
        (groq_api_key : value) (o : Orchestrator) (log : list call)
        (c : LLMConnector) (status : value) (x : string) :
  dict_get "rag" (agents o)
  = Some (RAGAgent.new format_other backend (Some c) groq_api_key) ->
  conn_check_status c = Ret status ->
  truthy status = true ->
  exists message,
    Orch.process_task "rag" [("query", VStr x)] (mkWorld o log)
    = (Ret [("success", VBool true);
            ("message", VStr "Tâche traitée par rag");
            ("result",
             VDict [("success", VBool false);
                    ("message", VStr message);
                    ("answer", VNone)])],
       mkWorld o (log ++ [CallCheckStatus "rag";
                          CallProcess "rag" [("query", VStr x)]]))
    /\ (x <> "" ->
        message = "No document has been processed. Process a document first.").
Proof.
  intros Hget Hstatus Htrue.
  assert (Hproc : exists message,
             BaseAgent.process
               (RAGAgent.new format_other backend (Some c) groq_api_key)
               [("query", VStr x)]
             = (Ret (VDict [("success", VBool false);
                            ("message", VStr message);
                            ("answer", VNone)]),
                RAGAgent.new format_other backend (Some c) groq_api_key)
             /\ (x <> "" ->
                 message
                 = "No document has been processed. Process a document first.")).
  { unfold BaseAgent.process.
    change (process_impl (RAGAgent.new format_other backend (Some c) groq_api_key))
      with (RAGAgent.process format_other backend (Some c) groq_api_key).
    change (state (RAGAgent.new format_other backend (Some c) groq_api_key))
      with (RAGAgent.mkState None).
    destruct (truthy (VStr x)) eqn:Hx.
    - rewrite rag_no_index by (assumption || reflexivity).
      eexists. split; [reflexivity | reflexivity].
    - rewrite rag_no_query by assumption.
      eexists. split; [reflexivity|].
      intros Hne. simpl in Hx. destruct (string_eqb_spec x ""); [contradiction|discriminate]. }
  destruct Hproc as (message & Hproc & Hmsg).
  exists message. split; [|exact Hmsg].
  unfold Orch.process_task, dict_mem. cbn [orch agents]. rewrite Hget.
  cbn [negb].
  unfold try_except, bind, Orch.lookup, Orch.agent_check_status,
    Orch.agent_process.
  cbn [orch agents calls]. rewrite Hget. unfold BaseAgent.check_status.
  cbn [llm_connector RAGAgent.new]. rewrite Hstatus, Htrue. cbn [negb].
  rewrite Hproc. cbn [orch agents calls ret].
  rewrite <- app_assoc. cbn [app].
  rewrite (dict_set_get _ _ _ Hget). now destruct o.
Qed.

Lemma process_task_rag_no_index_witness :
  exists message,
    Orch.process_task "rag" [("query", VStr "X")]
      (mkWorld (Sample.orchestrator (Sample.sync_connector true)
                  (Some (Sample.sync_connector true))) [])
    = (Ret [("success", VBool true);
            ("message", VStr "Tâche traitée par rag");
            ("result",
             VDict [("success", VBool false);
                    ("message", VStr message);
                    ("answer", VNone)])],
       mkWorld (Sample.orchestrator (Sample.sync_connector true)
                  (Some (Sample.sync_connector true)))
               [CallCheckStatus "rag"; CallProcess "rag" [("query", VStr "X")]])
    /\ ("X" <> "" ->
        message = "No document has been processed. Process a document first.").
Proof.
  apply (process_task_rag_no_index Sample.format_other Sample.no_backend (VStr "")
           (Sample.orchestrator (Sample.sync_connector true)
              (Some (Sample.sync_connector true)))
           [] (Sample.sync_connector true) (VBool true) "X");
    reflexivity.
Defined.

(** ** Response parsing: the matcher on examples *)

Example parse_fenced_then_text :
  parse_llm_response ("Voici:" ++ nl ++ fenced "x = 1" ++ nl ++ "Ajout de x.")
  = ("x = 1", "Ajout de x.").
Proof. reflexivity. Qed.

Example parse_fenced_only_text_before :
  parse_llm_response ("Voici:" ++ nl ++ fenced "x = 1") = ("x = 1", "Voici:").
Proof. reflexivity. Qed.

Example parse_no_block : parse_llm_response " pass " = (" pass ", "").
Proof. reflexivity. Qed.

Example parse_inner_fence :
  parse_llm_response (fenced ("a " ++ fence ++ " b"))
  = ("a", "b" ++ nl ++ fence).
Proof. reflexivity. Qed.

Example parse_two_blocks :
  parse_llm_response (fenced "a" ++ " puis " ++ fenced "b")
  = ("a", "puis " ++ fenced "b").
Proof. reflexivity. Qed.


(** ** Response parsing: whitespace; the backtick is code point 96 *)

Lemma append_empty_r (s : string) : s ++ "" = s.
Proof. induction s; simpl; congruence. Qed.

Lemma append_assoc (s t u : string) : (s ++ t) ++ u = s ++ (t ++ u).
Proof. induction s; simpl; congruence. Qed.

Lemma space_not_backtick (c : char) :
  is_space c = true -> Char.eqb 96%N c = false.
Proof.
  intros Hc. destruct (char_eqb_spec 96%N c) as [<-|]; [|reflexivity].
  discriminate Hc.
Qed.

Lemma lstrip_length (s : string) : String.length (lstrip s) <= String.length s.
Proof.
  induction s as [|c s IH]; simpl; [lia|].
  destruct (is_space c); simpl; lia.
Qed.

(** A string that [lstrip] leaves alone does not start with whitespace. *)
Lemma lstrip_fixed_head (c : char) (s : string) :
  lstrip (String c s) = String c s -> is_space c = false.
Proof.
  simpl. destruct (is_space c); [|reflexivity]. intros H.
  pose proof (lstrip_length s) as Hlen. rewrite H in Hlen. simpl in Hlen. lia.
Qed.

Lemma lstrip_head (s : string) :
  lstrip s = "" \/ exists c t, lstrip s = String c t /\ is_space c = false.
Proof.
  induction s as [|c s IH]; simpl; [now left|].
  destruct (is_space c) eqn:Hc; [exact IH|]. right. eauto.
Qed.

Lemma lstrip_idem (s : string) : lstrip (lstrip s) = lstrip s.
Proof.
  destruct (lstrip_head s) as [->|(c & t & -> & Hc)]; simpl; [reflexivity|].
  now rewrite Hc.
Qed.

Lemma rstrip_idem (s : string) : rstrip (rstrip s) = rstrip s.
Proof.
  induction s as [|c s IH]; simpl; [reflexivity|].
  destruct (is_space c && is_empty (rstrip s)) eqn:E; simpl; [reflexivity|].
  now rewrite IH, E.
Qed.

(** [rstrip] keeps a prefix. *)
Lemma rstrip_prefix (s : string) : exists t, s = rstrip s ++ t.
Proof.
  induction s as [|c s [t IH]]; simpl; [now exists ""|].
  destruct (is_space c && is_empty (rstrip s)).
  - now exists (String c s).
  - exists t. simpl. now rewrite <- IH.
Qed.

(** A string that [rstrip] leaves alone: so is its tail, and a character
    alone is not whitespace. *)
Lemma rstrip_fixed_tail (c : char) (s : string) :
  rstrip (String c s) = String c s ->
  rstrip s = s /\ (s = "" -> is_space c = false).
Proof.
  simpl. destruct (is_space c && is_empty (rstrip s)) eqn:E; [discriminate|].
  intros [= H]. split; [exact H|]. intros ->. simpl in E.
  now rewrite andb_true_r in E.
Qed.

Lemma lstrip_rstrip (s : string) : lstrip s = s -> lstrip (rstrip s) = rstrip s.
Proof.
  destruct s as [|c s]; [reflexivity|]. intros H.
  apply lstrip_fixed_head in H. simpl. rewrite H. simpl. now rewrite H.
Qed.

Lemma strip_stripped (s : string) :
  lstrip (strip s) = strip s /\ rstrip (strip s) = strip s.
Proof.
  unfold strip. split; [|apply rstrip_idem].
  apply lstrip_rstrip, lstrip_idem.
Qed.

Lemma strip_fixed (s : string) : lstrip s = s -> rstrip s = s -> strip s = s.
Proof. unfold strip. now intros -> ->. Qed.

(** ** Response parsing: fences *)

Lemma starts_with_app (lit s t : string) :
  starts_with lit s = true -> starts_with lit (s ++ t) = true.
Proof.
  revert s. induction lit as [|c lit IH]; intros s; simpl; [reflexivity|].
  destruct s as [|d s]; simpl; [discriminate|].
  destruct (Char.eqb c d); simpl; [apply IH | discriminate].
Qed.

Lemma has_fence_cons (c : char) (s : string) :
  has_fence (String c s) = starts_with fence (String c s) || has_fence s.
Proof. reflexivity. Qed.

Lemma has_fence_lstrip (s : string) :
  has_fence s = false -> has_fence (lstrip s) = false.
Proof.
  induction s as [|c s IH]; [reflexivity|].
  intros H. simpl lstrip. destruct (is_space c); [|exact H].
  rewrite has_fence_cons in H. apply orb_false_elim in H. now apply IH.
Qed.

Lemma has_fence_rstrip (s : string) :
  has_fence s = false -> has_fence (rstrip s) = false.
Proof.
  induction s as [|c s IH]; [reflexivity|].
  intros H. rewrite has_fence_cons in H. apply orb_false_elim in H.
  destruct H as [Hhead Htail]. simpl rstrip.
  destruct (is_space c && is_empty (rstrip s)); [reflexivity|].
  rewrite has_fence_cons. rewrite (IH Htail), orb_false_r.
  destruct (starts_with fence (String c (rstrip s))) eqn:E; [|reflexivity].
  destruct (rstrip_prefix s) as [t Ht].
  apply (starts_with_app _ _ t) in E. simpl append in E.
  rewrite <- Ht in E. congruence.
Qed.

Lemma has_fence_strip (s : string) :
  has_fence s = false -> has_fence (strip s) = false.
Proof. intros H. now apply has_fence_rstrip, has_fence_lstrip. Qed.

(** ** Response parsing: the matcher *)

Section Matcher.
Context {R : Type}.
Implicit Types (k : string -> option R) (s lit : string).

Lemma re_lit_starts lit k s :
  starts_with lit s = false -> re_lit lit k s = None.
Proof.
  revert s. induction lit as [|c lit IH]; intros s; simpl; [discriminate|].
  destruct s as [|d s]; [reflexivity|].
  destruct (Char.eqb c d); simpl; [apply IH | reflexivity].
Qed.

Lemma re_lit_accepts lit k s :
  starts_with lit s = true -> (forall s', k s' <> None) ->
  re_lit lit k s <> None.
Proof.
  intros Hs Hk. revert s Hs.
  induction lit as [|c lit IH]; intros s; simpl; [intros _; apply Hk|].
  destruct s as [|d s]; [discriminate|].
  destruct (Char.eqb c d); simpl; [apply IH | discriminate].
Qed.

Lemma re_lit_inv lit k s r :
  re_lit lit k s = Some r -> exists s', k s' = Some r.
Proof.
  revert s. induction lit as [|c lit IH]; intros s; simpl; [eauto|].
  destruct s as [|d s]; [discriminate|].
  destruct (Char.eqb c d); [apply IH | discriminate].
Qed.

Lemma re_star_inv p k s r :
  re_star p k s = Some r -> exists s', k s' = Some r.
Proof.
  induction s as [|c s IH]; simpl; [eauto|].
  destruct (p c); [|eauto].
  destruct (re_star p k s) as [r'|]; [|eauto].
  intros [= <-]. now apply IH.
Qed.

(** A greedy star in front of a continuation that accepts the input as
    it is never fails. *)
Lemma re_star_accepts p k s :
  k s <> None -> re_star p k s <> None.
Proof.
  intros Hk. destruct s as [|c s]; simpl; [exact Hk|].
  destruct (p c); [|exact Hk].
  destruct (re_star p k s); [discriminate | exact Hk].
Qed.
End Matcher.

Lemma closing_fst (g s : string) (r : string * string) :
  closing g s = Some r -> fst r = g.
Proof.
  unfold closing. intros H.
  apply re_star_inv in H. destruct H as [s1 H].
  apply re_lit_inv in H. destruct H as [s2 H]. now injection H as <-.
Qed.

(** Where the input starts with a fence the end of the pattern matches. *)
Lemma closing_at_fence (g s : string) :
  starts_with fence s = true -> closing g s <> None.
Proof.
  intros H. unfold closing. apply re_star_accepts.
  apply re_lit_accepts; [exact H | discriminate].
Qed.

(** What the lazy group captures holds no fence: it stops at the first
    place where the end of the pattern matches. *)
Lemma lazy_group_no_fence (s g0 : string) (r : string * string) :
  re_lazy_group dot_all closing g0 s = Some r ->
  exists a b, fst r = g0 ++ a /\ s = a ++ b /\ has_fence a = false.
Proof.
  revert g0. induction s as [|c s IH]; intros g0; cbn [re_lazy_group].
  - destruct (closing g0 "") as [r'|] eqn:Hc; [|discriminate].
    intros [= <-]. exists "", "". rewrite append_empty_r.
    split; [now apply closing_fst in Hc | split; reflexivity].
  - destruct (closing g0 (String c s)) as [r'|] eqn:Hc.
    + intros [= <-]. exists "", (String c s). rewrite append_empty_r.
      split; [now apply closing_fst in Hc | split; reflexivity].
    + cbn [dot_all]. intros H. apply IH in H.
      destruct H as (a & b & Hr & -> & Hnf).
      exists (String c a), b. rewrite append_assoc in Hr.
      split; [exact Hr | split; [reflexivity|]].
      rewrite has_fence_cons, Hnf, orb_false_r.
      destruct (starts_with fence (String c a)) eqn:E; [|reflexivity].
      apply (starts_with_app _ _ b) in E.
      apply (closing_at_fence g0) in E. contradiction.
Qed.

Lemma code_pattern_match_no_fence (s g rest : string) :
  code_pattern_match s = Some (g, rest) -> has_fence g = false.
Proof.
  unfold code_pattern_match. intros H.
  apply re_lit_inv in H. destruct H as [s1 H].
  apply re_star_inv in H. destruct H as [s2 H].
  apply lazy_group_no_fence in H. destruct H as (a & b & Hr & _ & Hnf).
  simpl in Hr. now subst g.
Qed.

Lemma code_pattern_search_from_unfold (pre s : string) :
  code_pattern_search_from pre s
  = match code_pattern_match s with
    | Some (g, rest) => Some (mkMatch pre g rest)
    | None =>
        match s with
        | String c s' => code_pattern_search_from (pre ++ String c EmptyString) s'
        | EmptyString => None
        end
    end.
Proof. destruct s; reflexivity. Qed.

Lemma code_pattern_search_no_fence (response : string) (m : re_match) :
  code_pattern_search response = Some m -> has_fence (group1 m) = false.
Proof.
  unfold code_pattern_search. generalize "" as pre.
  induction response as [|c s IH]; intros pre;
    rewrite code_pattern_search_from_unfold;
    destruct (code_pattern_match _) as [[g rest]|] eqn:Hm;
    try discriminate; try (intros [= <-]; simpl;
                           now apply code_pattern_match_no_fence in Hm).
  apply IH.
Qed.

(** ** Response parsing: a fenced block read back *)

Lemma starts_with_block_end (y : string) :
  starts_with fence y = false -> starts_with fence (y ++ block_end) = false.
Proof.
  destruct y as [|c1 [|c2 [|c3 y]]];
    cbn [starts_with append fence block_end nl];
    repeat match goal with
           | |- context [Char.eqb 96%N ?c] =>
               is_var c; destruct (Char.eqb 96%N c)
           end;
    intros; try reflexivity; try discriminate.
Qed.

(** Inside the text of the block the end of the pattern does not match. *)
Lemma closing_inside (y g : string) :
  y <> "" -> rstrip y = y -> has_fence y = false ->
  closing g (y ++ block_end) = None.
Proof.
  unfold closing. induction y as [|c y IH]; [congruence|].
  intros _ Hr Hnf. apply rstrip_fixed_tail in Hr. destruct Hr as [Hr Hlast].
  rewrite has_fence_cons in Hnf. apply orb_false_elim in Hnf.
  destruct Hnf as [Hhead Htail].
  assert (Hlit : re_lit fence (fun rest => Some (g, rest))
                   (String c y ++ block_end) = None).
  { apply re_lit_starts. now apply starts_with_block_end. }
  cbn [append re_star]. destruct (is_space c) eqn:Hc; [|exact Hlit].
  rewrite IH; [exact Hlit | | assumption | assumption].
  intros ->. specialize (Hlast eq_refl). congruence.
Qed.

(** The lazy group runs to the end of the text. *)
Lemma lazy_group_block (x g : string) :
  rstrip x = x -> has_fence x = false ->
  re_lazy_group dot_all closing g (x ++ block_end) = Some (g ++ x, "").
Proof.
  revert g. induction x as [|c x IH]; intros g Hr Hnf.
  - rewrite append_empty_r. reflexivity.
  - cbn [append re_lazy_group].
    change (String c (x ++ block_end)) with (String c x ++ block_end).
    rewrite closing_inside by (assumption || discriminate).
    cbn [dot_all append].
    apply rstrip_fixed_tail in Hr. destruct Hr as [Hr _].
    rewrite has_fence_cons in Hnf. apply orb_false_elim in Hnf.
    rewrite IH by tauto. now rewrite append_assoc.
Qed.

Lemma code_pattern_match_fenced (x : string) :
  lstrip x = x -> rstrip x = x -> has_fence x = false ->
  code_pattern_match (fenced x) = Some (x, "").
Proof.
  intros Hl Hr Hnf. unfold code_pattern_match, fenced.
  change (re_lit fence_python ?k (fence_python ++ ?s)) with (k s).
  change (nl ++ x ++ nl ++ fence) with (String (10%N) (x ++ block_end)).
  cbn [re_star]. change (is_space (10%N)) with true. cbn iota.
  assert (H : re_star is_space (re_lazy_group dot_all closing "")
                (x ++ block_end) = Some (x, "")).
  { destruct x as [|c x]; [reflexivity|].
    cbn [append re_star]. rewrite (lstrip_fixed_head c x Hl).
    change (String c (x ++ block_end)) with (String c x ++ block_end).
    now rewrite lazy_group_block. }
  unfold closing in H. now rewrite H.
Qed.

(** A text without surrounding whitespace and without a fence, once
    fenced, is read back as it is, with no explanation. *)
Lemma parse_fenced_stripped (x : string) :
  lstrip x = x -> rstrip x = x -> has_fence x = false ->
  parse_llm_response (fenced x) = (x, "").
Proof.
  intros Hl Hr Hnf. unfold parse_llm_response, code_pattern_search.
  rewrite code_pattern_search_from_unfold, code_pattern_match_fenced by assumption.
  cbn [group1 after before]. now rewrite strip_fixed.
Qed.

(** C8, as stated, fails: a response with no fenced block is returned whole
    as the primary field, whitespace included; fenced and parsed again it
    comes back stripped. *)
Lemma parse_fenced_fallback_changes :
  fst (parse_llm_response " pass ") = " pass "
  /\ fst (parse_llm_response (fenced (fst (parse_llm_response " pass ")))) = "pass"
  /\ fst (parse_llm_response (fenced (fst (parse_llm_response " pass "))))
     <> fst (parse_llm_response " pass ").
Proof. split; [reflexivity | split; [reflexivity | discriminate]]. Qed.

(** C8, amended: for every response in which the parse routine finds a
    fenced Python block, the primary field [x] it extracts, fenced as a
    Python code block and parsed again, yields [x] as the primary field,
    unchanged, and an empty explanation. *)
Theorem parse_fenced_idempotent (response : string) (m : re_match) :
  code_pattern_search response = Some m ->
  parse_llm_response (fenced (fst (parse_llm_response response)))
  = (fst (parse_llm_response response), "").
Proof.
  intros Hm. unfold parse_llm_response at 2 3. rewrite Hm. cbn [fst].
  apply parse_fenced_stripped.
  - apply strip_stripped.
  - apply strip_stripped.
  - apply has_fence_strip. now apply code_pattern_search_no_fence in Hm.
Qed.

Lemma parse_fenced_idempotent_witness :
  parse_llm_response
    (fenced (fst (parse_llm_response
                    ("Voici:" ++ nl ++ fenced "x = 1" ++ nl ++ "Ajout de x."))))
  = (fst (parse_llm_response
            ("Voici:" ++ nl ++ fenced "x = 1" ++ nl ++ "Ajout de x.")), "").
Proof.
  apply (parse_fenced_idempotent
           ("Voici:" ++ nl ++ fenced "x = 1" ++ nl ++ "Ajout de x.")
           (mkMatch ("Voici:" ++ nl) "x = 1" (nl ++ "Ajout de x."))).
  reflexivity.
Defined.

(** * Further properties *)

(** ** Orchestrator: the registry under its operations *)

Section DictMore.
Context {V : Type}.
Implicit Types (d : dict V) (k : string) (v : V).

Lemma dict_set_set k v1 v2 d :
  dict_set k v2 (dict_set k v1 d) = dict_set k v2 d.
Proof.
  induction d as [|[k' v'] d IH]; simpl.
  - now rewrite string_eqb_refl.
  - destruct (string_eqb_spec k k') as [->|Hne]; simpl.
    + now rewrite string_eqb_refl.
    + destruct (string_eqb_spec k k'); [contradiction|]. now rewrite IH.
Qed.

Lemma dict_get_del_other k k' d :
  k <> k' -> dict_get k (dict_del k' d) = dict_get k d.
Proof.
  intros Hne. induction d as [|[k0 v0] d IH]; simpl; [reflexivity|].
  destruct (string_eqb_spec k' k0) as [->|Hne0]; simpl.
  - destruct (string_eqb_spec k k0); [contradiction | reflexivity].
  - now rewrite IH.
Qed.

Lemma dict_get_del_same k d : dict_wf d -> dict_get k (dict_del k d) = None.
Proof.
  unfold dict_wf. induction d as [|[k' v'] d IH]; simpl; [reflexivity|].
  intros Hwf. inversion Hwf as [|? ? Hnotin Hnd]; subst.
  destruct (string_eqb_spec k k') as [->|Hne]; simpl.
  - destruct (dict_get k' d) eqn:E; [|reflexivity].
    exfalso. apply Hnotin, dict_get_in_keys. congruence.
  - destruct (string_eqb_spec k k'); [contradiction | auto].
Qed.

Lemma dict_set_fresh_app k v d :
  dict_get k d = None -> dict_set k v d = (d ++ [(k, v)])%list.
Proof.
  induction d as [|[k' v'] d IH]; simpl; [reflexivity|].
  destruct (string_eqb_spec k k') as [->|Hne]; [discriminate|].
  intros H. now rewrite IH.
Qed.
End DictMore.

(** What [process_task] does to the registry: nothing, or it writes the
    dispatched agent back under its id. *)
Lemma process_task_registry (w : world) (agent_id : string) (data : dict value) :
  orch (snd (Orch.process_task agent_id data w)) = orch w
  \/ exists a a',
      dict_get agent_id (agents (orch w)) = Some a
      /\ orch (snd (Orch.process_task agent_id data w))
         = mkOrchestrator (dict_set agent_id a' (agents (orch w))).
Proof.
  unfold Orch.process_task, dict_mem.
  destruct (dict_get agent_id (agents (orch w))) as [a|] eqn:Hget; simpl;
    [|now left].
  unfold try_except, bind, Orch.lookup, Orch.agent_check_status,
    Orch.agent_process.
  rewrite Hget.
  destruct (BaseAgent.check_status a) as [status|e]; simpl;
    [|destruct (is_exception e); now left].
  destruct (truthy status); simpl; [|now left].
  destruct (BaseAgent.process a data) as [[r|e] a']; simpl;
    [|destruct (is_exception e)];
    right; exists a, a'; split; reflexivity.
Qed.

Lemma NoDup_map_injective {A B : Type} (f : A -> B) (l : list A) :
  (forall x y, f x = f y -> x = y) -> NoDup l -> NoDup (map f l).
Proof.
  intros Hinj. induction 1 as [|x l Hnotin _ IH]; simpl; constructor; [|exact IH].
  intros Hin. apply in_map_iff in Hin. destruct Hin as (y & Hxy & Hy).
  apply Hinj in Hxy. now subst y.
Qed.

Lemma descriptor_ids_keys (d : dict Agent) :
  descriptor_ids (map Orch.descriptor d)
  = map (fun k => Some (VStr k)) (keys d).
Proof.
  unfold descriptor_ids, keys. rewrite !map_map.
  apply map_ext. now intros [k a].
Qed.

(** X1: every registry a program can build, by registering, unregistering
    and dispatching in any order, has one entry per id, and
    [get_registered_agents] lists no id twice. *)
Theorem reachable_unique_ids (o : Orchestrator) :
  reachable o ->
  NoDup (keys (agents o))
  /\ NoDup (descriptor_ids (Orch.get_registered_agents o)).
Proof.
  intros Hreach.
  assert (Hwf : dict_wf (agents o)).
  { induction Hreach as [|o agent_id a _ IH|o agent_id _ IH|o log agent_id data _ IH].
    - constructor.
    - now apply dict_set_wf.
    - unfold Orch.unregister_agent.
      destruct (dict_mem agent_id (agents o)); [now apply dict_del_wf | assumption].
    - destruct (process_task_registry (mkWorld o log) agent_id data)
        as [->|(a & a' & _ & ->)]; [assumption | now apply dict_set_wf]. }
  split; [exact Hwf|].
  unfold Orch.get_registered_agents. rewrite descriptor_ids_keys.
  apply NoDup_map_injective; [|exact Hwf].
  intros x y [= ->]. reflexivity.
Qed.

Lemma reachable_unique_ids_witness :
  NoDup (keys (agents
           (Orch.unregister_agent
              (Orch.register_agent
                 (Orch.register_agent Sample.registry_code "rag" (Sample.rag_agent None))
                 "code" Sample.agent_down)
              "readme")))
  /\ NoDup (descriptor_ids
             (Orch.get_registered_agents
                (Orch.unregister_agent
                   (Orch.register_agent
                      (Orch.register_agent Sample.registry_code "rag"
                         (Sample.rag_agent None))
                      "code" Sample.agent_down)
                   "readme"))).
Proof.
  apply reachable_unique_ids.
  repeat constructor.
Defined.

(** X2: [process_task] never registers or unregisters: whatever the agent
    answers or raises, the ids of the registry and their order are as
    before. *)
Theorem process_task_keeps_ids (w : world) (agent_id : string) (data : dict value) :
  keys (agents (orch (snd (Orch.process_task agent_id data w))))
  = keys (agents (orch w)).
Proof.
  destruct (process_task_registry w agent_id data) as [->|(a & a' & Hget & ->)];
    [reflexivity|].
  cbn [agents]. apply keys_dict_set_present. congruence.
Qed.

(** X3: a later registration under the same id replaces the earlier one:
    registering [a1] and then [a2] under one id leaves the registry that
    registering [a2] alone gives; in particular registering the same agent
    twice is registering it once. *)
Theorem register_agent_overwrites (o : Orchestrator) (agent_id : string)
        (a1 a2 : Agent) :
  Orch.register_agent (Orch.register_agent o agent_id a1) agent_id a2
  = Orch.register_agent o agent_id a2.
Proof.
  unfold Orch.register_agent. simpl. now rewrite dict_set_set.
Qed.

(** X4: once an id is unregistered [process_task] on it reports
    "Agent non trouvé", calls nothing and changes nothing. *)
Theorem unregister_then_not_found (o : Orchestrator) (log : list call)
        (agent_id : string) (data : dict value) :
  dict_wf (agents o) ->
  Orch.process_task agent_id data
    (mkWorld (Orch.unregister_agent o agent_id) log)
  = (Ret [("success", VBool false);
          ("message", VStr ("Agent non trouvé: " ++ agent_id));
          ("result", VNone)],
     mkWorld (Orch.unregister_agent o agent_id) log).
Proof.
  intros Hwf.
  assert (Hgone : dict_mem agent_id
                    (agents (Orch.unregister_agent o agent_id)) = false).
  { unfold Orch.unregister_agent.
    destruct (dict_mem agent_id (agents o)) eqn:Hmem; [|exact Hmem].
    simpl. apply dict_mem_false. now apply dict_get_del_same. }
  unfold Orch.process_task. cbn [orch]. now rewrite Hgone.
Qed.

Lemma unregister_then_not_found_witness :
  Orch.process_task "code" Sample.empty_code
    (mkWorld (Orch.unregister_agent Sample.registry_code "code") [])
  = (Ret [("success", VBool false);
          ("message", VStr "Agent non trouvé: code");
          ("result", VNone)],
     mkWorld (Orch.unregister_agent Sample.registry_code "code") []).
Proof.
  apply (unregister_then_not_found Sample.registry_code [] "code" Sample.empty_code).
  repeat constructor; simpl; intuition discriminate.
Defined.

(** X5: [process_task] calls the agent at most twice and never retries: it
    makes no call when the id is unknown, and otherwise one status check,
    followed by at most one [process]. *)
Theorem process_task_calls (w : world) (agent_id : string) (data : dict value) :
  (dict_mem agent_id (agents (orch w)) = false ->
   calls (snd (Orch.process_task agent_id data w)) = calls w)
  /\ (dict_mem agent_id (agents (orch w)) = true ->
      calls (snd (Orch.process_task agent_id data w))
      = (calls w ++ [CallCheckStatus agent_id])%list
      \/ calls (snd (Orch.process_task agent_id data w))
         = (calls w ++ [CallCheckStatus agent_id; CallProcess agent_id data])%list).
Proof.
  unfold Orch.process_task, dict_mem.
  destruct (dict_get agent_id (agents (orch w))) as [a|] eqn:Hget; simpl;
    (split; [intros H; try discriminate; reflexivity | intros H; try discriminate]).
  unfold try_except, bind, Orch.lookup, Orch.agent_check_status,
    Orch.agent_process.
  rewrite Hget.
  destruct (BaseAgent.check_status a) as [status|e]; simpl;
    [|destruct (is_exception e); now left].
  destruct (truthy status); simpl; [|now left].
  destruct (BaseAgent.process a data) as [[r|e] a']; simpl;
    [|destruct (is_exception e)];
    right; now rewrite <- app_assoc.
Qed.

Lemma process_task_calls_witness :
  calls (snd (Orch.process_task "readme" Sample.queries_x
                (mkWorld Sample.registry_code [])))
  = []
  /\ (calls (snd (Orch.process_task "code" Sample.empty_code
                    (mkWorld Sample.registry_code [])))
      = [CallCheckStatus "code"]
      \/ calls (snd (Orch.process_task "code" Sample.empty_code
                       (mkWorld Sample.registry_code [])))
         = [CallCheckStatus "code"; CallProcess "code" Sample.empty_code]).
Proof.
  split.
  - apply (proj1 (process_task_calls (mkWorld Sample.registry_code [])
                    "readme" Sample.queries_x)).
    reflexivity.
  - apply (proj2 (process_task_calls (mkWorld Sample.registry_code [])
                    "code" Sample.empty_code)).
    reflexivity.
Defined.

(** X6: [get_registered_agents] follows the order of registration: an agent
    registered under a new id is listed last, with its id, name and
    description; registering under an id already taken leaves the list of
    ids as it was. *)
Theorem register_agent_listing (o : Orchestrator) (agent_id : string) (a : Agent) :
  (dict_mem agent_id (agents o) = false ->
   Orch.get_registered_agents (Orch.register_agent o agent_id a)
   = (Orch.get_registered_agents o
      ++ [[("id", VStr agent_id); ("name", VStr (name a));
           ("description", VStr (description a))]])%list)
  /\ (dict_mem agent_id (agents o) = true ->
      descriptor_ids (Orch.get_registered_agents (Orch.register_agent o agent_id a))
      = descriptor_ids (Orch.get_registered_agents o)).
Proof.
  unfold Orch.get_registered_agents, Orch.register_agent. cbn [agents]. split.
  - intros Hfresh. apply dict_mem_false in Hfresh.
    rewrite dict_set_fresh_app by assumption. now rewrite map_app.
  - intros Hmem. apply dict_mem_true in Hmem. destruct Hmem as [a0 Hget].
    rewrite !descriptor_ids_keys, keys_dict_set_present; congruence.
Qed.

Lemma register_agent_listing_witness :
  Orch.get_registered_agents
    (Orch.register_agent Sample.registry_code "rag" (Sample.rag_agent None))
  = (Orch.get_registered_agents Sample.registry_code
     ++ [[("id", VStr "rag"); ("name", VStr "RAGAgent");
          ("description",
           VStr "Agent for document Q&A using Retrieval-Augmented Generation")]])%list
  /\ descriptor_ids
       (Orch.get_registered_agents
          (Orch.register_agent Sample.registry_code "code" Sample.agent_down))
     = descriptor_ids (Orch.get_registered_agents Sample.registry_code).
Proof.
  split.
  - apply (proj1 (register_agent_listing Sample.registry_code "rag"
                    (Sample.rag_agent None))).
    reflexivity.
  - apply (proj2 (register_agent_listing Sample.registry_code "code"
                    Sample.agent_down)).
    reflexivity.
Defined.

(** X7: unregistering removes the descriptor of that id and no other: after
    [unregister_agent(id)] no descriptor carries [id], and the descriptors
    of every other id are the ones listed before. *)
Theorem unregister_agent_listing (o : Orchestrator) (agent_id : string) :
  dict_wf (agents o) ->
  descriptors_of agent_id
    (Orch.get_registered_agents (Orch.unregister_agent o agent_id)) = []
  /\ forall other,
      other <> agent_id ->
      descriptors_of other
        (Orch.get_registered_agents (Orch.unregister_agent o agent_id))
      = descriptors_of other (Orch.get_registered_agents o).
Proof.
  intros Hwf.
  assert (Hlist : forall o' k,
             dict_wf (agents o') ->
             descriptors_of k (Orch.get_registered_agents o')
             = match dict_get k (agents o') with
               | Some a => [Orch.descriptor (k, a)]
               | None => []
               end).
  { intros o' k Hwf'. unfold Orch.get_registered_agents.
    destruct (dict_get k (agents o')) as [a|] eqn:Hget.
    - now apply descriptors_of_present.
    - now apply descriptors_of_absent. }
  assert (Hwf' : dict_wf (agents (Orch.unregister_agent o agent_id))).
  { now apply unregister_agent_wf. }
  split.
  - rewrite Hlist by assumption.
    unfold Orch.unregister_agent.
    destruct (dict_mem agent_id (agents o)) eqn:Hmem; cbn [agents].
    + now rewrite dict_get_del_same.
    + apply dict_mem_false in Hmem. now rewrite Hmem.
  - intros other Hne. rewrite !Hlist by assumption.
    unfold Orch.unregister_agent.
    destruct (dict_mem agent_id (agents o)); cbn [agents]; [|reflexivity].
    now rewrite dict_get_del_other.
Qed.

Lemma unregister_agent_listing_witness :
  descriptors_of "code"
    (Orch.get_registered_agents
       (Orch.unregister_agent
          (Sample.orchestrator (Sample.sync_connector true) None) "code")) = []
  /\ descriptors_of "rag"
       (Orch.get_registered_agents
          (Orch.unregister_agent
             (Sample.orchestrator (Sample.sync_connector true) None) "code"))
     = descriptors_of "rag"
         (Orch.get_registered_agents
            (Sample.orchestrator (Sample.sync_connector true) None)).
Proof.
  destruct (unregister_agent_listing
              (Sample.orchestrator (Sample.sync_connector true) None) "code")
    as [Hgone Hothers].
  - repeat constructor; simpl; intuition discriminate.
  - split; [exact Hgone | apply Hothers; discriminate].
Defined.

(** ** The agents behind the dispatch *)

Lemma debug_assistant_contained
      (build_debug_prompt : value -> value -> value -> outcome string)
      (connector : option LLMConnector) (data : dict value) (st : unit) :
  contained (fst (DebugAssistant.process build_debug_prompt connector data st)).
Proof.
  unfold DebugAssistant.process, try_except, bind, lift, ret.
  destruct (truthy (dict_get_default "code" (VStr "") data)); cbn [negb];
    [|answered].
  destruct (build_debug_prompt _ _ _) as [prompt|e]; [|caught e].
  destruct (CodeAssistant.call_generate connector (VStr prompt) _) as [result|e];
    [answered|caught e].
Qed.

Lemma readme_generator_contained
      (format_other : value -> string)
      (build_readme_prompt :
         value -> value -> value -> value -> value -> outcome string)
      (connector : option LLMConnector) (data : dict value) (st : unit) :
  contained
    (fst (ReadmeGenerator.process format_other build_readme_prompt connector
            data st)).
Proof.
  unfold ReadmeGenerator.process, try_except, bind, lift, ret.
  destruct (build_readme_prompt _ _ _ _ _) as [prompt|e]; [|caught e].
  destruct (CodeAssistant.call_generate connector (VStr prompt) _) as [result|e];
    [answered|caught e].
Qed.


(** X8: the four agents of [main.py] keep their failures to themselves: in
    whatever state, for every request, every prompt builder and every
    behaviour of the adapter and of the document backend, [process] raises
    no [Exception].  It returns a mapping with a boolean [success] and a
    [message], or lets through an exception that is not an [Exception]. *)
Theorem agents_self_contained
        (format_other : value -> string)
        (build_code_prompt : value -> value -> value -> value -> outcome string)
        (build_debug_prompt : value -> value -> value -> outcome string)
        (build_readme_prompt :
           value -> value -> value -> value -> value -> outcome string)
        (backend : RAGAgent.Backend) (groq_api_key : value)
        (connector : option LLMConnector) :
  self_contained (CodeAssistant.new format_other build_code_prompt connector)
  /\ self_contained (DebugAssistant.new build_debug_prompt connector)
  /\ self_contained (ReadmeGenerator.new format_other build_readme_prompt connector)
  /\ self_contained (RAGAgent.new format_other backend connector groq_api_key).
Proof.
  unfold self_contained. repeat split; intros data st; cbn [process_impl
    CodeAssistant.new DebugAssistant.new ReadmeGenerator.new RAGAgent.new].
  - apply code_assistant_contained.
  - apply debug_assistant_contained.
  - apply readme_generator_contained.
  - apply rag_agent_contained.
Qed.

(** X9: the envelope says nothing about the outcome of the task: once the
    status check passes and [process] returns, [process_task] returns
    [success] true, and its [result] is the very answer [process] returned,
    also when that answer reports a failure.  The agent was called for its
    status and then once for [process]. *)
Theorem process_task_wraps_answer (w : world) (agent_id : string)
        (data : dict value) (a : Agent) (status answer : value) :
  dict_get agent_id (agents (orch w)) = Some a ->
  BaseAgent.check_status a = Ret status ->
  truthy status = true ->
  fst (BaseAgent.process a data) = Ret answer ->
  fst (Orch.process_task agent_id data w)
  = Ret [("success", VBool true);
         ("message", VStr ("Tâche traitée par " ++ agent_id));
         ("result", answer)]
  /\ calls (snd (Orch.process_task agent_id data w))
     = (calls w ++ [CallCheckStatus agent_id; CallProcess agent_id data])%list.
Proof.
  intros Hget Hstatus Htrue Hproc.
  unfold Orch.process_task, dict_mem. rewrite Hget. cbn [negb].
  unfold try_except, bind, Orch.lookup, Orch.agent_check_status,
    Orch.agent_process, ret.
  rewrite Hget, Hstatus. cbn [orch calls agents]. rewrite Htrue. cbn [negb].
  destruct (BaseAgent.process a data) as [r a']. cbn [fst] in Hproc. subst r.
  cbn [fst snd calls]. now rewrite <- app_assoc.
Qed.

(** The server cannot be reached: the code assistant answers with
    [success] false, and the envelope around it says [success] true. *)
Lemma process_task_wraps_answer_witness :
  fst (Orch.process_task "code" Sample.improve_x
         (mkWorld (Sample.orchestrator (Sample.ollama Sample.unreachable) None) []))
  = Ret [("success", VBool true);
         ("message", VStr "Tâche traitée par code");
         ("result",
          VDict [("improved_code", VStr "");
                 ("explanation", VStr "");
                 ("success", VBool false);
                 ("message",
                  VStr "Erreur lors de l'amélioration du code: All connection attempts failed")])]
  /\ calls (snd (Orch.process_task "code" Sample.improve_x
                   (mkWorld (Sample.orchestrator (Sample.ollama Sample.unreachable)
                                                 None) [])))
     = [CallCheckStatus "code"; CallProcess "code" Sample.improve_x].
Proof.
  apply (process_task_wraps_answer
           (mkWorld (Sample.orchestrator (Sample.ollama Sample.unreachable) None) [])
           "code" Sample.improve_x
           (Sample.code_agent (Sample.ollama Sample.unreachable)) VCoroutine);
    reflexivity.
Defined.

(** ** The Ollama adapter: payload, reply, status *)

Lemma add_kwarg_other (payload : dict value) (kv : string * value) (k : string) :
  k <> "options" ->
  dict_get k (OllamaConnector.add_kwarg payload kv) = dict_get k payload.
Proof.
  intros Hne. unfold OllamaConnector.add_kwarg. destruct kv as [key v].
  destruct (existsb (String.eqb key) ["model"; "prompt"; "system"]);
    [reflexivity|].
  now apply dict_get_set_other.
Qed.

Lemma fold_add_kwarg_other (kw : dict value) (payload : dict value) (k : string) :
  k <> "options" ->
  dict_get k (fold_left OllamaConnector.add_kwarg kw payload) = dict_get k payload.
Proof.
  intros Hne. revert payload. induction kw as [|kv kw IH]; intros payload;
    cbn [fold_left]; [reflexivity|].
  rewrite IH. now apply add_kwarg_other.
Qed.

Lemma fold_add_kwarg_options (kw : dict value) (payload o : dict value) :
  dict_get "options" payload = Some (VDict o) ->
  dict_get "options" (fold_left OllamaConnector.add_kwarg kw payload)
  = Some (VDict
            (fold_left
               (fun o kv => if reserved_kwarg (fst kv) then o
                            else dict_set (fst kv) (snd kv) o) kw o)).
Proof.
  revert payload o. induction kw as [|[key v] kw IH]; intros payload o Hopt;
    cbn [fold_left fst snd]; [exact Hopt|].
  apply IH. unfold OllamaConnector.add_kwarg, reserved_kwarg.
  destruct (existsb (String.eqb key) ["model"; "prompt"; "system"]);
    [exact Hopt|].
  rewrite dict_get_set_same. unfold OllamaConnector.payload_options.
  now rewrite Hopt.
Qed.

(** X10: no keyword argument of [generate] can change what is asked of
    which model: in the payload [model] is the connector's model and
    [prompt] is the prompt, whatever the keyword arguments are, and
    [system] is there exactly when a system message is given. *)
Theorem build_payload_reserved_keys (self : OllamaConnector.t)
        (prompt : value) (a : gen_args) :
  dict_get "model" (OllamaConnector.build_payload self prompt a)
  = Some (VStr (OllamaConnector.model_name self))
  /\ dict_get "prompt" (OllamaConnector.build_payload self prompt a) = Some prompt
  /\ dict_get "system" (OllamaConnector.build_payload self prompt a)
     = if truthy (system_message a) then Some (system_message a) else None.
Proof.
  unfold OllamaConnector.build_payload.
  rewrite !fold_add_kwarg_other by discriminate.
  destruct (truthy (system_message a)); repeat split.
Qed.

(** X11: the [options] of the payload are the temperature and the token
    limit, then every keyword argument other than [model], [prompt] and
    [system], set in order, a later one replacing an earlier one of the
    same name. *)
Theorem build_payload_options (self : OllamaConnector.t)
        (prompt : value) (a : gen_args) :
  dict_get "options" (OllamaConnector.build_payload self prompt a)
  = Some (VDict (options_of a)).
Proof.
  unfold OllamaConnector.build_payload, options_of.
  apply fold_add_kwarg_options.
  destruct (truthy (system_message a)); reflexivity.
Qed.

Lemma names_of_spec (l ns : list value) :
  OllamaStatus.names_of l = Ret ns <-> Forall2 names_model l ns.
Proof.
  revert ns. induction l as [|m l IH]; intros ns; simpl.
  - split; [intros [= <-]; constructor | intros H; now inversion H].
  - split.
    + destruct m; simpl; try discriminate.
      unfold RAGAgent.subscript.
      destruct (dict_get "name" d) as [n|] eqn:Hn; [|discriminate].
      destruct (OllamaStatus.names_of l) as [ns'|] eqn:Hns; [|discriminate].
      intros [= <-]. constructor; [now exists d | now apply IH].
    + intros H. inversion H as [|? n ? ns' (d & -> & Hn) Hrest]; subst.
      simpl. unfold RAGAgent.subscript. rewrite Hn.
      apply IH in Hrest. now rewrite Hrest.
Qed.

Lemma eq_str_true (v : value) (s : string) : eq_str v s = true <-> v = VStr s.
Proof.
  destruct v; simpl; try (split; [discriminate | intros [=]]).
  rewrite string_eqb_eq. split; [now intros -> | now intros [= ->]].
Qed.

Lemma names_listed (l ns : list value) (s : string) :
  Forall2 names_model l ns ->
  existsb (fun v => eq_str v s) ns = true
  <-> Exists (fun m => names_model m (VStr s)) l.
Proof.
  induction 1 as [|m n l ns Hm _ IH]; simpl.
  - split; [discriminate | intros H; inversion H].
  - rewrite orb_true_iff, IH, eq_str_true, Exists_cons.
    split; (intros [H|H]; [left | now right]).
    + now subst n.
    + destruct Hm as (d & -> & Hn), H as (d' & [= <-] & Hn'). congruence.
Qed.

Lemma names_model_all (l ns : list value) :
  Forall2 names_model l ns -> Forall (fun m => exists n, names_model m n) l.
Proof. induction 1; constructor; eauto. Qed.

Lemma names_model_choose (l : list value) :
  Forall (fun m => exists n, names_model m n) l ->
  exists ns, Forall2 names_model l ns.
Proof.
  induction 1 as [|m l [n Hn] _ [ns IH]].
  - exists []. constructor.
  - exists (n :: ns). now constructor.
Qed.

Lemma names_of_strings (l : list value) (ns : list value) :
  Forall (fun v => exists s, v = VStr s) l ->
  OllamaStatus.names_of l = Ret ns -> ns = [].
Proof.
  intros Hall. destruct Hall as [|v l [s ->] _]; simpl; [now intros [= <-]|].
  discriminate.
Qed.

(** X12: the awaited status check raises no [Exception]: an [Exception]
    raised by the request or while the reply is read gives False, and only
    what is not an [Exception] leaves [check_status].  It answers true
    exactly when the server is reached, answers without an error status
    and with a JSON object whose [models] is a list in which every entry is
    a mapping with a [name], one of the names being the connector's model:
    one entry without a name makes the answer false. *)
Theorem ollama_check_status_true (self : OllamaConnector.t)
        (get : string -> outcome http_response) :
  (forall e, OllamaStatus.check_status self get = Raise e ->
             is_exception e = false
             /\ OllamaStatus.check_status_body self get = Raise e)
  /\ (forall e, OllamaStatus.check_status_body self get = Raise e ->
                is_exception e = true ->
                OllamaStatus.check_status self get = Ret false)
  /\ (OllamaStatus.check_status self get = Ret true <->
      exists response d l,
        get (OllamaConnector.base_url self ++ "/api/tags") = Ret response
        /\ raise_for_status response = None
        /\ json response = Ret (VDict d)
        /\ dict_get "models" d = Some (VList l)
        /\ Forall (fun m => exists n, names_model m n) l
        /\ Exists (fun m => names_model m
                              (VStr (OllamaConnector.model_name self))) l).
Proof.
  split; [|split].
  { unfold OllamaStatus.check_status. intros e.
    destruct (OllamaStatus.check_status_body self get) as [b|e0];
      [discriminate|].
    destruct (is_exception e0) eqn:Hexc; [discriminate|].
    intros [= <-]. now split. }
  { unfold OllamaStatus.check_status. intros e -> ->. reflexivity. }
  unfold OllamaStatus.check_status, OllamaStatus.check_status_body.
  split.
  - destruct (get _) as [response|e] eqn:Hget;
      [|destruct (is_exception e); discriminate].
    destruct (raise_for_status response) as [e|] eqn:Hstatus;
      [destruct (is_exception e); discriminate|].
    destruct (json response) as [body|e] eqn:Hjson;
      [|destruct (is_exception e); discriminate].
    destruct body as [| | | | | |d|]; try discriminate.
    cbn [OllamaStatus.models_of]. unfold dict_get_default.
    destruct (dict_get "models" d) as [models|] eqn:Hmodels; [|discriminate].
    destruct models as [| | | |s|l|d'|]; cbn [OllamaStatus.iterate];
      try discriminate.
    + destruct (OllamaStatus.names_of _) as [ns|e] eqn:Hns;
        [|destruct (is_exception e); discriminate].
      apply names_of_strings in Hns; [subst ns; discriminate|].
      apply Forall_forall. intros v Hv. apply in_map_iff in Hv.
      destruct Hv as (c & <- & _). eauto.
    + destruct (OllamaStatus.names_of l) as [ns|e] eqn:Hns;
        [|destruct (is_exception e); discriminate].
      apply names_of_spec in Hns. intros [= Hex].
      exists response, d, l. repeat split; try reflexivity; try assumption.
      * now apply (names_model_all l ns).
      * now apply (names_listed l ns).
    + destruct (OllamaStatus.names_of _) as [ns|e] eqn:Hns;
        [|destruct (is_exception e); discriminate].
      apply names_of_strings in Hns; [subst ns; discriminate|].
      apply Forall_forall. intros v Hv. apply in_map_iff in Hv.
      destruct Hv as (kv & <- & _). eauto.
  - intros (response & d & l & -> & -> & -> & Hmodels & Hall & Hex).
    cbn [OllamaStatus.models_of]. unfold dict_get_default. rewrite Hmodels.
    cbn [OllamaStatus.iterate].
    destruct (names_model_choose l Hall) as [ns Hns].
    rewrite (proj2 (names_of_spec l ns) Hns).
    f_equal. now apply (names_listed l ns).
Qed.

(** The model is listed: true.  The server cannot be reached: false. *)
Lemma ollama_check_status_true_witness :
  OllamaStatus.check_status (Sample.ollama_at Sample.unreachable)
    (SampleMore.tags_reply SampleMore.tags_listing) = Ret true
  /\ OllamaStatus.check_status (Sample.ollama_at Sample.unreachable)
       SampleMore.tags_unreachable = Ret false.
Proof.
  split.
  - apply (proj2 (proj2 (proj2 (ollama_check_status_true
                                  (Sample.ollama_at Sample.unreachable)
                                  (SampleMore.tags_reply SampleMore.tags_listing))))).
    exists (mkResponse None (Ret SampleMore.tags_listing)).
    eexists. eexists. repeat split.
    + repeat constructor; eexists; eexists; split; reflexivity.
    + apply Exists_cons_tl, Exists_cons_hd. eexists. split; reflexivity.
  - apply (proj1 (proj2 (ollama_check_status_true
                           (Sample.ollama_at Sample.unreachable)
                           SampleMore.tags_unreachable))
             (mkExc "ConnectError" "All connection attempts failed"));
      reflexivity.
Defined.

(** X13: a reply of the server without "response" goes through the code
    assistant as a success: for a request with code, [process] answers
    [success] true with an empty improved code and an empty explanation. *)
Theorem code_assistant_empty_success
        (format_other : value -> string)
        (build_code_prompt : value -> value -> value -> value -> outcome string)
        (self : OllamaConnector.t) (data : dict value) (prompt : string)
        (d : dict value) :
  truthy (dict_get_default "code" (VStr "") data) = true ->
  build_code_prompt (dict_get_default "code" (VStr "") data)
                    (dict_get_default "task_type" (VStr "correction") data)
                    (dict_get_default "requirements" (VList []) data)
                    (dict_get_default "context" (VStr "") data)
  = Ret prompt ->
  OllamaConnector.network_call self
    (OllamaConnector.build_payload self (VStr prompt) CodeAssistant.code_args)
  = Ret (VDict d) ->
  dict_get "response" d = None ->
  CodeAssistant.process format_other build_code_prompt
    (Some (OllamaConnector.connector self)) data tt
  = (Ret (VDict [("improved_code", VStr "");
                 ("explanation", VStr "");
                 ("success", VBool true);
                 ("message",
                  VStr ("Code "
                        ++ CodeAssistant.format_value format_other
                             (dict_get_default "task_type" (VStr "correction") data)
                        ++ " effectué avec succès"))]), tt).
Proof.
  intros Hcode Hprompt Hcall Hnone.
  unfold CodeAssistant.process, try_except, bind, lift, ret.
  rewrite Hcode. cbn [negb]. rewrite Hprompt.
  unfold CodeAssistant.call_generate, OllamaConnector.connector.
  cbn [conn_generate].
  unfold OllamaConnector.generate, OllamaConnector.generate_body.
  cbn [OllamaConnector.has_len negb]. rewrite Hcall.
  cbn [response_in]. unfold dict_mem. rewrite Hnone. reflexivity.
Qed.

Lemma code_assistant_empty_success_witness :
  CodeAssistant.process Sample.format_other Sample.build_code_prompt
    (Some (Sample.ollama (Sample.replying (VDict [("error", VStr "no model")]))))
    [("code", VStr "x = 1")] tt
  = (Ret (VDict [("improved_code", VStr "");
                 ("explanation", VStr "");
                 ("success", VBool true);
                 ("message", VStr "Code correction effectué avec succès")]), tt).
Proof.
  apply (code_assistant_empty_success Sample.format_other Sample.build_code_prompt
           (Sample.ollama_at (Sample.replying (VDict [("error", VStr "no model")])))
           [("code", VStr "x = 1")] "prompt" [("error", VStr "no model")]);
    reflexivity.
Defined.

(** ** Response parsing: what a match is *)

Section MatcherSplit.
Context {R : Type}.
Implicit Types (k : string -> option R) (s lit : string).

Lemma re_lit_split lit k s r :
  re_lit lit k s = Some r -> exists s', s = lit ++ s' /\ k s' = Some r.
Proof.
  revert s. induction lit as [|c lit IH]; intros s; simpl; [eauto|].
  destruct s as [|d s]; [discriminate|].
  destruct (char_eqb_spec c d) as [<-|]; [|discriminate].
  intros H. apply IH in H. destruct H as (s' & -> & Hk). now exists s'.
Qed.

Lemma re_lit_app lit k s : re_lit lit k (lit ++ s) = k s.
Proof.
  induction lit as [|c lit IH]; simpl; [reflexivity|].
  now rewrite char_eqb_refl.
Qed.

Lemma re_star_split p k s r :
  re_star p k s = Some r ->
  exists a s',
    s = a ++ s' /\ forallb p (String.to_list a) = true /\ k s' = Some r.
Proof.
  induction s as [|c s IH]; simpl.
  - intros H. now exists "", "".
  - destruct (p c) eqn:Hc; [|intros H; now exists "", (String c s)].
    destruct (re_star p k s) as [r'|] eqn:Hs.
    + intros [= <-]. destruct (IH eq_refl) as (a & s' & -> & Ha & Hk).
      exists (String c a), s'. cbn. now rewrite Hc, Ha.
    + intros H. now exists "", (String c s).
Qed.

Lemma re_lazy_group_split (k2 : string -> string -> option R) s g0 r :
  re_lazy_group dot_all k2 g0 s = Some r ->
  exists a b, s = a ++ b /\ k2 (g0 ++ a) b = Some r.
Proof.
  revert g0. induction s as [|c s IH]; intros g0; cbn [re_lazy_group].
  - destruct (k2 g0 "") as [r'|] eqn:Hk; [|discriminate].
    intros [= <-]. exists "", "". split; [reflexivity | now rewrite append_empty_r].
  - destruct (k2 g0 (String c s)) as [r'|] eqn:Hk.
    + intros [= <-]. exists "", (String c s).
      split; [reflexivity | now rewrite append_empty_r].
    + cbn [dot_all]. intros H. apply IH in H. destruct H as (a & b & -> & Hk').
      exists (String c a), b. rewrite append_assoc in Hk'. now split.
Qed.
End MatcherSplit.

(** One attempt of the pattern reads: the opening fence, whitespace, group
    1, whitespace, a fence. *)
Lemma code_pattern_match_split (s g rest : string) :
  code_pattern_match s = Some (g, rest) ->
  exists ws1 ws2,
    s = fence_python ++ ws1 ++ g ++ ws2 ++ fence ++ rest
    /\ all_space ws1 = true /\ all_space ws2 = true.
Proof.
  unfold code_pattern_match. intros H.
  apply re_lit_split in H. destruct H as (s1 & -> & H).
  apply re_star_split in H. destruct H as (ws1 & s2 & -> & Hws1 & H).
  apply re_lazy_group_split in H. destruct H as (a & s3 & -> & H).
  apply re_star_split in H. destruct H as (ws2 & s4 & -> & Hws2 & H).
  apply re_lit_split in H. destruct H as (s5 & -> & [= <- <-]).
  exists ws1, ws2. now repeat split.
Qed.

Lemma code_pattern_search_from_split (s pre : string) (m : re_match) :
  code_pattern_search_from pre s = Some m ->
  exists mid ws1 ws2,
    before m = pre ++ mid
    /\ s = mid ++ fence_python ++ ws1 ++ group1 m ++ ws2 ++ fence ++ after m
    /\ all_space ws1 = true /\ all_space ws2 = true.
Proof.
  revert pre. induction s as [|c s IH]; intros pre;
    rewrite code_pattern_search_from_unfold;
    destruct (code_pattern_match _) as [[g rest]|] eqn:Hm; try discriminate.
  - intros [= Heq]. subst m. apply code_pattern_match_split in Hm.
    destruct Hm as (ws1 & ws2 & Hs & H1 & H2).
    exists "", ws1, ws2. cbn [before group1 after].
    now rewrite append_empty_r.
  - intros H. apply IH in H.
    destruct H as (mid & ws1 & ws2 & Hb & -> & H1 & H2).
    exists (String c mid), ws1, ws2. rewrite append_assoc in Hb.
    now repeat split.
Qed.

Lemma lazy_group_reaches (body post g : string) :
  re_lazy_group dot_all closing g (body ++ fence ++ post) <> None.
Proof.
  revert g. induction body as [|c body IH]; intros g.
  - assert (H : closing g ("" ++ fence ++ post) <> None)
      by (now apply closing_at_fence).
    destruct (fence ++ post) as [|c t] eqn:E; [discriminate|].
    cbn [append re_lazy_group] in *.
    destruct (closing g (String c t)); cbv beta iota; [discriminate | contradiction].
  - cbn [append re_lazy_group].
    destruct (closing g _); cbv beta iota; [discriminate|].
    cbn [dot_all]. cbv beta iota. apply IH.
Qed.

Lemma code_pattern_match_opens (body post : string) :
  code_pattern_match (fence_python ++ body ++ fence ++ post) <> None.
Proof.
  unfold code_pattern_match. rewrite re_lit_app.
  apply re_star_accepts, lazy_group_reaches.
Qed.

Lemma code_pattern_search_from_finds (a s pre : string) :
  code_pattern_match s <> None ->
  code_pattern_search_from pre (a ++ s) <> None.
Proof.
  intros Hs. revert pre. induction a as [|c a IH]; intros pre;
    rewrite code_pattern_search_from_unfold.
  - cbn [append]. destruct (code_pattern_match s) as [[g rest]|];
      cbv beta iota; [discriminate | contradiction].
  - destruct (code_pattern_match (String c a ++ s)) as [[g rest]|];
      cbv beta iota; [discriminate|].
    cbn [append]. apply IH.
Qed.

(** X14: what the pattern finds.  A match splits the response into the text
    before it, the opening fence "```python", whitespace, group 1,
    whitespace, a closing fence and the text after it. *)
Theorem code_pattern_search_splits (response : string) (m : re_match) :
  code_pattern_search response = Some m ->
  exists ws1 ws2,
    response
    = before m ++ fence_python ++ ws1 ++ group1 m ++ ws2 ++ fence ++ after m
    /\ all_space ws1 = true /\ all_space ws2 = true.
Proof.
  unfold code_pattern_search. intros H.
  apply code_pattern_search_from_split in H.
  destruct H as (mid & ws1 & ws2 & Hb & -> & H1 & H2).
  exists ws1, ws2. cbn [append] in Hb. now rewrite Hb.
Qed.

Lemma code_pattern_search_splits_witness :
  exists ws1 ws2,
    "Voici:" ++ nl ++ fenced "x = 1" ++ nl ++ "Ajout de x."
    = ("Voici:" ++ nl) ++ fence_python ++ ws1 ++ "x = 1" ++ ws2 ++ fence
      ++ (nl ++ "Ajout de x.")
    /\ all_space ws1 = true /\ all_space ws2 = true.
Proof.
  apply (code_pattern_search_splits
           ("Voici:" ++ nl ++ fenced "x = 1" ++ nl ++ "Ajout de x.")
           (mkMatch ("Voici:" ++ nl) "x = 1" (nl ++ "Ajout de x."))).
  reflexivity.
Defined.

(** X15: when a block is found.  The pattern matches exactly the responses
    that hold "```python" with a "```" somewhere after it; every other
    response is returned whole by both parse routines, as the code by
    [_parse_llm_response] and as the report by [_parse_debug_response]. *)
Theorem code_pattern_search_finds (response : string) :
  ((exists m, code_pattern_search response = Some m) <->
   exists pre body post,
     response = pre ++ fence_python ++ body ++ fence ++ post)
  /\ (code_pattern_search response = None ->
      parse_llm_response response = (response, "")
      /\ parse_debug_response response = (response, "")).
Proof.
  split; [split|].
  - intros [m Hm]. unfold code_pattern_search in Hm.
    apply code_pattern_search_from_split in Hm.
    destruct Hm as (mid & ws1 & ws2 & _ & Hr & _ & _).
    exists mid, (ws1 ++ group1 m ++ ws2), (after m).
    now rewrite !append_assoc.
  - intros (pre & body & post & ->). unfold code_pattern_search.
    pose proof (code_pattern_search_from_finds pre
                  (fence_python ++ body ++ fence ++ post) ""
                  (code_pattern_match_opens body post)) as H.
    destruct (code_pattern_search_from _ _) as [m|]; [now exists m | contradiction].
  - intros Hnone. unfold parse_llm_response, parse_debug_response.
    now rewrite Hnone.
Qed.

Lemma code_pattern_search_finds_witness :
  (exists m, code_pattern_search ("a" ++ fence_python ++ "b" ++ fence ++ "c") = Some m)
  /\ parse_llm_response "```python sans fin" = ("```python sans fin", "").
Proof.
  split.
  - apply (proj1 (code_pattern_search_finds
                    ("a" ++ fence_python ++ "b" ++ fence ++ "c"))).
    now exists "a", "b", "c".
  - apply (proj2 (code_pattern_search_finds "```python sans fin")).
    reflexivity.
Defined.

(** X16: the code a block gives is clean, and the same for both routines:
    when a block is found, [_parse_llm_response] and
    [_parse_debug_response] extract the same code, which has no whitespace
    at either end and holds no fence. *)
Theorem parsed_code_clean (response : string) (m : re_match) :
  code_pattern_search response = Some m ->
  snd (parse_debug_response response) = fst (parse_llm_response response)
  /\ lstrip (fst (parse_llm_response response)) = fst (parse_llm_response response)
  /\ rstrip (fst (parse_llm_response response)) = fst (parse_llm_response response)
  /\ has_fence (fst (parse_llm_response response)) = false.
Proof.
  intros Hm. unfold parse_llm_response, parse_debug_response. rewrite Hm.
  cbn [fst snd]. split; [reflexivity|].
  split; [apply strip_stripped|]. split; [apply strip_stripped|].
  apply has_fence_strip. now apply code_pattern_search_no_fence in Hm.
Qed.

Lemma parsed_code_clean_witness :
  snd (parse_debug_response (fenced ("  a " ++ fence ++ " b")))
  = fst (parse_llm_response (fenced ("  a " ++ fence ++ " b")))
  /\ lstrip (fst (parse_llm_response (fenced ("  a " ++ fence ++ " b"))))
     = fst (parse_llm_response (fenced ("  a " ++ fence ++ " b")))
  /\ rstrip (fst (parse_llm_response (fenced ("  a " ++ fence ++ " b"))))
     = fst (parse_llm_response (fenced ("  a " ++ fence ++ " b")))
  /\ has_fence (fst (parse_llm_response (fenced ("  a " ++ fence ++ " b")))) = false.
Proof.
  apply (parsed_code_clean (fenced ("  a " ++ fence ++ " b"))
           (mkMatch "" "a" (" b" ++ nl ++ fence))).
  reflexivity.
Defined.

(** ** Response parsing: the reply the prompts ask for *)

Lemma starts_with_before_newline (y z : string) :
  starts_with fence y = false -> starts_with fence (y ++ nl ++ z) = false.
Proof.
  destruct y as [|c1 [|c2 [|c3 y]]];
    cbn [starts_with append fence nl];
    repeat match goal with
           | |- context [Char.eqb 96%N ?c] =>
               is_var c; destruct (Char.eqb 96%N c)
           end;
    intros; try reflexivity; try discriminate.
Qed.

Lemma closing_inside_text (y z g : string) :
  y <> "" -> rstrip y = y -> has_fence y = false ->
  closing g (y ++ nl ++ z) = None.
Proof.
  unfold closing. induction y as [|c y IH]; [congruence|].
  intros _ Hr Hnf. apply rstrip_fixed_tail in Hr. destruct Hr as [Hr Hlast].
  rewrite has_fence_cons in Hnf. apply orb_false_elim in Hnf.
  destruct Hnf as [Hhead Htail].
  assert (Hlit : re_lit fence (fun rest => Some (g, rest))
                   (String c y ++ nl ++ z) = None).
  { apply re_lit_starts. now apply starts_with_before_newline. }
  cbn [append re_star]. destruct (is_space c) eqn:Hc; [|exact Hlit].
  rewrite IH; [exact Hlit | | assumption | assumption].
  intros ->. specialize (Hlast eq_refl). congruence.
Qed.

Lemma lazy_group_text (x post g : string) :
  rstrip x = x -> has_fence x = false ->
  re_lazy_group dot_all closing g (x ++ nl ++ fence ++ post) = Some (g ++ x, post).
Proof.
  revert g. induction x as [|c x IH]; intros g Hr Hnf.
  - rewrite append_empty_r. reflexivity.
  - cbn [append re_lazy_group].
    change (String c (x ++ nl ++ fence ++ post))
      with (String c x ++ nl ++ fence ++ post).
    rewrite closing_inside_text by (assumption || discriminate).
    cbn [dot_all append].
    apply rstrip_fixed_tail in Hr. destruct Hr as [Hr _].
    rewrite has_fence_cons in Hnf. apply orb_false_elim in Hnf.
    rewrite IH by tauto. now rewrite append_assoc.
Qed.

Lemma code_pattern_match_block (x post : string) :
  lstrip x = x -> rstrip x = x -> has_fence x = false ->
  code_pattern_match (fenced x ++ post) = Some (x, post).
Proof.
  intros Hl Hr Hnf. unfold code_pattern_match, fenced.
  rewrite !append_assoc. rewrite re_lit_app.
  change (nl ++ x ++ nl ++ fence ++ post)
    with (String (10%N) (x ++ nl ++ fence ++ post)).
  cbn [re_star]. change (is_space (10%N)) with true. cbv beta iota.
  assert (H : re_star is_space (re_lazy_group dot_all closing "")
                (x ++ nl ++ fence ++ post) = Some (x, post)).
  { destruct x as [|c x]; [reflexivity|].
    cbn [append re_star]. rewrite (lstrip_fixed_head c x Hl).
    change (String c (x ++ nl ++ fence ++ post))
      with (String c x ++ nl ++ fence ++ post).
    now rewrite lazy_group_text. }
  unfold closing in H. now rewrite H.
Qed.

(** In front of a block, a text without a fence gives the pattern no
    earlier place to start. *)
Lemma no_opening_before (u t : string) :
  u <> "" -> has_fence u = false ->
  starts_with fence_python (u ++ fence_python ++ t) = false.
Proof.
  destruct u as [|c1 [|c2 [|c3 u]]]; [congruence| | |]; intros _;
    unfold has_fence; cbn [str_contains starts_with append fence fence_python];
    repeat match goal with
           | |- context [Char.eqb 96%N ?c] =>
               is_var c; destruct (Char.eqb 96%N c)
           end;
    intros; try reflexivity; try discriminate.
Qed.

Lemma code_pattern_search_from_block (u x post pre : string) :
  has_fence u = false ->
  lstrip x = x -> rstrip x = x -> has_fence x = false ->
  code_pattern_search_from pre (u ++ fenced x ++ post)
  = Some (mkMatch (pre ++ u) x post).
Proof.
  intros Hu Hl Hr Hnf. revert pre Hu. induction u as [|c u IH]; intros pre Hu;
    rewrite code_pattern_search_from_unfold.
  - cbn [append]. rewrite code_pattern_match_block by assumption.
    now rewrite append_empty_r.
  - assert (Hno : code_pattern_match (String c u ++ fenced x ++ post) = None).
    { unfold code_pattern_match. apply re_lit_starts.
      unfold fenced. rewrite !append_assoc.
      apply no_opening_before; [discriminate | assumption]. }
    rewrite Hno. cbn [append].
    rewrite has_fence_cons in Hu. apply orb_false_elim in Hu.
    rewrite IH by tauto. now rewrite append_assoc.
Qed.

(** X17: the reply the code prompt asks for is read as asked.  For a code
    [x] without whitespace at either end and without a fence, given as a
    fenced block between a text [pre] without a fence and any text [post],
    [_parse_llm_response] returns [x] as the code and, as the explanation,
    [post] stripped, or [pre] stripped when [post] is blank. *)
Theorem parse_llm_response_block (pre x post : string) :
  has_fence pre = false ->
  lstrip x = x -> rstrip x = x -> has_fence x = false ->
  parse_llm_response (pre ++ fenced x ++ post)
  = (x, if is_empty (strip post) then strip pre else strip post).
Proof.
  intros Hpre Hl Hr Hnf. unfold parse_llm_response, code_pattern_search.
  rewrite code_pattern_search_from_block by assumption.
  cbn [group1 after before append]. now rewrite strip_fixed.
Qed.

Lemma parse_llm_response_block_witness :
  parse_llm_response
    ("Voici le code:" ++ nl ++ fenced "x = 1" ++ nl ++ "J'ai ajouté x.")
  = ("x = 1", "J'ai ajouté x.").
Proof.
  apply (parse_llm_response_block ("Voici le code:" ++ nl) "x = 1"
           (nl ++ "J'ai ajouté x."));
    reflexivity.
Defined.

(** X18: the reply the debug prompt asks for, the report and then the
    corrected code in a block, is read as asked: under the same conditions
    [_parse_debug_response] returns [x] as the corrected code and [pre]
    stripped as the report, or [post] stripped when [pre] is blank. *)
Theorem parse_debug_response_block (pre x post : string) :
  has_fence pre = false ->
  lstrip x = x -> rstrip x = x -> has_fence x = false ->
  parse_debug_response (pre ++ fenced x ++ post)
  = (if is_empty (strip pre) then strip post else strip pre, x).
Proof.
  intros Hpre Hl Hr Hnf. unfold parse_debug_response, code_pattern_search.
  rewrite code_pattern_search_from_block by assumption.
  cbn [group1 after before append]. rewrite (strip_fixed x) by assumption.
  reflexivity.
Qed.

Lemma parse_debug_response_block_witness :
  parse_debug_response
    ("Division par zéro à la ligne 2." ++ nl ++ fenced "x = 1" ++ nl)
  = ("Division par zéro à la ligne 2.", "x = 1").
Proof.
  apply (parse_debug_response_block ("Division par zéro à la ligne 2." ++ nl)
           "x = 1" nl);
    reflexivity.
Defined.

(** X19: from the adapter to the answer.  When the request has code and the
    adapter replies with such a block, the code assistant answers
    [success] true with [x] as [improved_code] and the text beside the
    block, stripped, as [explanation]. *)
Theorem code_assistant_reads_block
        (format_other : value -> string)
        (build_code_prompt : value -> value -> value -> value -> outcome string)
        (c : LLMConnector) (data : dict value) (prompt pre x post : string) :
  truthy (dict_get_default "code" (VStr "") data) = true ->
  build_code_prompt (dict_get_default "code" (VStr "") data)
                    (dict_get_default "task_type" (VStr "correction") data)
                    (dict_get_default "requirements" (VList []) data)
                    (dict_get_default "context" (VStr "") data)
  = Ret prompt ->
  conn_generate c (VStr prompt) CodeAssistant.code_args
  = Ret (VStr (pre ++ fenced x ++ post)) ->
  has_fence pre = false ->
  lstrip x = x -> rstrip x = x -> has_fence x = false ->
  CodeAssistant.process format_other build_code_prompt (Some c) data tt
  = (Ret (VDict [("improved_code", VStr x);
                 ("explanation",
                  VStr (if is_empty (strip post) then strip pre else strip post));
                 ("success", VBool true);
                 ("message",
                  VStr ("Code "
                        ++ CodeAssistant.format_value format_other
                             (dict_get_default "task_type" (VStr "correction") data)
                        ++ " effectué avec succès"))]), tt).
Proof.
  intros Hcode Hprompt Hgen Hpre Hl Hr Hnf.
  unfold CodeAssistant.process, try_except, bind, lift, ret.
  rewrite Hcode. cbn [negb]. rewrite Hprompt.
  unfold CodeAssistant.call_generate. rewrite Hgen.
  cbn [CodeAssistant.parse_result].
  unfold parse_llm_response, code_pattern_search.
  rewrite code_pattern_search_from_block by assumption.
  cbn [group1 after before append fst snd]. now rewrite strip_fixed.
Qed.

Lemma code_assistant_reads_block_witness :
  CodeAssistant.process Sample.format_other Sample.build_code_prompt
    (Some (SampleMore.answering
             (Ret (VStr (fenced "x = 1" ++ nl ++ "J'ai ajouté x.")))))
    [("code", VStr "x=1"); ("task_type", VStr "pep8")] tt
  = (Ret (VDict [("improved_code", VStr "x = 1");
                 ("explanation", VStr "J'ai ajouté x.");
                 ("success", VBool true);
                 ("message", VStr "Code pep8 effectué avec succès")]), tt).
Proof.
  apply (code_assistant_reads_block Sample.format_other Sample.build_code_prompt
           (SampleMore.answering
              (Ret (VStr (fenced "x = 1" ++ nl ++ "J'ai ajouté x."))))
           [("code", VStr "x=1"); ("task_type", VStr "pep8")]
           "prompt" "" "x = 1" (nl ++ "J'ai ajouté x."));
    reflexivity.
Defined.

(** X20: the debug report of the code assistant.  Without code it answers
    "Aucun code fourni à déboguer" whatever the adapter is; with code and a
    reply made of a report followed by such a block, it answers [success]
    true with the report stripped and [x] as [fixed_code]. *)
Theorem generate_debug_report_reads_block
        (build_debug_prompt : value -> value -> outcome string)
        (connector : option LLMConnector) (code error_message : value) :
  (truthy code = false ->
   CodeAssistantDebug.generate_debug_report build_debug_prompt connector
     code error_message tt
   = (Ret (VDict [("debug_report", VStr "");
                  ("fixed_code", VStr "");
                  ("success", VBool false);
                  ("message", VStr "Aucun code fourni à déboguer")]), tt))
  /\ (forall c prompt pre x,
        connector = Some c ->
        truthy code = true ->
        build_debug_prompt code error_message = Ret prompt ->
        conn_generate c (VStr prompt) CodeAssistantDebug.debug_args
        = Ret (VStr (pre ++ fenced x)) ->
        has_fence pre = false ->
        lstrip x = x -> rstrip x = x -> has_fence x = false ->
        CodeAssistantDebug.generate_debug_report build_debug_prompt connector
          code error_message tt
        = (Ret (VDict [("debug_report", VStr (strip pre));
                       ("fixed_code", VStr x);
                       ("success", VBool true);
                       ("message", VStr "Rapport de debug généré avec succès")]),
           tt)).
Proof.
  unfold CodeAssistantDebug.generate_debug_report, try_except, bind, lift, ret.
  split.
  - intros ->. reflexivity.
  - intros c prompt pre x -> -> Hprompt Hgen Hpre Hl Hr Hnf.
    cbn [negb]. rewrite Hprompt.
    unfold CodeAssistant.call_generate. rewrite Hgen.
    cbn [CodeAssistantDebug.parse_result].
    unfold parse_debug_response, code_pattern_search.
    rewrite <- (append_empty_r (fenced x)).
    rewrite code_pattern_search_from_block by assumption.
    cbn [group1 after before append fst snd].
    rewrite (strip_fixed x) by assumption.
    destruct (strip pre); reflexivity.
Qed.

Lemma generate_debug_report_reads_block_witness :
  CodeAssistantDebug.generate_debug_report SampleMore.build_debug_prompt
    None (VStr "") VNone tt
  = (Ret (VDict [("debug_report", VStr "");
                 ("fixed_code", VStr "");
                 ("success", VBool false);
                 ("message", VStr "Aucun code fourni à déboguer")]), tt)
  /\ CodeAssistantDebug.generate_debug_report SampleMore.build_debug_prompt
       (Some (SampleMore.answering
                (Ret (VStr ("Division par zéro." ++ nl ++ fenced "x = 1")))))
       (VStr "x = 1/0") VNone tt
     = (Ret (VDict [("debug_report", VStr "Division par zéro.");
                    ("fixed_code", VStr "x = 1");
                    ("success", VBool true);
                    ("message", VStr "Rapport de debug généré avec succès")]), tt).
Proof.
  split.
  - apply (proj1 (generate_debug_report_reads_block
                    SampleMore.build_debug_prompt None (VStr "") VNone)).
    reflexivity.
  - apply (proj2 (generate_debug_report_reads_block
                    SampleMore.build_debug_prompt
                    (Some (SampleMore.answering
                             (Ret (VStr ("Division par zéro." ++ nl
                                         ++ fenced "x = 1")))))
                    (VStr "x = 1/0") VNone)
             (SampleMore.answering
                (Ret (VStr ("Division par zéro." ++ nl ++ fenced "x = 1"))))
             "prompt" ("Division par zéro." ++ nl) "x = 1");
      reflexivity.
Defined.

(** ** The document agent: index, chunks, operations *)

Section RagMore.
Variable format_other : value -> string.
Variable backend : RAGAgent.Backend.
Variable connector : option LLMConnector.
Variable groq_api_key : value.

Lemma process_document_index (data : dict value) (file_path : value)
      (st : RAGAgent.State) :
  dict_get "file_path" data = Some file_path ->
  index_step backend data st (RAGAgent.process_document backend file_path st).
Proof.
  intros Hget.
  unfold index_step, RAGAgent.process_document, RAGAgent.set_vectorstore,
    try_except, bind, lift, ret.
  destruct (RAGAgent.doc_process_document backend file_path)
    as [[converted chunks]|e] eqn:Hconv;
    [|destruct (is_exception e); now left].
  cbn [fst snd].
  destruct (RAGAgent.faiss_from_documents backend _) as [vs|e] eqn:Hindex;
    [|destruct (is_exception e); now left].
  right. exists vs. eexists. cbn [fst snd].
  split; [reflexivity|]. split; [|split; reflexivity].
  left. now exists file_path, converted, chunks.
Qed.

Lemma save_index_index (index_path : value) (st : RAGAgent.State) :
  snd (RAGAgent.save_index format_other backend index_path st) = st.
Proof.
  unfold RAGAgent.save_index, RAGAgent.get_vectorstore, try_except, bind,
    ret, raise.
  destruct (RAGAgent.vectorstore st) as [vs|]; [|reflexivity].
  destruct (RAGAgent.faiss_save_local backend vs index_path) as [e|];
    [destruct (is_exception e)|]; reflexivity.
Qed.

Lemma load_index_index (data : dict value) (index_path : value)
      (st : RAGAgent.State) :
  dict_get "index_path" data = Some index_path ->
  index_step backend data st
    (RAGAgent.load_index format_other backend index_path st).
Proof.
  intros Hget.
  unfold index_step, RAGAgent.load_index, RAGAgent.set_vectorstore,
    try_except, bind, lift, ret.
  destruct (RAGAgent.faiss_load_local backend index_path) as [vs|e] eqn:Hload;
    [|destruct (is_exception e); now left].
  right. exists vs. eexists. cbn [fst snd].
  split; [reflexivity|]. split; [|split; reflexivity].
  right. now exists index_path.
Qed.

(** The handler of [process] has nothing to catch from an operation that
    keeps its failures. *)
Lemma try_except_contained {S : Type} (body : M S value)
      (handler : exc -> M S value) (st : S) :
  contained (fst (body st)) -> try_except body handler st = body st.
Proof.
  unfold try_except, contained.
  destruct (body st) as [[v|e] st']; cbn [fst]; [reflexivity|].
  now intros ->.
Qed.

Lemma rag_process_operation (data : dict value) (st : RAGAgent.State)
      (key : string) (operand : value)
      (operation : value -> M RAGAgent.State value) :
  dict_get key data = Some operand ->
  contained (fst (operation operand st)) ->
  try_except
    (bind (lift (RAGAgent.subscript data key)) operation)
    (fun e =>
       ret (VDict [("success", VBool false);
                   ("message", VStr ("Error processing query: " ++ exc_str e));
                   ("answer", VNone)])) st
  = operation operand st.
Proof.
  intros Hget Hop.
  assert (Hbody : bind (lift (RAGAgent.subscript data key)) operation st
                  = operation operand st).
  { unfold bind, lift, RAGAgent.subscript. now rewrite Hget. }
  rewrite try_except_contained; rewrite Hbody; [reflexivity | exact Hop].
Qed.

Lemma rag_query_keeps_index (data : dict value) (st : RAGAgent.State) :
  snd (RAGAgent.process format_other backend connector groq_api_key
         [("query", dict_get_default "query" VNone data)] st) = st.
Proof.
  unfold RAGAgent.process.
  change (dict_get_default "operation" (VStr "query")
            [("query", dict_get_default "query" VNone data)])
    with (VStr "query").
  change (dict_get_default "query" VNone
            [("query", dict_get_default "query" VNone data)])
    with (dict_get_default "query" VNone data).
  change (eq_str (VStr "query") "process") with false.
  change (eq_str (VStr "query") "save") with false.
  change (eq_str (VStr "query") "load") with false.
  cbn [andb].
  unfold try_except, bind, lift, RAGAgent.get_vectorstore, ret, raise.
  destruct (truthy (dict_get_default "query" VNone data)); cbn [negb];
    [|reflexivity].
  destruct (RAGAgent.vectorstore st) as [vs|]; [|reflexivity].
  destruct (RAGAgent.qa_invoke backend _ vs _) as [result|e];
    [|destruct (is_exception e); reflexivity].
  destruct (RAGAgent.qa_answer result); reflexivity.
Qed.

(** [process] is one of its three operations or a query; the index can be
    replaced by two of them only. *)
Lemma rag_process_cases (data : dict value) (st : RAGAgent.State) :
  (replaces_index data = true
   /\ ((exists operand,
          dict_get "file_path" data = Some operand
          /\ RAGAgent.process format_other backend connector groq_api_key data st
             = RAGAgent.process_document backend operand st)
       \/ (exists operand,
             dict_get "index_path" data = Some operand
             /\ RAGAgent.process format_other backend connector groq_api_key data st
                = RAGAgent.load_index format_other backend operand st)))
  \/ (replaces_index data = false
      /\ ((exists operand,
             RAGAgent.process format_other backend connector groq_api_key data st
             = RAGAgent.save_index format_other backend operand st)
          \/ RAGAgent.process format_other backend connector groq_api_key data st
             = RAGAgent.process format_other backend connector groq_api_key
                 [("query", dict_get_default "query" VNone data)] st)).
Proof.
  unfold replaces_index, RAGAgent.process at 1 2 3 4.
  destruct (eq_str _ "process" && dict_mem "file_path" data) eqn:Hp.
  { left. split; [reflexivity|]. left.
    apply andb_prop in Hp. destruct Hp as [_ Hmem].
    apply dict_mem_true in Hmem. destruct Hmem as [operand Hget].
    exists operand. split; [assumption|].
    apply rag_process_operation; [assumption|].
    apply process_document_contained. }
  destruct (eq_str _ "save" && dict_mem "index_path" data) eqn:Hs.
  { right. apply andb_prop in Hs. destruct Hs as [Hop Hmem].
    split.
    - apply eq_str_true in Hop. rewrite Hop. reflexivity.
    - left. apply dict_mem_true in Hmem. destruct Hmem as [operand Hget].
      exists operand. apply rag_process_operation; [assumption|].
      apply save_index_contained. }
  destruct (eq_str _ "load" && dict_mem "index_path" data) eqn:Hl.
  { left. split; [reflexivity|]. right.
    apply andb_prop in Hl. destruct Hl as [_ Hmem].
    apply dict_mem_true in Hmem. destruct Hmem as [operand Hget].
    exists operand. split; [assumption|].
    apply rag_process_operation; [assumption|].
    apply load_index_contained. }
  right. split; [reflexivity|]. right. unfold RAGAgent.process.
  change (dict_get_default "operation" (VStr "query")
            [("query", dict_get_default "query" VNone data)])
    with (VStr "query").
  change (dict_get_default "query" VNone
            [("query", dict_get_default "query" VNone data)])
    with (dict_get_default "query" VNone data).
  reflexivity.
Qed.
End RagMore.

(** X21: an operation the agent does not know is a query.  When
    [operation] is none of "process", "save" and "load", whatever else it
    is, the request is handled exactly as the query made of its "query"
    field: the unknown operation is not reported. *)
Theorem rag_unknown_operation_is_query
        (format_other : value -> string) (backend : RAGAgent.Backend)
        (connector : option LLMConnector) (groq_api_key : value)
        (data : dict value) (st : RAGAgent.State) :
  eq_str (dict_get_default "operation" (VStr "query") data) "process" = false ->
  eq_str (dict_get_default "operation" (VStr "query") data) "save" = false ->
  eq_str (dict_get_default "operation" (VStr "query") data) "load" = false ->
  RAGAgent.process format_other backend connector groq_api_key data st
  = RAGAgent.process format_other backend connector groq_api_key
      [("query", dict_get_default "query" VNone data)] st.
Proof.
  intros Hp Hs Hl. unfold RAGAgent.process.
  rewrite Hp, Hs, Hl.
  change (dict_get_default "operation" (VStr "query")
            [("query", dict_get_default "query" VNone data)])
    with (VStr "query").
  change (dict_get_default "query" VNone
            [("query", dict_get_default "query" VNone data)])
    with (dict_get_default "query" VNone data).
  reflexivity.
Qed.

Lemma rag_unknown_operation_is_query_witness :
  RAGAgent.process Sample.format_other Sample.no_backend None (VStr "")
    [("operation", VStr "delete"); ("index_path", VStr "idx"); ("query", VStr "X")]
    (RAGAgent.mkState None)
  = RAGAgent.process Sample.format_other Sample.no_backend None (VStr "")
      [("query", VStr "X")] (RAGAgent.mkState None).
Proof.
  apply (rag_unknown_operation_is_query Sample.format_other Sample.no_backend
           None (VStr "")
           [("operation", VStr "delete"); ("index_path", VStr "idx");
            ("query", VStr "X")]
           (RAGAgent.mkState None));
    reflexivity.
Defined.

(** X22: which calls replace the index.  A request other than "process"
    with a file path and "load" with an index path, so every query and
    every save, leaves the agent's index as it is.  After any [process]
    the agent holds the index it held before, or the index that the
    backend built from the file the request names or loaded from the path
    it names, and then the answer has [success] true: a failed conversion
    or a failed load leaves the index in place, and an index once there is
    never lost. *)
Theorem rag_index_replaced_on_success
        (format_other : value -> string) (backend : RAGAgent.Backend)
        (connector : option LLMConnector) (groq_api_key : value)
        (data : dict value) (st : RAGAgent.State) :
  (replaces_index data = false ->
   snd (RAGAgent.process format_other backend connector groq_api_key data st) = st)
  /\ (snd (RAGAgent.process format_other backend connector groq_api_key data st) = st
      \/ exists vs d,
          snd (RAGAgent.process format_other backend connector groq_api_key data st)
          = RAGAgent.mkState (Some vs)
          /\ index_from backend data vs
          /\ fst (RAGAgent.process format_other backend connector groq_api_key
                    data st)
             = Ret (VDict d)
          /\ dict_get "success" d = Some (VBool true))
  /\ (RAGAgent.vectorstore st <> None ->
      RAGAgent.vectorstore
        (snd (RAGAgent.process format_other backend connector groq_api_key data st))
      <> None).
Proof.
  assert (Hkeep : replaces_index data = false ->
            snd (RAGAgent.process format_other backend connector groq_api_key
                   data st) = st).
  { intros Hno.
    destruct (rag_process_cases format_other backend connector groq_api_key
                data st) as [[Hyes _]|[_ [[operand ->]| ->]]].
    - congruence.
    - apply save_index_index.
    - apply rag_query_keeps_index. }
  assert (Hstep : index_step backend data st
            (RAGAgent.process format_other backend connector groq_api_key data st)).
  { destruct (rag_process_cases format_other backend connector groq_api_key
                data st)
      as [[_ [(operand & Hget & ->)|(operand & Hget & ->)]]|[Hno _]].
    - now apply process_document_index.
    - now apply load_index_index.
    - left. now apply Hkeep. }
  split; [exact Hkeep|]. split; [exact Hstep|].
  intros Hsome. destruct Hstep as [->|(vs & d & -> & _)];
    [assumption | discriminate].
Qed.

(** A query and a save, on an agent that holds an index: the index stays. *)
Lemma rag_index_replaced_on_success_witness :
  snd (RAGAgent.process Sample.format_other Sample.no_backend None (VStr "")
         Sample.queries_x SampleMore.indexed_state) = SampleMore.indexed_state
  /\ snd (RAGAgent.process Sample.format_other Sample.no_backend None (VStr "")
            SampleMore.saves_index SampleMore.indexed_state)
     = SampleMore.indexed_state.
Proof.
  split.
  - apply (proj1 (rag_index_replaced_on_success Sample.format_other
                    Sample.no_backend None (VStr "") Sample.queries_x
                    SampleMore.indexed_state)).
    reflexivity.
  - apply (proj1 (rag_index_replaced_on_success Sample.format_other
                    Sample.no_backend None (VStr "") SampleMore.saves_index
                    SampleMore.indexed_state)).
    reflexivity.
Defined.

(** ** The document agent: chunks and sources *)

Lemma enumerate_chunks_length (chunks : list string) (i : nat) :
  List.length (RAGAgent.enumerate_chunks i chunks) = List.length chunks.
Proof.
  revert i. induction chunks as [|chunk chunks IH]; intros i; simpl;
    [reflexivity | now rewrite IH].
Qed.

(** X23: the documents of the index follow the chunks: the document at
    position [n] holds the chunk at position [n] and is labelled
    "chunk_<n>", counting from the number the enumeration starts at, and
    there are as many documents as chunks. *)
Theorem enumerate_chunks_nth (chunks : list string) (i n : nat) :
  nth_error (RAGAgent.enumerate_chunks i chunks) n
  = option_map
      (fun chunk =>
         RAGAgent.mkDocument chunk
           [("source", VStr ("chunk_" ++ RAGAgent.string_of_nat (i + n)))])
      (nth_error chunks n)
  /\ List.length (RAGAgent.enumerate_chunks i chunks) = List.length chunks.
Proof.
  split; [|apply enumerate_chunks_length].
  revert i n. induction chunks as [|chunk chunks IH]; intros i n.
  - now destruct n.
  - destruct n as [|n]; cbn [RAGAgent.enumerate_chunks nth_error option_map].
    + now rewrite Nat.add_0_r.
    + rewrite IH. now rewrite Nat.add_succ_r.
Qed.

(** X24: what a processed document reports.  When the conversion gives
    [chunks] and the index is built, [process_document] answers [success]
    true, counts exactly the chunks, in the message and in
    [document_info], and the images found, and the agent holds the new
    index. *)
Theorem process_document_reports
        (backend : RAGAgent.Backend) (file_path : value) (st : RAGAgent.State)
        (converted : RAGAgent.ConversionResult) (chunks : list string)
        (vs : RAGAgent.VectorStore) :
  RAGAgent.doc_process_document backend file_path = Ret (converted, chunks) ->
  RAGAgent.faiss_from_documents backend (RAGAgent.enumerate_chunks 0 chunks)
  = Ret vs ->
  RAGAgent.process_document backend file_path st
  = (Ret (VDict
            [("success", VBool true);
             ("message",
              VStr ("Document processed successfully: "
                    ++ RAGAgent.string_of_nat (List.length chunks)
                    ++ " chunks created"));
             ("document_info",
              VDict [("chunks", VInt (Z.of_nat (List.length chunks)));
                     ("images",
                      VInt (Z.of_nat
                              (List.length
                                 (RAGAgent.get_images_from_document converted))))])]),
     RAGAgent.mkState (Some vs)).
Proof.
  intros Hconv Hindex.
  unfold RAGAgent.process_document, RAGAgent.set_vectorstore, try_except,
    bind, lift, ret.
  rewrite Hconv. cbn [fst snd]. rewrite Hindex.
  now rewrite enumerate_chunks_length.
Qed.

Lemma process_document_reports_witness :
  RAGAgent.process_document
    (RAGAgent.mkBackend
       (fun _ => Ret (RAGAgent.mkConversion None,
                      ["a"; "b"; "c"]))
       (fun docs => Ret (RAGAgent.mkVectorStore docs))
       (fun _ _ => None)
       (fun _ => Raise (mkExc "RuntimeError" "no index"))
       (fun _ _ _ => Raise (mkExc "RuntimeError" "no chain")))
    (VStr "temp_doc.pdf") (RAGAgent.mkState None)
  = (Ret (VDict
            [("success", VBool true);
             ("message", VStr "Document processed successfully: 3 chunks created");
             ("document_info", VDict [("chunks", VInt 3); ("images", VInt 0)])]),
     RAGAgent.mkState
       (Some (RAGAgent.mkVectorStore
                (RAGAgent.enumerate_chunks 0 ["a"; "b"; "c"])))).
Proof.
  apply (process_document_reports
           (RAGAgent.mkBackend
              (fun _ => Ret (RAGAgent.mkConversion None,
                             ["a"; "b"; "c"]))
              (fun docs => Ret (RAGAgent.mkVectorStore docs))
              (fun _ _ => None)
              (fun _ => Raise (mkExc "RuntimeError" "no index"))
              (fun _ _ _ => Raise (mkExc "RuntimeError" "no chain")))
           (VStr "temp_doc.pdf") (RAGAgent.mkState None)
           (RAGAgent.mkConversion None)
           ["a"; "b"; "c"]);
    reflexivity.
Defined.

Lemma length_append (s t : string) :
  String.length (s ++ t) = String.length s + String.length t.
Proof. induction s; simpl; congruence. Qed.

Lemma take_prefix (n : nat) (s : string) :
  String.length (String.take n s) = Nat.min n (String.length s)
  /\ exists rest, s = String.take n s ++ rest.
Proof.
  revert n. induction s as [|c s IH]; intros n.
  - destruct n; simpl; split; try reflexivity; now exists "".
  - destruct n as [|n]; simpl.
    + split; [reflexivity | now exists (String c s)].
    + destruct (IH n) as [Hlen [rest Hrest]]. split; [now rewrite Hlen|].
      exists rest. now rewrite <- Hrest.
Qed.

(** X25: a source shown with an answer is short.  The [content] of a
    source chunk is the page content itself when that has at most 200
    characters, and otherwise its first 200 characters followed by "...",
    so never more than 203 characters; the [source] is the document's
    label, or "unknown" when it has none. *)
Theorem source_chunk_bounded (doc : RAGAgent.Document) :
  exists content,
    RAGAgent.source_chunk doc
    = VDict [("source",
              dict_get_default "source" (VStr "unknown") (RAGAgent.metadata doc));
             ("content", VStr content)]
    /\ String.length content <= 203
    /\ (String.length (RAGAgent.page_content doc) <= 200 ->
        content = RAGAgent.page_content doc)
    /\ (200 < String.length (RAGAgent.page_content doc) ->
        String.length content = 203
        /\ exists first rest,
            String.length first = 200
            /\ RAGAgent.page_content doc = first ++ rest
            /\ content = first ++ "...").
Proof.
  unfold RAGAgent.source_chunk.
  destruct (take_prefix 200 (RAGAgent.page_content doc)) as [Hlen [rest Hrest]].
  destruct (Nat.ltb_spec 200 (String.length (RAGAgent.page_content doc)))
    as [Hlong|Hshort].
  - eexists. split; [reflexivity|].
    rewrite length_append, Hlen. cbn [String.length].
    split; [lia|]. split; [lia|]. intros _. split; [lia|].
    exists (String.take 200 (RAGAgent.page_content doc)), rest.
    split; [lia|]. now split.
  - eexists. split; [reflexivity|].
    split; [lia|]. split; [reflexivity | lia].
Qed.

Lemma source_chunk_bounded_witness :
  exists content,
    RAGAgent.source_chunk (RAGAgent.mkDocument "court" [])
    = VDict [("source", VStr "unknown"); ("content", VStr content)]
    /\ content = "court".
Proof.
  destruct (source_chunk_bounded (RAGAgent.mkDocument "court" []))
    as (content & Hchunk & _ & Hshort & _).
  exists content. split; [exact Hchunk|].
  apply Hshort. simpl. lia.
Defined.

(** ** The forms of the UI: lists typed as text *)

Lemma str_contains_cons (lit : string) (c : char) (s : string) :
  str_contains lit (String c s)
  = starts_with lit (String c s) || str_contains lit s.
Proof. reflexivity. Qed.

Lemma str_contains_lstrip (lit s : string) :
  str_contains lit s = false -> str_contains lit (lstrip s) = false.
Proof.
  induction s as [|c s IH]; [auto|].
  intros H. simpl lstrip. destruct (is_space c); [|exact H].
  rewrite str_contains_cons in H. apply orb_false_elim in H. now apply IH.
Qed.

Lemma str_contains_empty (lit : string) :
  lit <> "" -> str_contains lit "" = false.
Proof. destruct lit; [congruence | reflexivity]. Qed.

Lemma str_contains_rstrip (lit s : string) :
  lit <> "" -> str_contains lit s = false -> str_contains lit (rstrip s) = false.
Proof.
  intros Hlit. induction s as [|c s IH]; [auto|].
  intros H. rewrite str_contains_cons in H. apply orb_false_elim in H.
  destruct H as [Hhead Htail]. simpl rstrip.
  destruct (is_space c && is_empty (rstrip s));
    [now apply str_contains_empty|].
  rewrite str_contains_cons. rewrite (IH Htail), orb_false_r.
  destruct (starts_with lit (String c (rstrip s))) eqn:E; [|reflexivity].
  destruct (rstrip_prefix s) as [t Ht].
  apply (starts_with_app _ _ t) in E. simpl append in E.
  rewrite <- Ht in E. congruence.
Qed.

Lemma strip_idem (s : string) : strip (strip s) = strip s.
Proof. apply strip_fixed; apply strip_stripped. Qed.

Lemma is_empty_false (s : string) : is_empty s = false <-> s <> "".
Proof. destruct s; simpl; split; congruence. Qed.

Section Split.
Variable sep : string.
Hypothesis sep_not_empty : sep <> "".

Lemma no_sep_inside_contains (acc s : string) :
  no_sep_inside sep acc s -> str_contains sep acc = false.
Proof.
  induction acc as [|c acc IH]; intros H.
  - now apply str_contains_empty.
  - rewrite str_contains_cons. apply orb_false_intro.
    + specialize (H "" (String c acc) eq_refl).
      destruct (starts_with sep (String c acc)) eqn:E; [|reflexivity].
      apply (starts_with_app _ _ s) in E. rewrite H in E; [discriminate|discriminate].
    + apply IH. intros u v -> Hv. now apply (H (String c u) v).
Qed.

Lemma app_snoc_inv (u acc v : string) (c : char) :
  acc ++ String c "" = u ++ v -> v <> "" ->
  exists v', v = v' ++ String c "" /\ acc = u ++ v'.
Proof.
  revert acc. induction u as [|d u IH]; intros acc; simpl.
  - intros <- _. exists acc. now split.
  - destruct acc as [|d' acc]; simpl.
    + intros [= <- H] Hv. destruct u; simpl in H; [congruence | discriminate].
    + intros [= <- H] Hv. destruct (IH acc H Hv) as (v' & -> & ->).
      now exists v'.
Qed.

Lemma no_sep_inside_step (acc s : string) (c : char) :
  starts_with sep (String c s) = false ->
  no_sep_inside sep acc (String c s) ->
  no_sep_inside sep (acc ++ String c "") s.
Proof.
  intros Hc H u v Heq Hv.
  destruct (app_snoc_inv u acc v c Heq Hv) as (v' & -> & ->).
  rewrite append_assoc. simpl append.
  destruct v' as [|d v']; [exact Hc|].
  now apply (H u (String d v')).
Qed.

Lemma split_from_no_sep (s acc : string) (skip : nat) :
  (skip = 0 -> no_sep_inside sep acc s) -> (skip <> 0 -> acc = "") ->
  Forall (fun t => str_contains sep t = false) (UI.split_from sep skip acc s).
Proof.
  revert acc skip. induction s as [|c s IH]; intros acc skip H0 Hskip;
    cbn [UI.split_from].
  - constructor; [|constructor].
    destruct skip as [|n].
    + now apply (no_sep_inside_contains acc "") , H0.
    + rewrite Hskip by discriminate. now apply str_contains_empty.
  - destruct skip as [|n].
    + specialize (H0 eq_refl).
      destruct (starts_with sep (String c s)) eqn:Hc.
      * constructor; [now apply (no_sep_inside_contains acc (String c s))|].
        apply IH; [|reflexivity].
        intros _ u v Huv Hv. destruct u; destruct v; simpl in Huv; congruence.
      * apply IH; [|congruence]. intros _. now apply no_sep_inside_step.
    + apply IH.
      * intros _. rewrite Hskip by discriminate.
        intros u v Huv Hv. destruct u; destruct v; simpl in Huv; congruence.
      * intros _. apply Hskip. discriminate.
Qed.
End Split.

(** X26: the lists the UI sends are clean.  Whatever is typed, every item
    of the list made from it (technologies and sections split at commas,
    requirements at line ends, code snippets at fences) is not empty, has no
    whitespace at either end and holds no separator. *)
Theorem stripped_items_clean (sep s : string) :
  sep <> "" ->
  Forall (clean_item sep) (UI.stripped_items sep s).
Proof.
  intros Hsep. unfold UI.stripped_items, UI.split.
  assert (Hall : Forall (fun t => str_contains sep t = false)
                   (UI.split_from sep 0 "" s)).
  { apply split_from_no_sep; [assumption| |congruence].
    intros _ u v Huv Hv. destruct u; destruct v; simpl in Huv; congruence. }
  apply Forall_forall. intros t Ht. apply in_map_iff in Ht.
  destruct Ht as (t0 & <- & Ht0). apply filter_In in Ht0.
  destruct Ht0 as [Hin Hne]. rewrite Forall_forall in Hall.
  repeat split.
  - apply is_empty_false. now destruct (is_empty (strip t0)).
  - apply strip_idem.
  - unfold strip. apply str_contains_rstrip; [assumption|].
    apply str_contains_lstrip. now apply Hall.
Qed.

(** An item made of a no-break space (code point 160) is dropped too. *)
Lemma stripped_items_clean_witness :
  Forall (clean_item ",")
    (UI.stripped_items "," (" FastAPI ," ++ String 160%N ",Gradio,")).
Proof.
  apply (stripped_items_clean "," (" FastAPI ," ++ String 160%N ",Gradio,")).
  discriminate.
Defined.

Section SplitChar.
Variable c : char.
Let sep := String c EmptyString.

Lemma split_from_piece (x acc s : string) :
  str_contains sep x = false ->
  UI.split_from sep 0 acc (x ++ s) = UI.split_from sep 0 (acc ++ x) s.
Proof.
  revert acc. induction x as [|d x IH]; intros acc H.
  - now rewrite append_empty_r.
  - rewrite str_contains_cons in H. apply orb_false_elim in H.
    destruct H as [Hd Hx]. cbn [append UI.split_from].
    assert (Hd' : starts_with sep (String d (x ++ s)) = false).
    { unfold sep in *. cbn [starts_with] in *.
      now destruct (Char.eqb c d). }
    rewrite Hd', IH by assumption. now rewrite append_assoc.
Qed.

Lemma split_from_separator (acc s : string) :
  UI.split_from sep 0 acc (sep ++ s) = acc :: UI.split_from sep 0 "" s.
Proof.
  unfold sep. cbn [append UI.split_from starts_with String.length Nat.sub].
  now rewrite char_eqb_refl.
Qed.

Lemma split_join (l : list string) :
  l <> [] -> Forall (fun t => str_contains sep t = false) l ->
  UI.split sep (join sep l) = l.
Proof.
  unfold UI.split. induction l as [|x l IH]; [congruence|].
  intros _ Hall. inversion Hall as [|? ? Hx Hl]; subst.
  destruct l as [|y l]; cbn [join].
  - rewrite <- (append_empty_r x) at 1. rewrite split_from_piece by assumption.
    reflexivity.
  - rewrite split_from_piece by assumption. rewrite split_from_separator.
    cbn [append]. f_equal. apply IH; [discriminate | assumption].
Qed.
End SplitChar.

(** X27: nothing typed is lost.  For a separator of one character, clean
    items written one after the other with the separator between them come
    back as exactly those items, in order. *)
Theorem stripped_items_join (c : char) (l : list string) :
  Forall (clean_item (String c EmptyString)) l ->
  UI.stripped_items (String c EmptyString) (join (String c EmptyString) l) = l.
Proof.
  intros Hclean. unfold UI.stripped_items.
  destruct l as [|x l]; [reflexivity|].
  rewrite split_join;
    [|discriminate
     |apply Forall_forall; intros t Ht; rewrite Forall_forall in Hclean;
      now apply Hclean].
  assert (Hkeep : filter (fun t => negb (is_empty (strip t))) (x :: l) = x :: l).
  { apply forallb_filter_id. apply forallb_forall. intros t Ht.
    rewrite Forall_forall in Hclean. destruct (Hclean t Ht) as (Hne & Hs & _).
    rewrite Hs. apply negb_true_iff. now apply is_empty_false. }
  rewrite Hkeep. rewrite <- (map_id (x :: l)) at 2.
  apply map_ext_in. intros t Ht. rewrite Forall_forall in Hclean.
  now destruct (Hclean t Ht) as (_ & Hs & _).
Qed.

Lemma stripped_items_join_witness :
  UI.stripped_items "," (join "," ["FastAPI"; "Gradio"; "Ollama"])
  = ["FastAPI"; "Gradio"; "Ollama"].
Proof.
  apply (stripped_items_join 44%N ["FastAPI"; "Gradio"; "Ollama"]).
  repeat constructor; discriminate.
Defined.

(** ** The endpoints *)

(** [process_task] returns an envelope, or raises what is not an
    [Exception]. *)
Lemma process_task_envelope (w : world) (agent_id : string) (data : dict value) :
  (exists b message result w',
      Orch.process_task agent_id data w
      = (Ret [("success", VBool b); ("message", VStr message); ("result", result)],
         w'))
  \/ (exists e w',
        Orch.process_task agent_id data w = (Raise e, w')
        /\ is_exception e = false).
Proof.
  unfold Orch.process_task, dict_mem.
  destruct (dict_get agent_id (agents (orch w))) as [a|] eqn:Hget; cbn [negb].
  2:{ left. do 4 eexists. reflexivity. }
  unfold try_except, bind, Orch.lookup, Orch.agent_check_status,
    Orch.agent_process.
  rewrite Hget.
  destruct (BaseAgent.check_status a) as [status|e]; cbn [orch calls].
  2:{ destruct (is_exception e) eqn:Hexc;
        [left; do 4 eexists; reflexivity | right; do 2 eexists; now split]. }
  destruct (truthy status); cbn [negb]; [|left; do 4 eexists; reflexivity].
  destruct (BaseAgent.process a data) as [[r|e] a'];
    [left; do 4 eexists; reflexivity|].
  destruct (is_exception e) eqn:Hexc;
    [left; do 4 eexists; reflexivity | right; do 2 eexists; now split].
Qed.

(** Once the status check passes, what [process] returns is the [result]. *)
Lemma process_task_answer (w : world) (agent_id : string)
      (data : dict value) (a a' : Agent) (status answer : value) :
  dict_get agent_id (agents (orch w)) = Some a ->
  BaseAgent.check_status a = Ret status ->
  truthy status = true ->
  BaseAgent.process a data = (Ret answer, a') ->
  Orch.process_task agent_id data w
  = (Ret [("success", VBool true);
          ("message", VStr ("Tâche traitée par " ++ agent_id));
          ("result", answer)],
     mkWorld (mkOrchestrator (dict_set agent_id a' (agents (orch w))))
             ((calls w ++ [CallCheckStatus agent_id])
              ++ [CallProcess agent_id data])%list).
Proof.
  intros Hget Hstatus Htrue Hproc.
  unfold Orch.process_task, dict_mem. rewrite Hget. cbn [negb].
  unfold try_except, bind, Orch.lookup, Orch.agent_check_status,
    Orch.agent_process, ret.
  rewrite Hget, Hstatus. cbn [orch calls agents]. rewrite Htrue. cbn [negb].
  now rewrite Hproc.
Qed.

(** X28: [POST /code/improve] answers with what the agent answered.  With
    an agent registered under "code" whose status check passes, whatever
    [process] returns for the request is what the endpoint returns, with
    no HTTP error, also when that answer has [success] false. *)
Theorem improve_code_returns_answer
        (http_exception_str : nat -> value -> string)
        (w : world) (request : dict value) (a : Agent) (status answer : value) :
  dict_get "code" (agents (orch w)) = Some a ->
  BaseAgent.check_status a = Ret status ->
  truthy status = true ->
  fst (BaseAgent.process a request) = Ret answer ->
  fst (Api.improve_code http_exception_str request w) = Ret answer.
Proof.
  intros Hget Hstatus Htrue Hproc.
  destruct (BaseAgent.process a request) as [r a'] eqn:Hrun.
  cbn [fst] in Hproc. subst r.
  unfold Api.improve_code, try_except, bind, lift.
  now rewrite (process_task_answer w "code" request a a' status answer
                 Hget Hstatus Htrue Hrun).
Qed.

(** The server cannot be reached: the agent's answer has [success] false,
    and the endpoint returns it with status 200. *)
Lemma improve_code_returns_answer_witness :
  fst (Api.improve_code SampleMore.http_exception_str
         (Api.code_request "x = 1" "correction" [] "")
         (mkWorld (Sample.orchestrator (Sample.ollama Sample.unreachable) None) []))
  = Ret (VDict [("improved_code", VStr "");
                ("explanation", VStr "");
                ("success", VBool false);
                ("message",
                 VStr "Erreur lors de l'amélioration du code: All connection attempts failed")]).
Proof.
  apply (improve_code_returns_answer SampleMore.http_exception_str
           (mkWorld (Sample.orchestrator (Sample.ollama Sample.unreachable) None) [])
           (Api.code_request "x = 1" "correction" [] "")
           (Sample.code_agent (Sample.ollama Sample.unreachable)) VCoroutine);
    reflexivity.
Defined.



(** X30: the UI cannot read what [POST /rag/query] returns.  The endpoint
    returns the whole envelope, whose fields are [success], [message] and
    [result]; [query_document] in the UI, finding [success] true, takes
    [result["answer"]], which the envelope does not have: every reply of
    the endpoint ends in KeyError in the UI. *)
Theorem rag_query_reply_unreadable
        (http_exception_str : nat -> value -> string)
        (format_other : value -> string)
        (w w' : world) (request : dict value) (body : value) :
  Api.rag_query http_exception_str request w = (Ret body, w') ->
  UI.query_document_result format_other body = Raise (key_error "'answer'").
Proof.
  destruct (process_task_envelope w "rag" request)
    as [(b & message & result & w1 & Hrun)|(e & w1 & Hrun & Hexc)];
    unfold Api.rag_query, try_except, bind, lift, raise, ret; rewrite Hrun.
  - change (RAGAgent.subscript
              [("success", VBool b); ("message", VStr message);
               ("result", result)] "success")
      with (@Ret value (VBool b)).
    cbv beta iota. cbn [truthy].
    destruct b; cbn [negb].
    + intros [= <- <-]. reflexivity.
    + change (RAGAgent.subscript
                [("success", VBool false); ("message", VStr message);
                 ("result", result)] "message")
        with (@Ret value (VStr message)).
      discriminate.
  - rewrite Hexc. discriminate.
Qed.

Lemma rag_query_reply_unreadable_witness :
  UI.query_document_result Sample.format_other
    (VDict [("success", VBool true);
            ("message", VStr "Tâche traitée par rag");
            ("result",
             VDict [("success", VBool false);
                    ("message",
                     VStr "No document has been processed. Process a document first.");
                    ("answer", VNone)])])
  = Raise (key_error "'answer'").
Proof.
  apply (rag_query_reply_unreadable SampleMore.http_exception_str
           Sample.format_other
           (mkWorld (Sample.orchestrator (Sample.sync_connector true)
                       (Some (Sample.sync_connector true))) [])
           (mkWorld (Sample.orchestrator (Sample.sync_connector true)
                       (Some (Sample.sync_connector true)))
                    [CallCheckStatus "rag";
                     CallProcess "rag" (Api.rag_request "X" VNone (VStr "query"))])
           (Api.rag_request "X" VNone (VStr "query"))).
  reflexivity.
Defined.
